(** * Sales dashboard: the metric and aggregation pipeline of [dashboard.py]

    A shallow embedding of the data pipeline of [src/dashboard.py]: the
    preprocessor ([load_and_preprocess_data]), the filter of the Dash callback
    ([update_dashboard], its filtering part), the metrics calculator
    ([calculate_advanced_metrics]), the data behind two of the charts
    ([plot_product_sales_share], [plot_profit_margin_trend]) and the insight
    generator ([generate_insights_and_recommendations]).

    A pandas [DataFrame] is a list of row records, a [Series] is a list of
    values.  Figures (plotly) and the HTML layout are not modelled; every
    plotting function is represented by the data frame it hands to plotly. *)

From Stdlib Require Import ZArith QArith Qcanon List String Ascii Bool Lia.
From Stdlib Require Import Permutation Sorted DecimalString.
Import ListNotations.

Local Open Scope string_scope.
Local Open Scope list_scope.
Local Open Scope Z_scope.

(** ** numpy [float64]

    The columns [Total_Sales] and [Profit] and every derived ratio are numpy
    [float64] values.  Finite values are carried as exact rationals: rounding
    and overflow to infinity are not modelled, and the sign of a zero is
    dropped (a zero divisor behaves as [+0.0]).  The special values of
    IEEE-754 and their arithmetic are modelled as numpy computes them:
    division by zero yields an infinity or NaN and raises nothing.

    A value computed here is therefore the value of the code up to rounding.
    A property that rounding can break (a sum being exactly 0, the sign of a
    difference of two sums, a result staying finite) is stated below for
    whole amounts of bounded size only ([whole_amounts]), on which no
    float64 sum is rounded ([sum_rounded_whole]). *)
Module Float64.

Inductive float64 : Type :=
| Fin (q : Qc)
| PInf
| NInf
| NaN.

Definition of_Z (z : Z) : float64 := Fin (Q2Qc (inject_Z z)).

Definition of_nat (n : nat) : float64 := of_Z (Z.of_nat n).

Definition isnan (x : float64) : bool :=
  match x with NaN => true | _ => false end.

Definition isinf (x : float64) : bool :=
  match x with PInf | NInf => true | _ => false end.

Definition isfinite (x : float64) : bool :=
  match x with Fin _ => true | _ => false end.

(** Sign of a value as a comparison with zero ([Eq] for zero). *)
Definition sign (x : float64) : comparison :=
  match x with
  | Fin q => (q ?= Q2Qc 0)%Qc
  | PInf => Gt
  | NInf => Lt
  | NaN => Eq
  end.

(** The infinity of a given sign; a zero sign stands for an invalid
    operation ([0/0], [inf * 0]) and gives NaN. *)
Definition signed_inf (s : comparison) : float64 :=
  match s with Gt => PInf | Lt => NInf | Eq => NaN end.

Definition mul_sign (s t : comparison) : comparison :=
  match s, t with
  | Eq, _ | _, Eq => Eq
  | Gt, Gt | Lt, Lt => Gt
  | _, _ => Lt
  end.

Definition neg (x : float64) : float64 :=
  match x with
  | Fin q => Fin (- q)%Qc
  | PInf => NInf
  | NInf => PInf
  | NaN => NaN
  end.

Definition add (x y : float64) : float64 :=
  match x, y with
  | NaN, _ | _, NaN => NaN
  | Fin a, Fin b => Fin (a + b)%Qc
  | PInf, NInf | NInf, PInf => NaN
  | PInf, _ | _, PInf => PInf
  | NInf, _ | _, NInf => NInf
  end.

Definition sub (x y : float64) : float64 := add x (neg y).

Definition mul (x y : float64) : float64 :=
  match x, y with
  | NaN, _ | _, NaN => NaN
  | Fin a, Fin b => Fin (a * b)%Qc
  | _, _ => signed_inf (mul_sign (sign x) (sign y))
  end.

(** [x / y].  A finite value over zero is an infinity of the sign of the
    numerator, [0 / 0] is NaN. *)
Definition div (x y : float64) : float64 :=
  match x, y with
  | NaN, _ | _, NaN => NaN
  | Fin a, Fin b =>
      if Qc_eq_bool b (Q2Qc 0) then signed_inf (a ?= Q2Qc 0)%Qc
      else Fin (a / b)%Qc
  | Fin _, _ => Fin (Q2Qc 0)
  | _, Fin b =>
      signed_inf (mul_sign (sign x)
                    (if Qc_eq_bool b (Q2Qc 0) then Gt else (b ?= Q2Qc 0)%Qc))
  | _, _ => NaN
  end.

(** IEEE [x < y]: false as soon as one side is NaN. *)
Definition ltb (x y : float64) : bool :=
  match x, y with
  | NaN, _ | _, NaN => false
  | Fin a, Fin b => match (a ?= b)%Qc with Lt => true | _ => false end
  | NInf, NInf => false
  | NInf, _ => true
  | _, NInf => false
  | PInf, _ => false
  | _, PInf => true
  end.

(** IEEE [x <= y]. *)
Definition leb (x y : float64) : bool :=
  negb (isnan x) && negb (isnan y) && negb (ltb y x).

(** Structural equality test (NaN equals NaN here: this compares values of
    the model, it is not the IEEE [==]). *)
Definition eqb (x y : float64) : bool :=
  match x, y with
  | Fin a, Fin b => Qc_eq_bool a b
  | PInf, PInf | NInf, NInf | NaN, NaN => true
  | _, _ => false
  end.

End Float64.
Import Float64.

Declare Scope float64_scope.
Delimit Scope float64_scope with f64.
Bind Scope float64_scope with float64.
Infix "+" := add : float64_scope.
Infix "-" := sub : float64_scope.
Infix "*" := mul : float64_scope.
Infix "/" := div : float64_scope.

(** ** numpy [int64]: sums wrap around. *)
Definition wrap64 (z : Z) : Z := (z + 2 ^ 63) mod 2 ^ 64 - 2 ^ 63.

(** ** Exceptions

    Python exceptions that the modelled code can raise, and the result of a
    computation that may raise. *)
Inductive exn : Type :=
| ValueError (msg : string)
| KeyError (msg : string)
| IndexError (msg : string)
| ZeroDivisionError (msg : string).

Inductive result (A : Type) : Type :=
| Return (a : A)
| Raise (e : exn).
Arguments Return {A} a.
Arguments Raise {A} e.

Definition bind {A B : Type} (m : result A) (k : A -> result B) : result B :=
  match m with
  | Return a => k a
  | Raise e => Raise e
  end.

Notation "x <- m ;; k" := (bind m (fun x => k))
  (at level 61, m at next level, right associativity).

(** ** Keys of a [groupby]: a sortable type. *)
Class Ord (K : Type) : Type := { leb : K -> K -> bool }.

Definition eqb_key {K : Type} `{Ord K} (a b : K) : bool := leb a b && leb b a.

#[export] Instance Ord_Z : Ord Z := {| leb := Z.leb |}.

#[export] Instance Ord_string : Ord string := {| leb := String.leb |}.

(** ** pandas [Series] and [DataFrame] operations *)
Section Pandas.

Context {R K : Type} `{Ord K}.

(** [Series.dropna()]. *)
Definition dropna (s : list float64) : list float64 :=
  filter (fun x => negb (isnan x)) s.

(** [Series.sum()] of a float column: NaN entries are skipped
    ([skipna=True]), the sum of no entries is [0.0]. *)
Definition sum (s : list float64) : float64 :=
  fold_left add (dropna s) (Fin (Q2Qc 0)).

(** [Series.sum()] of an [int64] column. *)
Definition sum_int64 (s : list Z) : Z :=
  fold_left (fun acc x => wrap64 (acc + x)) s 0.

(** [Series.mean()] of a float column: the mean of the non-NaN entries, NaN
    when there is none. *)
Definition mean (s : list float64) : float64 :=
  (sum s / of_nat (List.length (dropna s)))%f64.

(** [Series.mean()] of a boolean column: the fraction of [True]. *)
Definition mean_bool (s : list bool) : float64 :=
  (of_nat (List.length (filter (fun b => b) s)) / of_nat (List.length s))%f64.

(** Insertion of a key into a sorted list of distinct keys. *)
Fixpoint insert_key (k : K) (ks : list K) : list K :=
  match ks with
  | [] => [k]
  | x :: ks' =>
      if eqb_key k x then ks
      else if leb k x then k :: ks
      else x :: insert_key k ks'
  end.

(** The distinct keys of a column in ascending order: the index of a
    [groupby] ([sort=True]). *)
Definition group_keys (col : list K) : list K :=
  fold_right insert_key [] col.

(** [df.groupby(key)]: one group per distinct key, keys ascending, each
    group holding its rows in the order of the frame. *)
Definition groupby (key : R -> K) (df : list R) : list (K * list R) :=
  map (fun k => (k, filter (fun r => eqb_key (key r) k) df))
      (group_keys (map key df)).

(** [df.groupby(key)[col].sum().reset_index()]. *)
Definition groupby_sum (key : R -> K) (col : R -> float64) (df : list R)
  : list (K * float64) :=
  map (fun g => (fst g, sum (map col (snd g)))) (groupby key df).

(** [df.groupby(key)[col].mean().reset_index()]. *)
Definition groupby_mean (key : R -> K) (col : R -> float64) (df : list R)
  : list (K * float64) :=
  map (fun g => (fst g, mean (map col (snd g)))) (groupby key df).

(** [sort_values]: a stable insertion sort by [before], where [before a b]
    tells that [a] may stand before [b].  pandas sorts with quicksort, which
    fixes no order among rows of equal sort value; nothing below depends on
    that order. *)
Fixpoint insert_by (before : R -> R -> bool) (a : R) (l : list R) : list R :=
  match l with
  | [] => [a]
  | b :: l' => if before a b then a :: l else b :: insert_by before a l'
  end.

Definition sort_values (before : R -> R -> bool) (l : list R) : list R :=
  fold_right (insert_by before) [] l.

(** [df.iloc[i]] with Python indexing: a negative position counts from the
    end; a position outside the frame raises [IndexError]. *)
Definition iloc (i : Z) (l : list R) : result R :=
  let n := Z.of_nat (List.length l) in
  let pos := if i <? 0 then n + i else i in
  if (0 <=? pos) && (pos <? n) then
    match nth_error l (Z.to_nat pos) with
    | Some r => Return r
    | None => Raise (IndexError "single positional indexer is out-of-bounds")
    end
  else Raise (IndexError "single positional indexer is out-of-bounds").

(** [series.values[0]]. *)
Definition values_0 (l : list R) : result R :=
  match l with
  | r :: _ => Return r
  | [] => Raise (IndexError "index 0 is out of bounds for axis 0 with size 0")
  end.

(** [Series.isin(values)]. *)
Definition isin (eqb : R -> R -> bool) (x : R) (values : list R) : bool :=
  existsb (eqb x) values.

End Pandas.

(** Order of [sort_values(col, ascending=False)] on a float column: larger
    values first, NaN last. *)
Definition before_desc (x y : float64) : bool :=
  if isnan y then true else if isnan x then false else negb (ltb x y).

(** [Series.idxmax()] on a frame with the default index, followed by
    [df.loc[...]]: the first row whose value is the largest, NaN skipped.
    On an empty series pandas raises [ValueError]; on a series of NaN only,
    [idxmax] gives NaN and the lookup [df.loc[nan]] raises [KeyError]
    (pandas 3 raises [ValueError] in [idxmax] itself: an error either way). *)
Fixpoint first_max {A : Type} (col : A -> float64) (best : A) (l : list A) : A :=
  match l with
  | [] => best
  | r :: l' => first_max col (if ltb (col best) (col r) then r else best) l'
  end.

Definition loc_idxmax {A : Type} (col : A -> float64) (df : list A) : result A :=
  match df with
  | [] => Raise (ValueError "attempt to get argmax of an empty sequence")
  | _ =>
      match filter (fun r => negb (isnan (col r))) df with
      | [] => Raise (KeyError "nan")
      | r :: l => Return (first_max col r l)
      end
  end.

(** ** The data model *)

(** A parsed [Order_Date] (the result of [pd.to_datetime]); the time within
    the day plays no part in what follows. *)
Record datetime : Type := {
  year : Z;
  month : Z;
  day : Z
}.

(** [Series.dt.to_period('M')]: a calendar month, ordered by year then month. *)
Record period : Type := {
  p_year : Z;
  p_month : Z
}.

#[export] Instance Ord_period : Ord period :=
  {| leb := fun a b =>
       (p_year a <? p_year b) || ((p_year a =? p_year b) && (p_month a <=? p_month b)) |}.

(** Decimal digits, for years [0..9999] and months [1..12]; a pandas
    timestamp has a year between 1677 and 2262. *)
Definition digit (d : Z) : ascii := ascii_of_nat (48 + Z.to_nat (d mod 10)).

Definition zfill2 (n : Z) : string :=
  String (digit (n / 10)) (String (digit n) "").

Definition zfill4 (n : Z) : string :=
  String (digit (n / 1000)) (String (digit (n / 100)) (zfill2 n)).

(** [strftime('%Y-%m')]. *)
Definition strftime_Y_m (d : datetime) : string :=
  (zfill4 (year d) ++ "-" ++ zfill2 (month d))%string.

(** [str] of a monthly period. *)
Definition period_str (p : period) : string :=
  (zfill4 (p_year p) ++ "-" ++ zfill2 (p_month p))%string.

(** [Series.dt.month_name()]. *)
Definition month_name (d : datetime) : string :=
  nth (Z.to_nat (month d - 1))
    ["January"; "February"; "March"; "April"; "May"; "June"; "July";
     "August"; "September"; "October"; "November"; "December"] "".

(** [Series.dt.quarter]. *)
Definition quarter (d : datetime) : Z := (month d - 1) / 3 + 1.

(** A row of the CSV file as [pd.read_csv] and [pd.to_datetime] deliver it. *)
Module Raw.
Record row : Type := {
  Order_Date : datetime;
  Hour : Z;
  Day_of_Week : string;
  Product_ID : Z;
  Region_ID : Z;
  Sales_Rep_ID : Z;
  Quantity_Sold : Z;
  Total_Sales : float64;
  Profit : float64;
  Return_Flag : Z;
  Year : Z;
  Month : Z
}.
End Raw.

(** A row of the enriched frame returned by [load_and_preprocess_data]. *)
Record row : Type := {
  Order_Date : datetime;
  Hour : Z;
  Day_of_Week : string;
  Product_ID : Z;
  Region_ID : Z;
  Sales_Rep_ID : Z;
  Quantity_Sold : Z;
  Total_Sales : float64;
  Profit : float64;
  Return_Flag : bool;
  Year : Z;
  Month : Z;
  Time_of_Day : string;
  Month_Year : period;
  Month_Name : string;
  Quarter : Z;
  Year_Month : string;
  Profit_Margin : float64;
  Order_Size : float64
}.

(** The dictionary returned by [calculate_advanced_metrics]. *)
Module Metrics.
Record t : Type := {
  Total_Sales : float64;
  Total_Quantity : Z;
  Total_Profit : float64;
  Avg_Order_Size : float64;
  Return_Rate : float64;
  MoM_Growth : float64;
  YoY_Growth : float64
}.
End Metrics.

(** ** [load_and_preprocess_data] *)

(** The dictionary [time_of_day] of hour ranges. *)
Definition time_of_day (name : string) : Z * Z :=
  if (name =? "Morning")%string then (5, 11)
  else if (name =? "Afternoon")%string then (12, 16)
  else if (name =? "Evening")%string then (17, 20)
  else (21, 4).

Definition categorize_time_of_day (hour : Z) : string :=
  if (fst (time_of_day "Morning") <=? hour) && (hour <=? snd (time_of_day "Morning"))
  then "Morning"
  else if (fst (time_of_day "Afternoon") <=? hour) && (hour <=? snd (time_of_day "Afternoon"))
  then "Afternoon"
  else if (fst (time_of_day "Evening") <=? hour) && (hour <=? snd (time_of_day "Evening"))
  then "Evening"
  else "Night".

(** The columns added to one row. *)
Definition preprocess_row (r : Raw.row) : row :=
  {| Order_Date := Raw.Order_Date r;
     Hour := Raw.Hour r;
     Day_of_Week := Raw.Day_of_Week r;
     Product_ID := Raw.Product_ID r;
     Region_ID := Raw.Region_ID r;
     Sales_Rep_ID := Raw.Sales_Rep_ID r;
     Quantity_Sold := Raw.Quantity_Sold r;
     Total_Sales := Raw.Total_Sales r;
     Profit := Raw.Profit r;
     Return_Flag := negb (Raw.Return_Flag r =? 0);
     Year := Raw.Year r;
     Month := Raw.Month r;
     Time_of_Day := categorize_time_of_day (Raw.Hour r);
     Month_Year := {| p_year := year (Raw.Order_Date r);
                      p_month := month (Raw.Order_Date r) |};
     Month_Name := month_name (Raw.Order_Date r);
     Quarter := quarter (Raw.Order_Date r);
     Year_Month := strftime_Y_m (Raw.Order_Date r);
     Profit_Margin := (Raw.Profit r / Raw.Total_Sales r * of_Z 100)%f64;
     Order_Size := (Raw.Total_Sales r / of_Z (Raw.Quantity_Sold r))%f64 |}.

(** The argument is the parsed CSV file rather than its path.  The result
    is a frame with numeric columns (float64, int64, bool), as [pd.read_csv]
    infers them from a file with at least one data row; the frame of a file
    without data rows is [object_empty] below, see [load_frame]. *)
Definition load_and_preprocess_data (csv : list Raw.row) : list row :=
  map preprocess_row csv.

(** ** [calculate_advanced_metrics] *)

(** [df.groupby('Year_Month')['Total_Sales'].sum().reset_index()], with the
    column [Total_Sales] of the result as second component. *)
Definition monthly_sales (df : list row) : list (string * float64) :=
  groupby_sum Year_Month Total_Sales df.

(** The calculator on a frame with numeric columns: its sums are numpy
    scalars, whose division by zero gives NaN or an infinity.  The frame of
    a file without data rows is treated in [metrics_of_frame]. *)
Definition calculate_advanced_metrics (df : list row) : result Metrics.t :=
  let Total_Sales_ := sum (map Total_Sales df) in
  let Total_Quantity_ := sum_int64 (map Quantity_Sold df) in
  let Total_Profit_ := sum (map Profit df) in
  let Avg_Order_Size_ :=
    (sum (map Total_Sales df) / of_Z (sum_int64 (map Quantity_Sold df)))%f64 in
  let Return_Rate_ := (mean_bool (map Return_Flag df) * of_Z 100)%f64 in
  let monthly_sales := monthly_sales df in
  MoM_Growth_ <-
    (if (2 <=? List.length monthly_sales)%nat then
       current_month <- iloc (-1) monthly_sales ;;
       previous_month <- iloc (-2) monthly_sales ;;
       Return ((snd current_month - snd previous_month) / snd previous_month
               * of_Z 100)%f64
     else Return (of_Z 0)) ;;
  YoY_Growth_ <-
    (if (13 <=? List.length monthly_sales)%nat then
       current_month <- iloc (-1) monthly_sales ;;
       year_ago_month <- iloc (-13) monthly_sales ;;
       Return ((snd current_month - snd year_ago_month) / snd year_ago_month
               * of_Z 100)%f64
     else Return (of_Z 0)) ;;
  Return {| Metrics.Total_Sales := Total_Sales_;
            Metrics.Total_Quantity := Total_Quantity_;
            Metrics.Total_Profit := Total_Profit_;
            Metrics.Avg_Order_Size := Avg_Order_Size_;
            Metrics.Return_Rate := Return_Rate_;
            Metrics.MoM_Growth := MoM_Growth_;
            Metrics.YoY_Growth := YoY_Growth_ |}.

(** ** [plot_product_sales_share]

    The frame [plot_data] given to [px.pie]: the five products of largest
    summed sales followed by the row ['Others']. *)
Inductive product_label : Type :=
| Product (id : Z)
| Others.

Definition product_sales (df : list row) : list (Z * float64) :=
  groupby_sum Product_ID Total_Sales df.

Definition top_products (df : list row) : list (Z * float64) :=
  firstn 5 (sort_values (fun a b => before_desc (snd a) (snd b)) (product_sales df)).

Definition other_products (df : list row) : list (product_label * float64) :=
  [(Others,
    (sum (map snd (product_sales df)) - sum (map snd (top_products df)))%f64)].

Definition plot_product_sales_share (df : list row) : list (product_label * float64) :=
  (map (fun p => (Product (fst p), snd p)) (top_products df) ++ other_products df).

(** ** [plot_profit_margin_trend]

    The frame [monthly_margin] given to [px.line]. *)
Definition plot_profit_margin_trend (df : list row) : list (string * float64) :=
  let monthly_margin := groupby_mean Month_Year Profit_Margin df in
  let monthly_margin := map (fun g => (period_str (fst g), snd g)) monthly_margin in
  sort_values (fun a b => String.leb (fst a) (fst b)) monthly_margin.

(** ** [generate_insights_and_recommendations]

    An insight or a recommendation is a fixed sentence with computed figures
    in it; the sentence is represented by its kind and its figures, the
    formatting of the figures is left out. *)
Inductive insight : Type :=
| PeakSalesTime (peak_time : string) (peak_sales_percentage : float64)
| BestProduct (product_id : Z) (total_sales product_contribution : float64)
| BestRegion (region_id : Z) (total_sales region_contribution : float64).

Inductive recommendation : Type :=
| IncreaseEfforts (peak_time : string)
| FocusOnProduct (product_id : Z) (profit : float64).

Definition generate_insights_and_recommendations (df : list row)
  : result (list insight * list recommendation) :=
  (* Insight 1: peak sales time *)
  let tod_sales := groupby_sum Time_of_Day Total_Sales df in
  peak_row <- loc_idxmax snd tod_sales ;;
  let peak_time := fst peak_row in
  peak_sales <-
    values_0 (map snd (filter (fun g => (fst g =? peak_time)%string) tod_sales)) ;;
  let peak_sales_percentage := (peak_sales / sum (map Total_Sales df) * of_Z 100)%f64 in
  let insights := [PeakSalesTime peak_time peak_sales_percentage] in
  (* Insight 2: best performing product *)
  let product_sales := groupby_sum Product_ID Total_Sales df in
  top_product <- loc_idxmax snd product_sales ;;
  let product_contribution :=
    (snd top_product / sum (map Total_Sales df) * of_Z 100)%f64 in
  let insights :=
    (insights ++ [BestProduct (fst top_product) (snd top_product) product_contribution]) in
  (* Insight 3: best performing region *)
  let region_sales := groupby_sum Region_ID Total_Sales df in
  top_region <- loc_idxmax snd region_sales ;;
  let region_contribution :=
    (snd top_region / sum (map Total_Sales df) * of_Z 100)%f64 in
  let insights :=
    (insights ++ [BestRegion (fst top_region) (snd top_region) region_contribution]) in
  (* Recommendation 1 *)
  let recommendations := [IncreaseEfforts peak_time] in
  (* Recommendation 2 *)
  let product_profit := groupby_sum Product_ID Profit df in
  high_margin_product <- loc_idxmax snd product_profit ;;
  let recommendations :=
    (recommendations ++
     [FocusOnProduct (fst high_margin_product) (snd high_margin_product)]) in
  Return (insights, recommendations).

(** ** [update_dashboard]

    The values of the three dropdowns: [None] or a list for the two
    multi-selections, [None] or a number for the year. *)

(** Truth value of a dropdown value in [if selected_regions:]. *)
Definition truthy_list {A : Type} (v : option (list A)) : bool :=
  match v with
  | Some (_ :: _) => true
  | _ => false
  end.

(** The selected values, once the test has passed. *)
Definition default_list {A : Type} (v : option (list A)) : list A :=
  match v with
  | Some l => l
  | None => []
  end.

(** Truth value of a number or [None] in [if selected_year:]. *)
Definition truthy_int (v : option Z) : bool :=
  match v with
  | Some y => negb (y =? 0)
  | None => false
  end.

Definition default_int (v : option Z) : Z :=
  match v with
  | Some y => y
  | None => 0
  end.

(** The filters of [update_dashboard]: the frame [filtered_df] after the
    three [if] statements. *)
Definition filtered_df (df : list row)
    (selected_regions : option (list Z))
    (selected_times : option (list string))
    (selected_year : option Z) : list row :=
  let filtered_df := df in
  let filtered_df :=
    if truthy_list selected_regions
    then filter (fun r => isin Z.eqb (Region_ID r) (default_list selected_regions)) filtered_df
    else filtered_df in
  let filtered_df :=
    if truthy_list selected_times
    then filter (fun r => isin String.eqb (Time_of_Day r) (default_list selected_times)) filtered_df
    else filtered_df in
  let filtered_df :=
    if truthy_int selected_year
    then filter (fun r => Year r =? default_int selected_year) filtered_df
    else filtered_df in
  filtered_df.

(** ** Notions used to state the properties *)

(** The laws of a key order: a total order whose equivalence is equality. *)
Class OrdLaws (K : Type) `{Ord K} : Prop := {
  leb_total : forall a b : K, leb a b = true \/ leb b a = true;
  leb_trans : forall a b c : K, leb a b = true -> leb b c = true -> leb a c = true;
  leb_antisym : forall a b : K, leb a b = true -> leb b a = true -> a = b
}.

(** Strictly below, for keys. *)
Definition ltk {K : Type} `{Ord K} (a b : K) : Prop := leb b a = false.

(** The rational carried by a finite value, zero for the others. *)
Definition qval (x : float64) : Qc :=
  match x with
  | Fin q => q
  | _ => Q2Qc 0
  end.

(** Exact sum of the finite entries of a column. *)
Definition qsum (s : list float64) : Qc :=
  fold_right (fun x acc => (qval x + acc)%Qc) (Q2Qc 0) s.

(** A column without infinite entries (NaN, a missing value, is allowed). *)
Definition no_inf (s : list float64) : Prop :=
  Forall (fun x => isinf x = false) s.

(** The monthly sales totals of a view, sorted ascending by year-month key:
    [ms] lists every year-month key of the view once, in strictly ascending
    order, each with the sum of [Total_Sales] over the rows of that month. *)
Definition sorted_monthly_totals (df : list row) (ms : list (string * float64)) : Prop :=
  StronglySorted ltk (map fst ms) /\
  (forall k, In k (map fst ms) <-> In k (map Year_Month df)) /\
  (forall k v, In (k, v) ms ->
     v = sum (map Total_Sales (filter (fun r => (Year_Month r =? k)%string) df))).

(** The number of distinct year-month keys of a view. *)
Definition distinct_months (df : list row) : nat :=
  List.length (nodup string_dec (map Year_Month df)).

(** The number of distinct product ids of a view. *)
Definition distinct_products (df : list row) : nat :=
  List.length (nodup Z.eq_dec (map Product_ID df)).

(** The value of the row ['Others'] of the product-share frame. *)
Definition others_bucket (df : list row) : float64 :=
  (sum (map snd (product_sales df)) - sum (map snd (top_products df)))%f64.

(** The record predicate of the filter engine as the specification words it. *)
Definition in_set {A : Type} (eqb : A -> A -> bool) (x : A) (s : option (list A)) : bool :=
  match s with
  | None | Some [] => true
  | Some l => isin eqb x l
  end.

Definition filter_predicate
    (selected_regions : option (list Z))
    (selected_times : option (list string))
    (selected_year : option Z) (r : row) : bool :=
  in_set Z.eqb (Region_ID r) selected_regions &&
  in_set String.eqb (Time_of_Day r) selected_times &&
  match selected_year with
  | None => true
  | Some y => Year r =? y
  end.

(** A snapshot whose fields are all zero. *)
Definition zero_snapshot : Metrics.t :=
  {| Metrics.Total_Sales := of_Z 0;
     Metrics.Total_Quantity := 0;
     Metrics.Total_Profit := of_Z 0;
     Metrics.Avg_Order_Size := of_Z 0;
     Metrics.Return_Rate := of_Z 0;
     Metrics.MoM_Growth := of_Z 0;
     Metrics.YoY_Growth := of_Z 0 |}.

(** The snapshot that the code computes for a view without rows. *)
Definition empty_view_snapshot : Metrics.t :=
  {| Metrics.Total_Sales := of_Z 0;
     Metrics.Total_Quantity := 0;
     Metrics.Total_Profit := of_Z 0;
     Metrics.Avg_Order_Size := NaN;
     Metrics.Return_Rate := NaN;
     Metrics.MoM_Growth := of_Z 0;
     Metrics.YoY_Growth := of_Z 0 |}.

(** ** Sample data *)

Definition mk_raw (y m d hour product region qty : Z) (sales profit : float64)
    (ret : Z) : Raw.row :=
  {| Raw.Order_Date := {| year := y; month := m; day := d |};
     Raw.Hour := hour;
     Raw.Day_of_Week := "Monday";
     Raw.Product_ID := product;
     Raw.Region_ID := region;
     Raw.Sales_Rep_ID := 1;
     Raw.Quantity_Sold := qty;
     Raw.Total_Sales := sales;
     Raw.Profit := profit;
     Raw.Return_Flag := ret;
     Raw.Year := y;
     Raw.Month := m |}.

(** Three orders in two regions and two months. *)
Definition sample_orders : list row :=
  load_and_preprocess_data
    [ mk_raw 2023 1 5 9 1 1 2 (of_Z 100) (of_Z 10) 0;
      mk_raw 2023 1 6 22 2 1 1 (of_Z 50) (of_Z 5) 1;
      mk_raw 2023 2 7 13 3 2 4 (of_Z 200) (of_Z 20) 0 ].

(** Monthly sums 2023-01: 1000 and 2023-02: 1200. *)
Definition two_months : list row :=
  load_and_preprocess_data
    [ mk_raw 2023 1 5 9 1 1 2 (of_Z 400) (of_Z 10) 0;
      mk_raw 2023 2 7 13 3 2 4 (of_Z 1200) (of_Z 20) 0;
      mk_raw 2023 1 6 22 2 1 1 (of_Z 600) (of_Z 5) 0 ].

(** A first month made of a sale and its refund, then a month of sales. *)
Definition refunded_month : list row :=
  load_and_preprocess_data
    [ mk_raw 2023 1 5 9 1 1 2 (of_Z 80) (of_Z 10) 0;
      mk_raw 2023 1 9 10 1 1 2 (of_Z (-80)) (of_Z (-10)) 1;
      mk_raw 2023 2 7 13 3 2 4 (of_Z 200) (of_Z 20) 0 ].

(** One order in a month with no units sold. *)
Definition no_units : list row :=
  load_and_preprocess_data
    [ mk_raw 2023 1 5 9 1 1 0 (of_Z 30) (of_Z 3) 0 ].

(** Six products, the sixth with refunds exceeding its sales. *)
Definition six_products : list row :=
  load_and_preprocess_data
    [ mk_raw 2023 1 5 9 1 1 1 (of_Z 50) (of_Z 5) 0;
      mk_raw 2023 1 5 9 2 1 1 (of_Z 40) (of_Z 4) 0;
      mk_raw 2023 1 5 9 3 1 1 (of_Z 30) (of_Z 3) 0;
      mk_raw 2023 1 5 9 4 1 1 (of_Z 20) (of_Z 2) 0;
      mk_raw 2023 1 5 9 5 1 1 (of_Z 10) (of_Z 1) 0;
      mk_raw 2023 1 5 9 6 1 1 (of_Z (-100)) (of_Z (-10)) 1 ].

(** An order whose sales amount reads [inf] in the CSV file. *)
Definition infinite_sale : list row :=
  load_and_preprocess_data
    [ mk_raw 2023 1 5 9 1 1 1 PInf (of_Z 5) 0;
      mk_raw 2023 1 5 9 2 1 1 (of_Z 40) (of_Z 4) 0 ].

(** Orders of the years 0 and 2023. *)
Definition year_zero_orders : list row :=
  load_and_preprocess_data
    [ mk_raw 0 1 5 9 1 1 1 (of_Z 50) (of_Z 5) 0;
      mk_raw 2023 1 5 9 2 1 1 (of_Z 40) (of_Z 4) 0 ].

(** A free sample: an order of sales amount 0 with a negative profit. *)
Definition free_sample_csv : list Raw.row :=
  [ mk_raw 2023 1 5 9 1 1 1 (of_Z 0) (of_Z (-5)) 0;
    mk_raw 2023 1 6 9 2 1 1 (of_Z 40) (of_Z 4) 0 ].

(** Thirteen consecutive months, one order each. *)
Definition thirteen_months : list row :=
  load_and_preprocess_data
    (map (fun i => mk_raw (2022 + i / 12) (i mod 12 + 1) 1 9 1 1 1
                     (of_Z (100 + 10 * i)) (of_Z 1) 0)
         [0; 1; 2; 3; 4; 5; 6; 7; 8; 9; 10; 11; 12]).

(** The totals of the months 2022-02 to 2022-12 of [thirteen_months]. *)
Definition thirteen_months_middle : list (string * float64) :=
  [("2022-02", of_Z 110); ("2022-03", of_Z 120); ("2022-04", of_Z 130);
   ("2022-05", of_Z 140); ("2022-06", of_Z 150); ("2022-07", of_Z 160);
   ("2022-08", of_Z 170); ("2022-09", of_Z 180); ("2022-10", of_Z 190);
   ("2022-11", of_Z 200); ("2022-12", of_Z 210)].

(** * The other aggregation builders *)

(** ** Composite keys: [groupby] on several columns sorts the groups
    lexicographically. *)
#[export] Instance Ord_prod {A B : Type} `{Ord A} `{Ord B} : Ord (A * B) :=
  {| leb := fun x y =>
       if eqb_key (fst x) (fst y) then leb (snd x) (snd y)
       else leb (fst x) (fst y) |}.

(** Sum of a list of integers. *)
Definition zsum (l : list Z) : Z := fold_right Z.add 0 l.

(** [Series.astype(str)] on an integer column. *)
Definition Z_to_str (z : Z) : string := NilZero.string_of_int (Z.to_int z).

(** A date that a pandas timestamp can hold has a four-digit year and a
    month between 1 and 12. *)
Definition valid_date (d : datetime) : Prop :=
  0 <= year d <= 9999 /\ 1 <= month d <= 12.

(** ** [plot_monthly_sales_trend]

    The frame [monthly_sales] given to [px.line]. *)
Module Trend.
Record row : Type := {
  Year : Z;
  Month_Name : string;
  Month : Z;
  Total_Sales : float64;
  Month_Num : Z;
  Date_Label : string
}.
End Trend.

(** Order of [sort_values(['Year', 'Month_Num'])]. *)
Definition before_year_month (a b : Trend.row) : bool :=
  (Trend.Year a <? Trend.Year b) ||
  ((Trend.Year a =? Trend.Year b) && (Trend.Month_Num a <=? Trend.Month_Num b)).

Definition plot_monthly_sales_trend (df : list row) : list Trend.row :=
  let monthly_sales :=
    groupby_sum (fun r => (Year r, (Month_Name r, Month r))) Total_Sales df in
  let monthly_sales :=
    map (fun g => {| Trend.Year := fst (fst g);
                     Trend.Month_Name := fst (snd (fst g));
                     Trend.Month := snd (snd (fst g));
                     Trend.Total_Sales := snd g;
                     Trend.Month_Num := snd (snd (fst g));
                     Trend.Date_Label := "" |}) monthly_sales in
  let monthly_sales := sort_values before_year_month monthly_sales in
  map (fun p => {| Trend.Year := Trend.Year p;
                   Trend.Month_Name := Trend.Month_Name p;
                   Trend.Month := Trend.Month p;
                   Trend.Total_Sales := Trend.Total_Sales p;
                   Trend.Month_Num := Trend.Month_Num p;
                   Trend.Date_Label :=
                     (Trend.Month_Name p ++ " " ++ Z_to_str (Trend.Year p))%string |})
      monthly_sales.

(** ** [plot_hourly_sales_heatmap]

    [DataFrame.pivot]: one row per distinct index value, one column per
    distinct column value, both ascending; the cell of a pair that does not
    occur is NaN; a pair that occurs twice raises [ValueError]. *)
Record pivot_table (I C : Type) : Type := {
  pivot_index : list I;
  pivot_columns : list C;
  pivot_values : list (list float64)
}.
Arguments pivot_index {I C} _.
Arguments pivot_columns {I C} _.
Arguments pivot_values {I C} _.

Section Pivot.

Context {I C : Type} `{Ord I} `{Ord C}.

Definition same_cell (i : I) (c : C) (e : (I * C) * float64) : bool :=
  eqb_key (fst (fst e)) i && eqb_key (snd (fst e)) c.

Fixpoint duplicated (l : list ((I * C) * float64)) : bool :=
  match l with
  | [] => false
  | e :: l' => existsb (same_cell (fst (fst e)) (snd (fst e))) l' || duplicated l'
  end.

Definition pivot_cell (rows : list ((I * C) * float64)) (i : I) (c : C) : float64 :=
  match find (same_cell i c) rows with
  | Some e => snd e
  | None => NaN
  end.

Definition pivot (rows : list ((I * C) * float64)) : result (pivot_table I C) :=
  if duplicated rows
  then Raise (ValueError "Index contains duplicate entries, cannot reshape")
  else
    let index := group_keys (map (fun e => fst (fst e)) rows) in
    let columns := group_keys (map (fun e => snd (fst e)) rows) in
    Return {| pivot_index := index;
              pivot_columns := columns;
              pivot_values :=
                map (fun i => map (fun c => pivot_cell rows i c) columns) index |}.

End Pivot.

(** The frame [pivot_data] given to [px.imshow]. *)
Definition plot_hourly_sales_heatmap (df : list row) : result (pivot_table string Z) :=
  let hourly_data := groupby_sum (fun r => (Day_of_Week r, Hour r)) Total_Sales df in
  pivot hourly_data.

(** ** [plot_sales_by_time_of_day]

    [pd.Categorical(values, categories, ordered=True)]: a value outside the
    categories becomes NaN ([None]); sorting goes by the position of the
    category, NaN last. *)
Definition time_order : list string := ["Morning"; "Afternoon"; "Evening"; "Night"].

Definition Categorical (categories : list string) (v : string) : option string :=
  if existsb (String.eqb v) categories then Some v else None.

Fixpoint category_code (categories : list string) (v : string) : nat :=
  match categories with
  | [] => O
  | c :: categories' =>
      if (v =? c)%string then O else S (category_code categories' v)
  end.

Definition before_category (categories : list string) (a b : option string) : bool :=
  match a, b with
  | _, None => true
  | None, Some _ => false
  | Some x, Some y => (category_code categories x <=? category_code categories y)%nat
  end.

(** The frame [tod_sales] given to [px.bar]. *)
Definition plot_sales_by_time_of_day (df : list row) : list (option string * float64) :=
  let tod_sales := groupby_sum Time_of_Day Total_Sales df in
  let tod_sales := map (fun g => (Categorical time_order (fst g), snd g)) tod_sales in
  sort_values (fun a b => before_category time_order (fst a) (fst b)) tod_sales.

(** ** [plot_sales_vs_returns]

    The frame [region_data]: per region the summed sales and the number of
    returned orders ([(x == True).sum()], a count of rows). *)
Module RegionData.
Record row : Type := {
  Region_ID : Z;
  Total_Sales : float64;
  Returns : Z
}.
End RegionData.

Definition plot_sales_vs_returns (df : list row) : list RegionData.row :=
  let region_data :=
    map (fun g =>
           {| RegionData.Region_ID := fst g;
              RegionData.Total_Sales := sum (map Total_Sales (snd g));
              RegionData.Returns :=
                Z.of_nat (List.length
                            (filter (fun r => Bool.eqb (Return_Flag r) true) (snd g))) |})
        (groupby Region_ID df) in
  sort_values
    (fun a b => before_desc (RegionData.Total_Sales a) (RegionData.Total_Sales b))
    region_data.

(** ** [create_sales_rep_performance_chart]

    The frame [top_reps] given to [px.bar]. *)
Module RepData.
Record row : Type := {
  Sales_Rep_ID : Z;
  Total_Sales : float64;
  Profit : float64
}.
End RepData.

Definition rep_data (df : list row) : list RepData.row :=
  map (fun g =>
         {| RepData.Sales_Rep_ID := fst g;
            RepData.Total_Sales := sum (map Total_Sales (snd g));
            RepData.Profit := sum (map Profit (snd g)) |})
      (groupby Sales_Rep_ID df).

Definition create_sales_rep_performance_chart (df : list row) : list RepData.row :=
  firstn 10
    (sort_values
       (fun a b => before_desc (RepData.Total_Sales a) (RepData.Total_Sales b))
       (rep_data df)).

(** ** Notions used to state the further properties *)

(** [x <= y] on float values that are not NaN. *)
Definition fle (x y : float64) : Prop := ltb y x = false.

(** A monthly period of a valid date. *)
Definition valid_period (p : period) : Prop :=
  0 <= p_year p <= 9999 /\ 1 <= p_month p <= 12.

(** A row whose date is valid and whose two month keys are the ones the
    preprocessor derives from the date. *)
Definition dated (r : row) : Prop :=
  valid_date (Order_Date r) /\
  Month_Year r = {| p_year := year (Order_Date r); p_month := month (Order_Date r) |} /\
  Year_Month r = strftime_Y_m (Order_Date r).

(** Orders of twelve sales representatives, the k-th selling 10 k. *)
Definition twelve_reps : list row :=
  map (fun k =>
         {| Order_Date := {| year := 2023; month := 1; day := 1 |};
            Hour := 9; Day_of_Week := "Monday"; Product_ID := 1; Region_ID := 1;
            Sales_Rep_ID := k; Quantity_Sold := 1;
            Total_Sales := of_Z (10 * k); Profit := of_Z k;
            Return_Flag := false; Year := 2023; Month := 1;
            Time_of_Day := "Morning";
            Month_Year := {| p_year := 2023; p_month := 1 |};
            Month_Name := "January"; Quarter := 1; Year_Month := "2023-01";
            Profit_Margin := of_Z 10; Order_Size := of_Z (10 * k) |})
      [1; 2; 3; 4; 5; 6; 7; 8; 9; 10; 11; 12].

(** * Frames without numeric columns, and rounding *)

(** ** The dtypes of a frame

    [pd.read_csv] infers the dtype of a column from its values.  A file with
    at least one data row gives the numeric columns the dtypes float64 and
    int64, and a frame filtered from it keeps them, also when no row is
    left: these are the frames [list row] used above.  A file that holds the
    header line only gives empty columns of dtype object; their sums are the
    Python integer 0, and [0 / 0] on Python integers raises
    [ZeroDivisionError]. *)
Inductive frame : Type :=
| numeric (rows : list row)
| object_empty.

(** [load_and_preprocess_data] on any file. *)
Definition load_frame (csv : list Raw.row) : frame :=
  match csv with
  | [] => object_empty
  | _ :: _ => numeric (load_and_preprocess_data csv)
  end.

(** The filters of [update_dashboard] on any frame: boolean indexing keeps
    the dtypes of the columns. *)
Definition filter_frame (df : frame)
    (selected_regions : option (list Z))
    (selected_times : option (list string))
    (selected_year : option Z) : frame :=
  match df with
  | numeric rows =>
      numeric (filtered_df rows selected_regions selected_times selected_year)
  | object_empty => object_empty
  end.

(** [calculate_advanced_metrics] on any frame: on object columns the three
    sums of lines 71 to 73 are the Python integer 0 and the division of
    line 74 raises. *)
Definition metrics_of_frame (df : frame) : result Metrics.t :=
  match df with
  | numeric rows => calculate_advanced_metrics rows
  | object_empty => Raise (ZeroDivisionError "division by zero")
  end.

(** ** Rounding

    A float64 sum rounds every partial sum.  [sum_rounded rnd] is the sum of
    a column in which each finite partial sum goes through the rounding
    [rnd]; binary64 rounding leaves every integer of magnitude up to 2^53
    unchanged. *)
Definition add_rounded (rnd : Qc -> Qc) (x y : float64) : float64 :=
  match add x y with
  | Fin q => Fin (rnd q)
  | z => z
  end.

Definition sum_rounded (rnd : Qc -> Qc) (s : list float64) : float64 :=
  fold_left (add_rounded rnd) (dropna s) (Fin (Q2Qc 0)).

Definition exact_on_integers (rnd : Qc -> Qc) : Prop :=
  forall z, Z.abs z <= 2 ^ 53 -> rnd (Q2Qc (inject_Z z)) = Q2Qc (inject_Z z).

(** A column of whole amounts whose magnitudes add up to at most 2^53: no
    sum of entries of such a column is rounded. *)
Definition whole_amounts (s : list float64) : Prop :=
  exists zs, s = map of_Z zs /\ zsum (map Z.abs zs) <= 2 ^ 53.

(** * Properties *)

(** ** Arithmetic of [float64] *)

Lemma float64_eqb_eq (x y : float64) : Float64.eqb x y = true -> x = y.
Proof.
  destruct x, y; simpl; intros E; try discriminate; try reflexivity.
  f_equal. now apply Qc_eq_bool_correct.
Qed.

Lemma Qc_eq_bool_refl (q : Qc) : Qc_eq_bool q q = true.
Proof. unfold Qc_eq_bool. destruct (Qc_eq_dec q q); congruence. Qed.

Lemma Qc_eq_bool_false (p q : Qc) : p <> q -> Qc_eq_bool p q = false.
Proof. unfold Qc_eq_bool. destruct (Qc_eq_dec p q); congruence. Qed.

Lemma of_Z_0 : of_Z 0 = Fin (Q2Qc 0).
Proof. reflexivity. Qed.

Lemma sub_zero (x : float64) : (x - of_Z 0)%f64 = x.
Proof.
  destruct x; simpl; try reflexivity.
  f_equal. change (Q2Qc (inject_Z 0)) with (Q2Qc 0). ring.
Qed.

(** Division by zero never raises and never gives a finite value: the
    quotient is the infinity of the sign of the numerator, NaN for [0/0]. *)
Lemma div_zero (x : float64) : (x / of_Z 0)%f64 = signed_inf (sign x).
Proof.
  destruct x; reflexivity.
Qed.

Lemma signed_inf_not_finite (s : comparison) : isfinite (signed_inf s) = false.
Proof. now destruct s. Qed.

Lemma signed_inf_times_100 (s : comparison) :
  (signed_inf s * of_Z 100)%f64 = signed_inf s.
Proof. now destruct s. Qed.

Lemma not_finite_times_100 (x : float64) :
  isfinite x = false -> isfinite (x * of_Z 100)%f64 = false.
Proof. destruct x; simpl; try discriminate; reflexivity. Qed.

Lemma div_finite (a : Qc) (z : Z) :
  z <> 0 -> (Fin a / of_Z z)%f64 = Fin (a / Q2Qc (inject_Z z))%Qc.
Proof.
  intros Hz. unfold of_Z. simpl.
  rewrite Qc_eq_bool_false; [reflexivity|].
  intros E. apply Q2Qc_eq_iff in E.
  apply Hz. unfold Qeq in E. simpl in E. lia.
Qed.

(** ** The preprocessor: time of day *)

Lemma categorize_time_of_day_cases (hour : Z) :
  categorize_time_of_day hour =
    if (5 <=? hour) && (hour <=? 11) then "Morning"
    else if (12 <=? hour) && (hour <=? 16) then "Afternoon"
    else if (17 <=? hour) && (hour <=? 20) then "Evening"
    else "Night".
Proof. reflexivity. Qed.

(** C5. The time-of-day categorisation is total on the hours 0 to 23 and
    gives exactly one category for each hour: Morning for 5 to 11, Afternoon
    for 12 to 16, Evening for 17 to 20 and Night for every other hour (21 to
    23 and 0 to 4). *)
Theorem time_of_day_total (hour : Z) :
  0 <= hour <= 23 ->
  exists! c : string,
    categorize_time_of_day hour = c /\
    In c ["Morning"; "Afternoon"; "Evening"; "Night"] /\
    (5 <= hour <= 11 -> c = "Morning") /\
    (12 <= hour <= 16 -> c = "Afternoon") /\
    (17 <= hour <= 20 -> c = "Evening") /\
    (21 <= hour <= 23 \/ 0 <= hour <= 4 -> c = "Night").
Proof.
  intros Hh. exists (categorize_time_of_day hour).
  split; [split; [reflexivity|] | intros c [E _]; exact E].
  rewrite categorize_time_of_day_cases.
  destruct (Z.leb_spec 5 hour), (Z.leb_spec hour 11),
    (Z.leb_spec 12 hour), (Z.leb_spec hour 16),
    (Z.leb_spec 17 hour), (Z.leb_spec hour 20); simpl;
    repeat split; intros; try lia; auto 6.
Qed.

Lemma time_of_day_total_witness :
  exists! c : string,
    categorize_time_of_day 22 = c /\
    In c ["Morning"; "Afternoon"; "Evening"; "Night"] /\
    (5 <= 22 <= 11 -> c = "Morning") /\
    (12 <= 22 <= 16 -> c = "Afternoon") /\
    (17 <= 22 <= 20 -> c = "Evening") /\
    (21 <= 22 <= 23 \/ 0 <= 22 <= 4 -> c = "Night").
Proof. apply (time_of_day_total 22). lia. Defined.

(** ** Key orders *)

Lemma string_leb_trans (a b c : string) :
  String.leb a b = true -> String.leb b c = true -> String.leb a c = true.
Proof.
  unfold String.leb. revert b c.
  induction a as [|x a IH]; intros [|y b] [|z c]; simpl; try easy.
  unfold Ascii.compare.
  destruct (N.compare_spec (N_of_ascii x) (N_of_ascii y)),
    (N.compare_spec (N_of_ascii y) (N_of_ascii z)),
    (N.compare_spec (N_of_ascii x) (N_of_ascii z));
    try easy; try lia; apply IH.
Qed.

#[export] Instance OrdLaws_string : OrdLaws string.
Proof.
  split.
  - exact String.leb_total.
  - exact string_leb_trans.
  - exact String.leb_antisym.
Qed.

#[export] Instance OrdLaws_Z : OrdLaws Z.
Proof.
  split; simpl; intros; rewrite ?Z.leb_le in *; lia.
Qed.

#[export] Instance OrdLaws_period : OrdLaws period.
Proof.
  split; simpl.
  - intros a b.
    destruct (Z.ltb_spec (p_year a) (p_year b)), (Z.ltb_spec (p_year b) (p_year a)),
      (Z.eqb_spec (p_year a) (p_year b)), (Z.eqb_spec (p_year b) (p_year a)),
      (Z.leb_spec (p_month a) (p_month b)), (Z.leb_spec (p_month b) (p_month a));
      simpl; auto; lia.
  - intros a b c.
    destruct (Z.ltb_spec (p_year a) (p_year b)), (Z.ltb_spec (p_year b) (p_year c)),
      (Z.ltb_spec (p_year a) (p_year c)),
      (Z.eqb_spec (p_year a) (p_year b)), (Z.eqb_spec (p_year b) (p_year c)),
      (Z.eqb_spec (p_year a) (p_year c)),
      (Z.leb_spec (p_month a) (p_month b)), (Z.leb_spec (p_month b) (p_month c)),
      (Z.leb_spec (p_month a) (p_month c));
      simpl; auto; lia.
  - intros [ya ma] [yb mb]; simpl.
    destruct (Z.ltb_spec ya yb), (Z.ltb_spec yb ya),
      (Z.eqb_spec ya yb), (Z.eqb_spec yb ya),
      (Z.leb_spec ma mb), (Z.leb_spec mb ma);
      simpl; intros; try discriminate; try lia.
    f_equal; lia.
Qed.

(** ** Grouping *)

Section Grouping.

Context {R K : Type} `{OrdLaws K}.

Lemma leb_refl (a : K) : leb a a = true.
Proof. destruct (leb_total a a); assumption. Qed.

Lemma eqb_key_eq (a b : K) : eqb_key a b = true <-> a = b.
Proof.
  unfold eqb_key. rewrite andb_true_iff. split.
  - intros [Hab Hba]. now apply leb_antisym.
  - intros ->. now rewrite leb_refl.
Qed.

Lemma eqb_key_refl (a : K) : eqb_key a a = true.
Proof. now apply eqb_key_eq. Qed.

Lemma eqb_key_neq (a b : K) : eqb_key a b = false <-> a <> b.
Proof.
  rewrite <- eqb_key_eq. destruct (eqb_key a b); split; congruence.
Qed.

Lemma key_eq_dec (a b : K) : {a = b} + {a <> b}.
Proof.
  destruct (eqb_key a b) eqn:E.
  - left. now apply eqb_key_eq.
  - right. now apply eqb_key_neq.
Defined.

Lemma ltk_trans (a b c : K) : ltk a b -> ltk b c -> ltk a c.
Proof.
  unfold ltk. intros Hab Hbc.
  destruct (leb c a) eqn:Hca; [|reflexivity].
  destruct (leb_total b c) as [Hbc'|Hbc']; [|congruence].
  rewrite (leb_trans b c a Hbc' Hca) in Hab. discriminate.
Qed.

Lemma ltk_irrefl (a : K) : ~ ltk a a.
Proof. unfold ltk. rewrite leb_refl. discriminate. Qed.

Lemma ltk_of_leb (a b : K) : leb a b = true -> a <> b -> ltk a b.
Proof.
  unfold ltk. intros Hab Hne.
  destruct (leb b a) eqn:Hba; [|reflexivity].
  exfalso. apply Hne. now apply leb_antisym.
Qed.

Lemma ltk_of_not_leb (a b : K) : leb a b = false -> ltk b a.
Proof. unfold ltk. trivial. Qed.

Lemma insert_key_In (k x : K) (ks : list K) :
  In x (insert_key k ks) <-> x = k \/ In x ks.
Proof.
  induction ks as [|y ks IH]; simpl.
  - intuition.
  - destruct (eqb_key k y) eqn:E.
    + apply eqb_key_eq in E. subst y. simpl. intuition.
    + destruct (leb k y); simpl; rewrite ?IH; intuition.
Qed.

Lemma group_keys_In (x : K) (col : list K) :
  In x (group_keys col) <-> In x col.
Proof.
  induction col as [|k col IH]; simpl.
  - reflexivity.
  - rewrite insert_key_In, IH. intuition.
Qed.

Lemma insert_key_sorted (k : K) (ks : list K) :
  StronglySorted ltk ks -> StronglySorted ltk (insert_key k ks).
Proof.
  induction ks as [|y ks IH]; simpl; intros Hs.
  - repeat constructor.
  - destruct (eqb_key k y) eqn:E; [assumption|].
    apply eqb_key_neq in E.
    inversion Hs as [|? ? Hs' Hall]; subst.
    destruct (leb k y) eqn:L.
    + constructor; [assumption|].
      pose proof (ltk_of_leb k y L E) as Hky.
      constructor; [assumption|].
      eapply Forall_impl; [|exact Hall].
      intros z Hz. now apply (ltk_trans k y z).
    + constructor; [now apply IH|].
      apply Forall_forall. intros z Hz.
      apply insert_key_In in Hz. destruct Hz as [->|Hz].
      * now apply ltk_of_not_leb.
      * rewrite Forall_forall in Hall. now apply Hall.
Qed.

Lemma group_keys_sorted (col : list K) : StronglySorted ltk (group_keys col).
Proof.
  induction col as [|k col IH]; simpl.
  - constructor.
  - now apply insert_key_sorted.
Qed.

Lemma sorted_NoDup (ks : list K) : StronglySorted ltk ks -> NoDup ks.
Proof.
  induction 1 as [|k ks Hs IH Hall]; constructor; [|assumption].
  intros Hin. rewrite Forall_forall in Hall.
  exact (ltk_irrefl k (Hall k Hin)).
Qed.

Lemma group_keys_NoDup (col : list K) : NoDup (group_keys col).
Proof. apply sorted_NoDup, group_keys_sorted. Qed.

(** The number of groups is the number of distinct keys. *)
Lemma group_keys_length (dec : forall a b : K, {a = b} + {a <> b}) (col : list K) :
  List.length (group_keys col) = List.length (nodup dec col).
Proof.
  apply Permutation_length, NoDup_Permutation.
  - apply group_keys_NoDup.
  - apply NoDup_nodup.
  - intros x. now rewrite group_keys_In, nodup_In.
Qed.

(** A strictly ascending list is determined by its elements. *)
Lemma sorted_unique (l1 l2 : list K) :
  StronglySorted ltk l1 -> StronglySorted ltk l2 ->
  (forall x, In x l1 <-> In x l2) -> l1 = l2.
Proof.
  intros H1. revert l2.
  induction H1 as [|a l1 Hs1 IH Ha]; intros l2 H2 Hin.
  - destruct l2 as [|b l2]; [reflexivity|].
    exfalso. apply (Hin b). now left.
  - destruct H2 as [|b l2 Hs2 Hb].
    + exfalso. apply (Hin a). now left.
    + rewrite Forall_forall in Ha, Hb.
      assert (a = b) as ->.
      { destruct (proj1 (Hin a) (or_introl eq_refl)) as [E|Hab]; [now symmetry|].
        destruct (proj2 (Hin b) (or_introl eq_refl)) as [E|Hba]; [assumption|].
        exfalso. apply (ltk_irrefl a).
        apply (ltk_trans a b a); auto. }
      f_equal. apply IH; [assumption|].
      intros x. split; intros Hx.
      * destruct (proj1 (Hin x) (or_intror Hx)) as [E|Hx2]; [|assumption].
        subst x. exfalso. exact (ltk_irrefl b (Ha b Hx)).
      * destruct (proj2 (Hin x) (or_intror Hx)) as [E|Hx1]; [|assumption].
        subst x. exfalso. exact (ltk_irrefl b (Hb b Hx)).
Qed.

Lemma groupby_keys (key : R -> K) (df : list R) :
  map fst (groupby key df) = group_keys (map key df).
Proof.
  unfold groupby. rewrite map_map. simpl. apply map_id.
Qed.

Lemma groupby_sum_keys (key : R -> K) (col : R -> float64) (df : list R) :
  map fst (groupby_sum key col df) = group_keys (map key df).
Proof.
  unfold groupby_sum. rewrite map_map. simpl. apply groupby_keys.
Qed.

Lemma groupby_sum_length (key : R -> K) (col : R -> float64) (df : list R) :
  List.length (groupby_sum key col df) = List.length (group_keys (map key df)).
Proof. now rewrite <- (groupby_sum_keys key col df), length_map. Qed.

Lemma groupby_sum_In (key : R -> K) (col : R -> float64) (df : list R) k v :
  In (k, v) (groupby_sum key col df) ->
  In k (map key df) /\
  v = sum (map col (filter (fun r => eqb_key (key r) k) df)).
Proof.
  unfold groupby_sum, groupby. rewrite map_map. simpl.
  intros Hin. apply in_map_iff in Hin. destruct Hin as [k' [E Hk]].
  inversion E; subst. split; [|reflexivity].
  now apply group_keys_In.
Qed.

End Grouping.

(** ** Positional access *)

Section Iloc.

Context {R : Type}.

(** [iloc (-(n+1))] reads the entry that has [n] entries after it. *)
Lemma iloc_from_end (init rest : list R) (a : R) :
  iloc (- Z.of_nat (S (List.length rest))) (init ++ a :: rest) = Return a.
Proof.
  unfold iloc. rewrite length_app. simpl List.length.
  set (i := - Z.of_nat (S (List.length rest))).
  assert (Hi : (i <? 0) = true) by (apply Z.ltb_lt; unfold i; lia).
  rewrite Hi.
  replace (Z.of_nat (List.length init + S (List.length rest)) + i)
    with (Z.of_nat (List.length init)) by (unfold i; lia).
  assert (Hb : (0 <=? Z.of_nat (List.length init)) &&
               (Z.of_nat (List.length init) <?
                Z.of_nat (List.length init + S (List.length rest))) = true).
  { apply andb_true_iff. split; [apply Z.leb_le | apply Z.ltb_lt]; lia. }
  rewrite Hb, Nat2Z.id, nth_error_app2 by lia.
  now rewrite Nat.sub_diag.
Qed.

Lemma iloc_last (init : list R) (a : R) : iloc (-1) (init ++ [a]) = Return a.
Proof. exact (iloc_from_end init [] a). Qed.

(** A list of more than [n] entries splits at the entry that has [n]
    entries after it. *)
Lemma split_from_end (n : nat) (l : list R) :
  (n < List.length l)%nat ->
  exists init a rest, l = init ++ a :: rest /\ List.length rest = n.
Proof.
  intros Hn.
  pose proof (firstn_skipn (List.length l - S n) l) as E.
  pose proof (length_skipn (List.length l - S n) l) as L.
  destruct (skipn (List.length l - S n) l) as [|a rest] eqn:Hs.
  - simpl in L. lia.
  - exists (firstn (List.length l - S n) l), a, rest.
    split; [now symmetry|]. simpl in L. lia.
Qed.

Lemma app_inj_length (l1 l2 r1 r2 : list R) :
  l1 ++ r1 = l2 ++ r2 -> List.length r1 = List.length r2 -> l1 = l2 /\ r1 = r2.
Proof.
  intros E L.
  assert (Hl : List.length l1 = List.length l2).
  { apply (f_equal (@List.length R)) in E. rewrite !length_app in E. lia. }
  clear L. revert l2 E Hl.
  induction l1 as [|x l1 IH]; intros [|y l2] E Hl; simpl in *; try discriminate.
  - now split.
  - injection E as -> E. destruct (IH l2 E) as [-> ->]; [lia|]. now split.
Qed.

End Iloc.

(** ** The metrics calculator *)

(** The calculator never raises; its growth fields are determined by the
    monthly sales frame as follows. *)
Lemma calculate_advanced_metrics_inv (df : list row) :
  exists mom yoy,
    calculate_advanced_metrics df =
      Return {| Metrics.Total_Sales := sum (map Total_Sales df);
                Metrics.Total_Quantity := sum_int64 (map Quantity_Sold df);
                Metrics.Total_Profit := sum (map Profit df);
                Metrics.Avg_Order_Size :=
                  (sum (map Total_Sales df) /
                   of_Z (sum_int64 (map Quantity_Sold df)))%f64;
                Metrics.Return_Rate :=
                  (mean_bool (map Return_Flag df) * of_Z 100)%f64;
                Metrics.MoM_Growth := mom;
                Metrics.YoY_Growth := yoy |} /\
    ((List.length (monthly_sales df) < 2)%nat -> mom = of_Z 0) /\
    (forall init prev last,
        monthly_sales df = init ++ [prev; last] ->
        mom = ((snd last - snd prev) / snd prev * of_Z 100)%f64) /\
    ((List.length (monthly_sales df) < 13)%nat -> yoy = of_Z 0) /\
    (forall init ago rest last,
        monthly_sales df = init ++ ago :: rest ++ [last] ->
        List.length rest = 11%nat ->
        yoy = ((snd last - snd ago) / snd ago * of_Z 100)%f64).
Proof.
  unfold calculate_advanced_metrics.
  set (ms := monthly_sales df).
  assert (Hmom : exists mom,
    (if (2 <=? List.length ms)%nat
     then current_month <- iloc (-1) ms ;;
          previous_month <- iloc (-2) ms ;;
          Return ((snd current_month - snd previous_month) / snd previous_month
                  * of_Z 100)%f64
     else Return (of_Z 0)) = Return mom /\
    ((List.length ms < 2)%nat -> mom = of_Z 0) /\
    (forall init prev last, ms = init ++ [prev; last] ->
       mom = ((snd last - snd prev) / snd prev * of_Z 100)%f64)).
  { destruct (Nat.leb_spec 2 (List.length ms)) as [Hlen|Hlen].
    - destruct (split_from_end 1 ms) as [init [prev [rest [E L]]]]; [lia|].
      destruct rest as [|last [|? ?]]; try discriminate. clear L.
      eexists. split; [|split].
      + rewrite E.
        pose proof (iloc_from_end init [last] prev) as H2.
        change (- Z.of_nat (S (List.length [last]))) with (-2) in H2.
        rewrite H2.
        replace (init ++ [prev; last]) with ((init ++ [prev]) ++ [last])
          by now rewrite <- app_assoc.
        rewrite iloc_last. simpl. reflexivity.
      + lia.
      + intros init' prev' last' E'. rewrite E in E'.
        apply (app_inj_length init init' [prev; last] [prev'; last']) in E';
          [|reflexivity].
        destruct E' as [_ E']. now inversion E'.
    - exists (of_Z 0). split; [reflexivity|]. split; [reflexivity|].
      intros init prev last E. rewrite E, length_app in Hlen. simpl in Hlen. lia. }
  assert (Hyoy : exists yoy,
    (if (13 <=? List.length ms)%nat
     then current_month <- iloc (-1) ms ;;
          year_ago_month <- iloc (-13) ms ;;
          Return ((snd current_month - snd year_ago_month) / snd year_ago_month
                  * of_Z 100)%f64
     else Return (of_Z 0)) = Return yoy /\
    ((List.length ms < 13)%nat -> yoy = of_Z 0) /\
    (forall init ago rest last, ms = init ++ ago :: rest ++ [last] ->
       List.length rest = 11%nat ->
       yoy = ((snd last - snd ago) / snd ago * of_Z 100)%f64)).
  { destruct (Nat.leb_spec 13 (List.length ms)) as [Hlen|Hlen].
    - destruct (split_from_end 12 ms) as [init [ago [rest [E L]]]]; [lia|].
      destruct (split_from_end 0 rest) as [rest' [last [nil [E2 L2]]]]; [lia|].
      destruct nil; [|discriminate]. subst rest.
      rewrite length_app in L. simpl in L.
      eexists. split; [|split].
      + rewrite E.
        replace (-13) with (- Z.of_nat (S (List.length (rest' ++ [last]))))
          by (rewrite length_app; simpl; lia).
        rewrite (iloc_from_end init (rest' ++ [last]) ago).
        replace (init ++ ago :: rest' ++ [last])
          with ((init ++ ago :: rest') ++ [last])
          by now rewrite <- app_assoc.
        rewrite iloc_last. simpl. reflexivity.
      + lia.
      + intros init' ago' rest2 last' E' L'. rewrite E in E'.
        apply (app_inj_length init init' (ago :: rest' ++ [last])
                 (ago' :: rest2 ++ [last'])) in E';
          [|simpl; rewrite !length_app; simpl; lia].
        destruct E' as [_ E']. injection E' as -> E'.
        apply app_inj_tail in E'. destruct E' as [_ ->]. reflexivity.
    - exists (of_Z 0). split; [reflexivity|]. split; [reflexivity|].
      intros init ago rest last E L.
      rewrite E, length_app in Hlen. simpl in Hlen.
      rewrite length_app in Hlen. simpl in Hlen. lia. }
  destruct Hmom as [mom [Em Hmom]], Hyoy as [yoy [Ey Hyoy]].
  exists mom, yoy. rewrite Em, Ey. simpl.
  split; [reflexivity|]. tauto.
Qed.

Lemma calculate_advanced_metrics_returns (df : list row) :
  exists m, calculate_advanced_metrics df = Return m.
Proof.
  destruct (calculate_advanced_metrics_inv df) as [mom [yoy [E _]]].
  eexists. exact E.
Qed.

(** ** Monthly sales totals *)

Lemma eqb_key_string (a b : string) : eqb_key a b = (a =? b)%string.
Proof.
  destruct (String.eqb_spec a b) as [->|Hne].
  - apply eqb_key_refl.
  - now apply eqb_key_neq.
Qed.

Lemma eqb_key_Z (a b : Z) : eqb_key a b = (a =? b).
Proof.
  destruct (Z.eqb_spec a b) as [->|Hne].
  - apply eqb_key_refl.
  - now apply eqb_key_neq.
Qed.

(** The frame computed by the code is the list of monthly totals sorted
    ascending by key. *)
Lemma monthly_sales_sorted_totals (df : list row) :
  sorted_monthly_totals df (monthly_sales df).
Proof.
  unfold sorted_monthly_totals, monthly_sales.
  rewrite groupby_sum_keys. repeat split.
  - apply group_keys_sorted.
  - apply group_keys_In.
  - apply group_keys_In.
  - intros k v Hin. apply groupby_sum_In in Hin. destruct Hin as [_ ->].
    do 2 f_equal. apply filter_ext. intros r. apply eqb_key_string.
Qed.

Lemma assoc_determined {K V : Type} (f : K -> V) (l1 l2 : list (K * V)) :
  map fst l1 = map fst l2 ->
  (forall k v, In (k, v) l1 -> v = f k) ->
  (forall k v, In (k, v) l2 -> v = f k) ->
  l1 = l2.
Proof.
  revert l2. induction l1 as [|[k1 v1] l1 IH]; intros [|[k2 v2] l2] E H1 H2;
    simpl in E; try discriminate; [reflexivity|].
  injection E as -> E.
  rewrite (H1 k2 v1), (H2 k2 v2) by now left.
  f_equal. apply IH; [assumption| |]; intros k v Hin.
  - apply H1. now right.
  - apply H2. now right.
Qed.

(** And it is the only such list. *)
Lemma sorted_monthly_totals_unique (df : list row) (ms : list (string * float64)) :
  sorted_monthly_totals df ms -> ms = monthly_sales df.
Proof.
  intros [Hs [Hk Hv]].
  destruct (monthly_sales_sorted_totals df) as [Hs' [Hk' Hv']].
  apply (assoc_determined
           (fun k => sum (map Total_Sales
                            (filter (fun r => (Year_Month r =? k)%string) df))));
    [|assumption|assumption].
  apply sorted_unique; [assumption|assumption|].
  intros k. now rewrite Hk, Hk'.
Qed.

Lemma monthly_sales_length (df : list row) :
  List.length (monthly_sales df) = distinct_months df.
Proof.
  unfold monthly_sales, distinct_months.
  rewrite groupby_sum_length. apply group_keys_length.
Qed.

(** The example of the specification: three orders with sales 100, 50 and
    200, quantities 2, 1 and 4, the second one returned. *)
Example sample_orders_metrics :
  exists m,
    calculate_advanced_metrics sample_orders = Return m /\
    Metrics.Total_Sales m = of_Z 350 /\
    Metrics.Total_Quantity m = 7 /\
    Metrics.Avg_Order_Size m = of_Z 50 /\
    Metrics.Return_Rate m = Fin (Q2Qc (100 # 3)) /\
    Metrics.MoM_Growth m = Fin (Q2Qc (100 # 3)) /\
    Metrics.YoY_Growth m = of_Z 0.
Proof.
  eexists. split; [vm_compute; reflexivity|]. simpl.
  repeat split; apply float64_eqb_eq; vm_compute; reflexivity.
Qed.

(** ** C1: the snapshot of an empty view *)

(** C1, as stated, fails: a region set that matches no row gives a snapshot
    that is not all zero. *)
Lemma empty_view_not_all_zero :
  filtered_df sample_orders (Some [3]) None None = [] /\
  calculate_advanced_metrics (filtered_df sample_orders (Some [3]) None None)
    <> Return zero_snapshot.
Proof.
  split; [reflexivity|].
  intros E. vm_compute in E. discriminate E.
Qed.

(** C1, amended.  For every filter whose view has no rows the metrics
    calculator raises nothing and returns the snapshot with total sales,
    total quantity, total profit, MoM growth and YoY growth equal to 0 and
    with average order size and return rate equal to NaN (both are [0/0]). *)
Theorem empty_view_snapshot_spec (df : list row)
    (selected_regions : option (list Z)) (selected_times : option (list string))
    (selected_year : option Z) :
  filtered_df df selected_regions selected_times selected_year = [] ->
  calculate_advanced_metrics
    (filtered_df df selected_regions selected_times selected_year)
  = Return empty_view_snapshot /\
  Metrics.Avg_Order_Size empty_view_snapshot = NaN /\
  Metrics.Return_Rate empty_view_snapshot = NaN.
Proof. intros ->. repeat split. Qed.

Lemma empty_view_snapshot_spec_witness :
  calculate_advanced_metrics (filtered_df sample_orders (Some [3]) None None)
  = Return empty_view_snapshot /\
  Metrics.Avg_Order_Size empty_view_snapshot = NaN /\
  Metrics.Return_Rate empty_view_snapshot = NaN.
Proof.
  apply (empty_view_snapshot_spec sample_orders (Some [3]) None None).
  reflexivity.
Defined.

(** ** C2: average order size *)

(** C2, as stated, fails: on an empty view of a data set with rows, and on
    a view whose quantities sum to zero, the average order size is not 0. *)
Lemma avg_order_size_not_zero :
  filter_frame (load_frame [mk_raw 2023 1 5 9 1 1 2 (of_Z 100) (of_Z 10) 0])
    (Some [3]) None None = numeric [] /\
  (exists m, metrics_of_frame (numeric []) = Return m /\
             Metrics.Total_Quantity m = 0 /\
             Metrics.Avg_Order_Size m = NaN /\
             Metrics.Avg_Order_Size m <> of_Z 0) /\
  (exists m, metrics_of_frame (numeric no_units) = Return m /\
             Metrics.Total_Quantity m = 0 /\
             Metrics.Avg_Order_Size m = PInf /\
             Metrics.Avg_Order_Size m <> of_Z 0).
Proof.
  split; [reflexivity|].
  split; eexists; (split; [vm_compute; reflexivity|]); simpl;
    repeat split; discriminate.
Qed.

(** C2, amended.  Every view that the filters produce from a data set with
    at least one row, empty or not, has numeric columns.  On every frame
    with numeric columns the calculator returns, and the average order size
    is the float quotient of total sales by total quantity: the exact
    quotient (rounding aside) when the total quantity is not 0 and total
    sales are finite; when the total quantity is 0 it is not 0 but the
    infinity of the sign of total sales, NaN when total sales are 0, in
    particular on a view without rows; no error is raised.  On the frame of
    a file without data rows, whose columns have dtype object, the division
    raises [ZeroDivisionError]. *)
Theorem avg_order_size_spec :
  (forall csv selected_regions selected_times selected_year,
     csv <> [] ->
     exists rows,
       filter_frame (load_frame csv) selected_regions selected_times selected_year
       = numeric rows) /\
  (forall df : list row,
     exists m,
       metrics_of_frame (numeric df) = Return m /\
       Metrics.Total_Sales m = sum (map Total_Sales df) /\
       Metrics.Total_Quantity m = sum_int64 (map Quantity_Sold df) /\
       Metrics.Avg_Order_Size m =
         (Metrics.Total_Sales m / of_Z (Metrics.Total_Quantity m))%f64 /\
       (forall s, Metrics.Total_Quantity m <> 0 ->
          Metrics.Total_Sales m = Fin s ->
          Metrics.Avg_Order_Size m =
            Fin (s / Q2Qc (inject_Z (Metrics.Total_Quantity m)))%Qc) /\
       (Metrics.Total_Quantity m = 0 ->
          Metrics.Avg_Order_Size m = signed_inf (sign (Metrics.Total_Sales m)) /\
          isfinite (Metrics.Avg_Order_Size m) = false) /\
       (df = [] -> Metrics.Avg_Order_Size m = NaN)) /\
  load_frame [] = object_empty /\
  metrics_of_frame (load_frame []) = Raise (ZeroDivisionError "division by zero").
Proof.
  split; [|split; [|split; [reflexivity|reflexivity]]].
  - intros [|r csv] sr st sy Hne; [congruence|].
    eexists. reflexivity.
  - intros df. cbn [metrics_of_frame].
    destruct (calculate_advanced_metrics_inv df) as [mom [yoy [E _]]].
    eexists. split; [exact E|]. simpl.
    split; [reflexivity|]. split; [reflexivity|]. split; [reflexivity|].
    split; [|split].
    + intros s Hq Hs. rewrite Hs. now apply div_finite.
    + intros Hq. rewrite Hq, div_zero. split; [reflexivity|].
      apply signed_inf_not_finite.
    + intros ->. reflexivity.
Qed.

Lemma avg_order_size_spec_witness :
  (exists rows,
     filter_frame (load_frame [mk_raw 2023 1 5 9 1 1 2 (of_Z 100) (of_Z 10) 0])
       (Some [3]) None None = numeric rows) /\
  exists m,
    metrics_of_frame (numeric sample_orders) = Return m /\
    Metrics.Total_Quantity m = 7 /\
    Metrics.Avg_Order_Size m = Fin (Q2Qc 350 / Q2Qc (inject_Z 7))%Qc.
Proof.
  destruct avg_order_size_spec as [Hview [Hnum _]].
  split.
  - apply Hview. discriminate.
  - destruct (Hnum sample_orders) as [m [E [Hs [Hq [_ [Hfin _]]]]]].
    exists m. split; [exact E|].
    assert (Hq7 : Metrics.Total_Quantity m = 7) by (rewrite Hq; reflexivity).
    split; [exact Hq7|].
    rewrite <- Hq7. apply Hfin.
    + rewrite Hq7. discriminate.
    + rewrite Hs. apply float64_eqb_eq. vm_compute. reflexivity.
Defined.

(** ** C3 and C4: month-over-month growth *)

Lemma growth_zero_base (last : float64) :
  ((last - of_Z 0) / of_Z 0 * of_Z 100)%f64 = signed_inf (sign last).
Proof. now rewrite sub_zero, div_zero, signed_inf_times_100. Qed.

(** C3, as stated, fails: with monthly totals 2023-01: 0 and 2023-02: 200
    the MoM growth is plus infinity, not 0. *)
Lemma mom_growth_zero_previous_not_zero :
  monthly_sales refunded_month = [("2023-01", of_Z 0); ("2023-02", of_Z 200)] /\
  exists m, calculate_advanced_metrics refunded_month = Return m /\
            Metrics.MoM_Growth m = PInf /\
            Metrics.MoM_Growth m <> of_Z 0.
Proof.
  split; [vm_compute; reflexivity|].
  eexists. split; [vm_compute; reflexivity|]. simpl.
  split; [reflexivity|discriminate].
Qed.

(** C3, amended.  When the monthly totals sorted ascending by year-month key
    end with a second-to-last total of 0, the calculator raises nothing and
    the MoM growth is the unguarded float quotient: plus infinity when the
    last total is positive, minus infinity when it is negative and NaN when
    it is 0; it is never finite, hence never 0. *)
Theorem mom_growth_zero_previous (df : list row)
    (init : list (string * float64)) (k_prev k_last : string) (last : float64) :
  sorted_monthly_totals df (init ++ [(k_prev, of_Z 0); (k_last, last)]) ->
  exists m,
    calculate_advanced_metrics df = Return m /\
    Metrics.MoM_Growth m = signed_inf (sign last) /\
    isfinite (Metrics.MoM_Growth m) = false /\
    Metrics.MoM_Growth m <> of_Z 0.
Proof.
  intros Hms. apply sorted_monthly_totals_unique in Hms.
  destruct (calculate_advanced_metrics_inv df) as [mom [yoy [E [_ [Hmom _]]]]].
  eexists. split; [exact E|]. simpl.
  rewrite (Hmom _ _ _ (eq_sym Hms)). simpl snd.
  rewrite growth_zero_base.
  repeat split.
  - apply signed_inf_not_finite.
  - destruct (sign last); discriminate.
Qed.

Lemma sorted_monthly_totals_refunded_month :
  sorted_monthly_totals refunded_month
    ([] ++ [("2023-01", of_Z 0); ("2023-02", of_Z 200)]).
Proof.
  replace ([] ++ [("2023-01", of_Z 0); ("2023-02", of_Z 200)])
    with (monthly_sales refunded_month) by (vm_compute; reflexivity).
  apply monthly_sales_sorted_totals.
Defined.

Lemma mom_growth_zero_previous_witness :
  exists m,
    calculate_advanced_metrics refunded_month = Return m /\
    Metrics.MoM_Growth m = signed_inf (sign (of_Z 200)) /\
    isfinite (Metrics.MoM_Growth m) = false /\
    Metrics.MoM_Growth m <> of_Z 0.
Proof.
  apply (mom_growth_zero_previous refunded_month [] "2023-01" "2023-02" (of_Z 200)).
  exact sorted_monthly_totals_refunded_month.
Defined.

(** C4.  The calculator returns for every view.  The MoM growth is 0 when
    the view has fewer than 2 distinct year-month keys; otherwise the monthly
    sales totals sorted ascending by key end with two totals [prev] and
    [last], and the MoM growth is [(last - prev) / prev * 100].  Monthly sums
    2023-01: 1000 and 2023-02: 1200 give 20. *)
Theorem mom_growth_spec (df : list row) :
  exists m,
    calculate_advanced_metrics df = Return m /\
    ((distinct_months df < 2)%nat -> Metrics.MoM_Growth m = of_Z 0) /\
    ((2 <= distinct_months df)%nat ->
       exists init prev last,
         sorted_monthly_totals df (init ++ [prev; last])) /\
    (forall init prev last,
       sorted_monthly_totals df (init ++ [prev; last]) ->
       Metrics.MoM_Growth m = ((snd last - snd prev) / snd prev * of_Z 100)%f64) /\
    (sorted_monthly_totals df [("2023-01", of_Z 1000); ("2023-02", of_Z 1200)] ->
       Metrics.MoM_Growth m = of_Z 20).
Proof.
  destruct (calculate_advanced_metrics_inv df) as [mom [yoy [E [Hlt [Hmom _]]]]].
  eexists. split; [exact E|]. simpl.
  rewrite monthly_sales_length in Hlt.
  assert (Hform : forall init prev last,
    sorted_monthly_totals df (init ++ [prev; last]) ->
    mom = ((snd last - snd prev) / snd prev * of_Z 100)%f64).
  { intros init prev last Hms. apply sorted_monthly_totals_unique in Hms.
    exact (Hmom _ _ _ (eq_sym Hms)). }
  repeat split.
  - exact Hlt.
  - intros Hge. rewrite <- monthly_sales_length in Hge.
    destruct (split_from_end 1 (monthly_sales df)) as [init [prev [rest [Ems L]]]];
      [lia|].
    destruct rest as [|last [|? ?]]; try discriminate.
    exists init, prev, last. rewrite <- Ems. apply monthly_sales_sorted_totals.
  - exact Hform.
  - intros Hms.
    rewrite (Hform [] ("2023-01", of_Z 1000) ("2023-02", of_Z 1200) Hms).
    apply float64_eqb_eq. vm_compute. reflexivity.
Qed.

Lemma sorted_monthly_totals_two_months :
  sorted_monthly_totals two_months
    [("2023-01", of_Z 1000); ("2023-02", of_Z 1200)].
Proof.
  replace [("2023-01", of_Z 1000); ("2023-02", of_Z 1200)]
    with (monthly_sales two_months) by (vm_compute; reflexivity).
  apply monthly_sales_sorted_totals.
Defined.

Lemma mom_growth_spec_witness :
  exists m,
    calculate_advanced_metrics two_months = Return m /\
    Metrics.MoM_Growth m = of_Z 20 /\
    Metrics.MoM_Growth m =
      ((of_Z 1200 - of_Z 1000) / of_Z 1000 * of_Z 100)%f64.
Proof.
  destruct (mom_growth_spec two_months) as [m [E [_ [_ [Hform Hex]]]]].
  exists m. split; [exact E|]. split.
  - apply Hex. exact sorted_monthly_totals_two_months.
  - apply (Hform [] ("2023-01", of_Z 1000) ("2023-02", of_Z 1200)).
    exact sorted_monthly_totals_two_months.
Defined.

(** ** C8: year-over-year growth *)

(** C8.  The YoY growth is 0 when the view has fewer than 13 distinct
    year-month keys; otherwise the monthly sales totals sorted ascending by
    key end with a total [ago], eleven further totals and the total [last]
    (positions -13 and -1 of the sorted sequence, whatever the calendar
    months are), and the YoY growth is [(last - ago) / ago * 100]. *)
Theorem yoy_growth_spec (df : list row) :
  exists m,
    calculate_advanced_metrics df = Return m /\
    ((distinct_months df < 13)%nat -> Metrics.YoY_Growth m = of_Z 0) /\
    ((13 <= distinct_months df)%nat ->
       exists init ago rest last,
         List.length rest = 11%nat /\
         sorted_monthly_totals df (init ++ ago :: rest ++ [last])) /\
    (forall init ago rest last,
       List.length rest = 11%nat ->
       sorted_monthly_totals df (init ++ ago :: rest ++ [last]) ->
       Metrics.YoY_Growth m = ((snd last - snd ago) / snd ago * of_Z 100)%f64).
Proof.
  destruct (calculate_advanced_metrics_inv df)
    as [mom [yoy [E [_ [_ [Hlt Hyoy]]]]]].
  eexists. split; [exact E|]. simpl.
  rewrite monthly_sales_length in Hlt.
  repeat split.
  - exact Hlt.
  - intros Hge. rewrite <- monthly_sales_length in Hge.
    destruct (split_from_end 12 (monthly_sales df)) as [init [ago [rest [Ems L]]]];
      [lia|].
    destruct (split_from_end 0 rest) as [rest' [last [nil [E2 L2]]]]; [lia|].
    destruct nil; [|discriminate]. subst rest.
    rewrite length_app in L. simpl in L.
    exists init, ago, rest', last. split; [lia|].
    rewrite <- Ems. apply monthly_sales_sorted_totals.
  - intros init ago rest last L Hms.
    apply sorted_monthly_totals_unique in Hms.
    exact (Hyoy _ _ _ _ (eq_sym Hms) L).
Qed.

(** ** Exact sums of columns without infinities *)

Lemma fold_add_no_inf (s : list float64) (a : Qc) :
  no_inf s -> fold_left add (dropna s) (Fin a) = Fin (a + qsum s)%Qc.
Proof.
  revert a. induction s as [|x s IH]; intros a Hs; simpl.
  - f_equal. ring.
  - inversion Hs as [|? ? Hx Hs']; subst.
    destruct x; simpl in *; try discriminate.
    + rewrite IH by assumption. f_equal. ring.
    + rewrite IH by assumption. f_equal. ring.
Qed.

Lemma sum_no_inf (s : list float64) : no_inf s -> sum s = Fin (qsum s).
Proof.
  intros Hs. unfold sum. rewrite fold_add_no_inf by assumption.
  f_equal. ring.
Qed.

Lemma qsum_cons (x : float64) (s : list float64) :
  qsum (x :: s) = (qval x + qsum s)%Qc.
Proof. reflexivity. Qed.

Lemma qsum_app (s t : list float64) : qsum (s ++ t) = (qsum s + qsum t)%Qc.
Proof.
  induction s as [|x s IH]; simpl.
  - ring.
  - rewrite IH. ring.
Qed.

Lemma qsum_Permutation (s t : list float64) : Permutation s t -> qsum s = qsum t.
Proof.
  induction 1; simpl; try congruence; ring.
Qed.

Lemma qsum_nonneg (s : list float64) :
  Forall (fun x => (Q2Qc 0 <= qval x)%Qc) s -> (Q2Qc 0 <= qsum s)%Qc.
Proof.
  induction 1 as [|x s Hx Hs IH]; simpl.
  - apply Qcle_refl.
  - replace (Q2Qc 0) with (Q2Qc 0 + Q2Qc 0)%Qc by ring.
    now apply Qcplus_le_compat.
Qed.

Lemma no_inf_filter {R : Type} (col : R -> float64) (p : R -> bool) (df : list R) :
  no_inf (map col df) -> no_inf (map col (filter p df)).
Proof.
  unfold no_inf. rewrite !Forall_map. intros Hs.
  rewrite Forall_forall in *. intros r Hr. apply filter_In in Hr. now apply Hs.
Qed.

Lemma leb_zero_Fin (q : Qc) :
  Float64.leb (of_Z 0) (Fin q) = true <-> (Q2Qc 0 <= q)%Qc.
Proof.
  unfold Float64.leb, of_Z. simpl.
  change (Q2Qc (inject_Z 0)) with (Q2Qc 0).
  pose proof (Qcge_alt q (Q2Qc 0)) as Hge.
  destruct (q ?= Q2Qc 0)%Qc; simpl; split; intros Hq;
    try reflexivity; try discriminate;
    try (apply Hge; discriminate).
  apply Hge in Hq. congruence.
Qed.

(** ** Sorting *)

Section Sorting.

Context {R : Type} (before : R -> R -> bool).

Lemma insert_by_Permutation (a : R) (l : list R) :
  Permutation (insert_by before a l) (a :: l).
Proof.
  induction l as [|b l IH]; simpl.
  - reflexivity.
  - destruct (before a b).
    + reflexivity.
    + rewrite IH. apply perm_swap.
Qed.

Lemma sort_values_Permutation (l : list R) : Permutation (sort_values before l) l.
Proof.
  induction l as [|a l IH]; simpl.
  - reflexivity.
  - rewrite insert_by_Permutation. now constructor.
Qed.

Lemma sort_values_length (l : list R) :
  List.length (sort_values before l) = List.length l.
Proof. apply Permutation_length, sort_values_Permutation. Qed.

End Sorting.

(** ** Sums over groups *)

Section GroupSums.

Context {R K : Type} `{OrdLaws K}.
Variables (key : R -> K) (col : R -> float64).

Lemma existsb_eqb_key (k : K) (ks : list K) :
  existsb (eqb_key k) ks = true <-> In k ks.
Proof.
  rewrite existsb_exists. split.
  - intros [x [Hx E]]. apply eqb_key_eq in E. now subst.
  - intros Hk. exists k. split; [assumption|apply eqb_key_refl].
Qed.

Lemma group_totals_cons (r : R) (df : list R) (ks : list K) :
  NoDup ks ->
  qsum (map (fun k => Fin (qsum (map col
          (filter (fun r' => eqb_key (key r') k) (r :: df))))) ks) =
  ((if existsb (eqb_key (key r)) ks then qval (col r) else Q2Qc 0) +
   qsum (map (fun k => Fin (qsum (map col
          (filter (fun r' => eqb_key (key r') k) df)))) ks))%Qc.
Proof.
  induction 1 as [|k ks Hk Hnd IH].
  - simpl. ring.
  - rewrite !map_cons, !qsum_cons, IH.
    cbn [qval filter existsb].
    destruct (eqb_key (key r) k) eqn:E.
    + apply eqb_key_eq in E. subst k.
      assert (Hex : existsb (eqb_key (key r)) ks = false).
      { destruct (existsb (eqb_key (key r)) ks) eqn:Ex; [|reflexivity].
        apply existsb_eqb_key in Ex. contradiction. }
      rewrite Hex. cbn [orb]. rewrite map_cons, qsum_cons. ring.
    + cbn [orb]. ring.
Qed.

Lemma group_totals_nil (ks : list K) :
  qsum (map (fun k => Fin (qsum (map col
          (filter (fun r' => eqb_key (key r') k) [])))) ks) = Q2Qc 0.
Proof.
  induction ks as [|k ks IH]; simpl; [reflexivity|].
  simpl in IH. rewrite IH. ring.
Qed.

Lemma group_totals_all (df : list R) (ks : list K) :
  NoDup ks -> (forall r, In r df -> In (key r) ks) ->
  qsum (map (fun k => Fin (qsum (map col
          (filter (fun r' => eqb_key (key r') k) df)))) ks) =
  qsum (map col df).
Proof.
  intros Hnd. induction df as [|r df IH]; intros Hin.
  - apply group_totals_nil.
  - rewrite group_totals_cons by assumption.
    rewrite IH by (intros r' Hr'; apply Hin; now right).
    assert (Hex : existsb (eqb_key (key r)) ks = true).
    { apply existsb_eqb_key, Hin. now left. }
    rewrite Hex. reflexivity.
Qed.

(** Without infinite entries every group total is finite. *)
Lemma groupby_sum_finite (df : list R) :
  no_inf (map col df) ->
  map snd (groupby_sum key col df) =
  map (fun k => Fin (qsum (map col (filter (fun r => eqb_key (key r) k) df))))
      (group_keys (map key df)).
Proof.
  intros Hs. unfold groupby_sum, groupby. rewrite !map_map. simpl.
  apply map_ext. intros k. apply sum_no_inf. now apply no_inf_filter.
Qed.

(** The group totals add up to the total of the column. *)
Lemma qsum_groupby_sum (df : list R) :
  no_inf (map col df) ->
  qsum (map snd (groupby_sum key col df)) = qsum (map col df).
Proof.
  intros Hs. rewrite groupby_sum_finite by assumption.
  apply group_totals_all.
  - apply group_keys_NoDup.
  - intros r Hr. apply group_keys_In. now apply in_map.
Qed.

Lemma groupby_sum_all_finite (df : list R) :
  no_inf (map col df) ->
  Forall (fun x => isfinite x = true) (map snd (groupby_sum key col df)).
Proof.
  intros Hs. rewrite groupby_sum_finite by assumption.
  rewrite Forall_map. apply Forall_forall. reflexivity.
Qed.

End GroupSums.

(** ** Whole amounts: sums that are not rounded

    The bucket of the product share is the difference of two float64 sums
    of the same product totals, one in the order of the product ids and one
    in descending order.  On fractional amounts the two sums can round
    differently (for the amounts 0.15, 2.0 and 2.22 the difference is about
    -8.9e-16), so what is proved of the bucket below is proved for whole
    amounts. *)

Lemma whole_amounts_no_inf (s : list float64) : whole_amounts s -> no_inf s.
Proof.
  intros [zs [-> _]]. unfold no_inf. rewrite Forall_map.
  apply Forall_forall. reflexivity.
Qed.

Lemma Qc_of_Z_plus (a b : Z) :
  (Q2Qc (inject_Z a) + Q2Qc (inject_Z b))%Qc = Q2Qc (inject_Z (a + b)).
Proof.
  unfold Qcplus. apply Q2Qc_eq_iff. cbn [this Q2Qc].
  rewrite !Qred_correct, inject_Z_plus. reflexivity.
Qed.

Lemma add_of_Z (a b : Z) : add (of_Z a) (of_Z b) = of_Z (a + b).
Proof. unfold of_Z. simpl. now rewrite Qc_of_Z_plus. Qed.

Lemma dropna_of_Z (zs : list Z) : dropna (map of_Z zs) = map of_Z zs.
Proof. induction zs as [|z zs IH]; simpl; [reflexivity|]. now rewrite IH. Qed.

Lemma fold_rounded_whole (rnd : Qc -> Qc) (zs : list Z) (a : Z) :
  exact_on_integers rnd ->
  Z.abs a + fold_right Z.add 0 (map Z.abs zs) <= 2 ^ 53 ->
  fold_left (add_rounded rnd) (map of_Z zs) (of_Z a) =
  fold_left add (map of_Z zs) (of_Z a).
Proof.
  intros Hrnd. revert a.
  induction zs as [|z zs IH]; intros a Hb; cbn [map fold_left fold_right] in *.
  - reflexivity.
  - assert (Hnn : 0 <= fold_right Z.add 0 (map Z.abs zs)).
    { clear. induction zs as [|y zs IH]; cbn [map fold_right]; lia. }
    assert (Hstep : add_rounded rnd (of_Z a) (of_Z z) = of_Z (a + z)).
    { unfold add_rounded. rewrite add_of_Z. unfold of_Z. f_equal.
      apply Hrnd. lia. }
    rewrite Hstep, add_of_Z. apply IH. lia.
Qed.

(** On whole amounts a sum that rounds every partial sum is the exact
    sum. *)
Lemma sum_rounded_whole (rnd : Qc -> Qc) (s : list float64) :
  exact_on_integers rnd -> whole_amounts s -> sum_rounded rnd s = sum s.
Proof.
  intros Hrnd [zs [-> Hb]]. unfold sum_rounded, sum, zsum in *.
  rewrite dropna_of_Z. change (Fin (Q2Qc 0)) with (of_Z 0).
  apply fold_rounded_whole; [assumption|]. cbn [Z.abs]. lia.
Qed.

(** ** C6: the product share *)

Lemma finite_no_inf (s : list float64) :
  Forall (fun x => isfinite x = true) s -> no_inf s.
Proof.
  apply Forall_impl. intros x Hx. now destruct x.
Qed.

Lemma Forall_firstn {A : Type} (P : A -> Prop) (n : nat) (l : list A) :
  Forall P l -> Forall P (firstn n l).
Proof.
  intros Hl. rewrite <- (firstn_skipn n l) in Hl.
  now apply Forall_app in Hl.
Qed.

Lemma Forall_skipn {A : Type} (P : A -> Prop) (n : nat) (l : list A) :
  Forall P l -> Forall P (skipn n l).
Proof.
  intros Hl. rewrite <- (firstn_skipn n l) in Hl.
  now apply Forall_app in Hl.
Qed.

Lemma product_sales_length (df : list row) :
  List.length (product_sales df) = distinct_products df.
Proof.
  unfold product_sales, distinct_products.
  rewrite groupby_sum_length. apply group_keys_length.
Qed.

Lemma sorted_product_sales_Permutation (df : list row) :
  Permutation
    (map snd (sort_values (fun a b => before_desc (snd a) (snd b)) (product_sales df)))
    (map snd (product_sales df)).
Proof. apply Permutation_map, sort_values_Permutation. Qed.

(** The value of the bucket, for finite sales: what the products after the
    fifth add up to. *)
Lemma others_bucket_value (df : list row) :
  no_inf (map Total_Sales df) ->
  sum (map snd (product_sales df)) = Fin (qsum (map Total_Sales df)) /\
  sum (map snd (top_products df)) = Fin (qsum (map snd (top_products df))) /\
  others_bucket df =
    Fin (qsum (map snd (skipn 5
           (sort_values (fun a b => before_desc (snd a) (snd b)) (product_sales df))))) /\
  (qsum (map snd (top_products df)) +
   qsum (map snd (skipn 5
           (sort_values (fun a b => before_desc (snd a) (snd b)) (product_sales df)))))%Qc
  = qsum (map Total_Sales df).
Proof.
  intros Hs.
  pose proof (groupby_sum_all_finite Product_ID Total_Sales df Hs) as Hfin.
  fold (product_sales df) in Hfin.
  set (sorted := sort_values (fun a b => before_desc (snd a) (snd b)) (product_sales df)).
  assert (Hperm : Permutation (map snd sorted) (map snd (product_sales df)))
    by apply sorted_product_sales_Permutation.
  assert (Hsplit : (qsum (map snd (top_products df)) +
                    qsum (map snd (skipn 5 sorted)))%Qc = qsum (map Total_Sales df)).
  { unfold top_products. fold sorted.
    rewrite <- qsum_app, <- map_app, firstn_skipn.
    rewrite (qsum_Permutation _ _ Hperm).
    apply (qsum_groupby_sum Product_ID Total_Sales df Hs). }
  assert (Htotal : sum (map snd (product_sales df)) = Fin (qsum (map Total_Sales df))).
  { rewrite sum_no_inf by now apply finite_no_inf.
    f_equal. apply (qsum_groupby_sum Product_ID Total_Sales df Hs). }
  assert (Htop : sum (map snd (top_products df)) = Fin (qsum (map snd (top_products df)))).
  { apply sum_no_inf, finite_no_inf.
    unfold top_products. fold sorted. rewrite <- firstn_map.
    apply Forall_firstn.
    eapply Permutation_Forall; [symmetry; exact Hperm|exact Hfin]. }
  repeat split; try assumption.
  unfold others_bucket. rewrite Htotal, Htop.
  unfold sub. cbn [neg add]. f_equal. rewrite <- Hsplit. ring.
Qed.

(** C6, as stated, fails: with six products of which the sixth has summed
    sales of -100 the bucket is negative. *)
Lemma others_bucket_negative :
  plot_product_sales_share six_products =
    [(Product 1, of_Z 50); (Product 2, of_Z 40); (Product 3, of_Z 30);
     (Product 4, of_Z 20); (Product 5, of_Z 10); (Others, of_Z (-100))] /\
  others_bucket six_products = of_Z (-100) /\
  Float64.leb (of_Z 0) (others_bucket six_products) = false.
Proof. repeat split; vm_compute; reflexivity. Qed.

(** With an infinite sales amount the bucket is [inf - inf], that is NaN,
    and the frame of the chart no longer adds up to the total sales. *)
Lemma others_bucket_infinite_sale :
  sum (map Total_Sales infinite_sale) = PInf /\
  others_bucket infinite_sale = NaN /\
  (sum (map snd (top_products infinite_sale)) + others_bucket infinite_sale)%f64
    = NaN.
Proof. repeat split; vm_compute; reflexivity. Qed.

(** C6, amended.  For every view of whole sales amounts whose magnitudes
    add up to at most 2^53 (no float64 sum of such amounts is rounded), the
    frame of the chart is the top five products followed by the bucket, the
    sales of that frame (the top-5 totals plus the bucket) sum exactly to
    the total sales of the view, and the bucket is 0 when the view has at
    most 5 (in particular fewer than 5) distinct product ids.  The bucket is
    at least 0 provided no product has negative summed sales. *)
Theorem product_share_others_spec (df : list row) :
  whole_amounts (map Total_Sales df) ->
  plot_product_sales_share df =
    map (fun p => (Product (fst p), snd p)) (top_products df) ++
    [(Others, others_bucket df)] /\
  (sum (map snd (top_products df)) + others_bucket df)%f64 =
    sum (map Total_Sales df) /\
  sum (map snd (plot_product_sales_share df)) = sum (map Total_Sales df) /\
  ((distinct_products df <= 5)%nat -> others_bucket df = of_Z 0) /\
  ((forall p v, In (p, v) (product_sales df) -> Float64.leb (of_Z 0) v = true) ->
   Float64.leb (of_Z 0) (others_bucket df) = true).
Proof.
  intros Hwhole. pose proof (whole_amounts_no_inf _ Hwhole) as Hs.
  destruct (others_bucket_value df Hs) as [Htotal [Htop [Hothers Hsplit]]].
  set (sorted := sort_values (fun a b => before_desc (snd a) (snd b)) (product_sales df)) in *.
  split; [reflexivity|]. split; [|split; [|split]].
  - rewrite Htop, Hothers, (sum_no_inf _ Hs). cbn [add]. now f_equal.
  - unfold plot_product_sales_share, other_products. fold (others_bucket df).
    rewrite map_app, map_map. simpl map.
    rewrite (map_ext _ snd) by reflexivity.
    rewrite (sum_no_inf _ Hs), sum_no_inf.
    + f_equal. rewrite qsum_app, Hothers, qsum_cons. cbn [qsum fold_right qval].
      rewrite <- Hsplit. ring.
    + apply Forall_app. split.
      * apply finite_no_inf.
        pose proof (groupby_sum_all_finite Product_ID Total_Sales df Hs) as Hfin.
        fold (product_sales df) in Hfin.
        unfold top_products. fold sorted. rewrite <- firstn_map.
        apply Forall_firstn.
        eapply Permutation_Forall;
          [symmetry; apply sorted_product_sales_Permutation|exact Hfin].
      * rewrite Hothers. repeat constructor.
  - intros Hle. rewrite Hothers.
    rewrite skipn_all2; [reflexivity|].
    unfold sorted. rewrite sort_values_length, product_sales_length. exact Hle.
  - intros Hnn. rewrite Hothers. apply leb_zero_Fin, qsum_nonneg.
    rewrite Forall_map. apply Forall_skipn.
    eapply Permutation_Forall;
      [symmetry; apply (sort_values_Permutation _ (product_sales df))|].
    apply Forall_forall. intros [p v] Hin.
    pose proof (groupby_sum_all_finite Product_ID Total_Sales df Hs) as Hfin.
    fold (product_sales df) in Hfin.
    rewrite Forall_map, Forall_forall in Hfin.
    specialize (Hfin _ Hin). specialize (Hnn _ _ Hin). simpl in *.
    destruct v; try discriminate. now apply leb_zero_Fin.
Qed.

Lemma product_share_others_spec_witness :
  (sum (map snd (top_products sample_orders)) + others_bucket sample_orders)%f64 =
    sum (map Total_Sales sample_orders) /\
  others_bucket sample_orders = of_Z 0 /\
  Float64.leb (of_Z 0) (others_bucket sample_orders) = true.
Proof.
  destruct (product_share_others_spec sample_orders) as [_ [Hsum [_ [Hfew Hnn]]]].
  - exists [100; 50; 200]. split; [reflexivity|]. vm_compute. discriminate.
  - split; [exact Hsum|]. split.
    + apply Hfew. vm_compute. lia.
    + apply Hnn. intros p v Hin. vm_compute in Hin.
      repeat (destruct Hin as [Hin|Hin]; [inversion Hin; reflexivity|]).
      contradiction.
Defined.

(** ** C7: the filters *)

Lemma filter_true {A : Type} (l : list A) : filter (fun _ => true) l = l.
Proof. induction l as [|a l IH]; simpl; congruence. Qed.

Lemma filter_twice {A : Type} (p q : A -> bool) (l : list A) :
  filter q (filter p l) = filter (fun a => p a && q a) l.
Proof.
  induction l as [|a l IH]; simpl; [reflexivity|].
  destruct (p a); simpl; [destruct (q a)|]; congruence.
Qed.

Lemma filter_truthy_list {A B : Type} (eqb : B -> B -> bool) (f : A -> B)
    (s : option (list B)) (l : list A) :
  (if truthy_list s
   then filter (fun r => isin eqb (f r) (default_list s)) l
   else l) = filter (fun r => in_set eqb (f r) s) l.
Proof.
  destruct s as [[|x xs]|]; simpl; try reflexivity; now rewrite filter_true.
Qed.

(** Whenever the selected year is not the number 0, the filtered frame holds
    exactly the rows that satisfy the three conditions, in their order. *)
Lemma filtered_df_spec (df : list row)
    (selected_regions : option (list Z)) (selected_times : option (list string))
    (selected_year : option Z) :
  selected_year <> Some 0 ->
  filtered_df df selected_regions selected_times selected_year =
  filter (filter_predicate selected_regions selected_times selected_year) df.
Proof.
  intros Hy. unfold filtered_df.
  rewrite (filter_truthy_list Z.eqb Region_ID selected_regions df).
  rewrite (filter_truthy_list String.eqb Time_of_Day selected_times).
  destruct selected_year as [y|]; simpl.
  - destruct (Z.eqb_spec y 0) as [->|_]; [congruence|]. simpl.
    rewrite !filter_twice. apply filter_ext. intros r.
    unfold filter_predicate. now rewrite andb_assoc.
  - rewrite filter_twice. apply filter_ext. intros r.
    unfold filter_predicate. now rewrite andb_true_r.
Qed.

Lemma filtered_df_spec_witness :
  filtered_df sample_orders (Some [1]) (Some ["Night"]) (Some 2023) =
  filter (filter_predicate (Some [1]) (Some ["Night"]) (Some 2023)) sample_orders.
Proof.
  apply (filtered_df_spec sample_orders (Some [1]) (Some ["Night"]) (Some 2023)).
  discriminate.
Defined.

(** C7 at the selected year 0: the test [if selected_year:] takes the number
    0 for an absent selection, so the year filter is skipped and the rows of
    the other years stay in the view, whereas the predicate of the claim
    keeps the rows of year 0 only. *)
Theorem filter_year_zero_ignored :
  (forall df selected_regions selected_times,
     filtered_df df selected_regions selected_times (Some 0) =
     filtered_df df selected_regions selected_times None) /\
  map Year (filtered_df year_zero_orders None None (Some 0)) = [0; 2023] /\
  map Year (filter (filter_predicate None None (Some 0)) year_zero_orders) = [0].
Proof. repeat split. Qed.

(** ** C9: insights of an empty view *)

(** C9, as stated, fails: on the empty view the insight generator neither
    returns a value nor raises an error of its own; the [ValueError] of the
    first [idxmax] escapes. *)
Lemma insights_empty_view_unhandled :
  loc_idxmax snd (groupby_sum Time_of_Day Total_Sales ([] : list row)) =
    Raise (ValueError "attempt to get argmax of an empty sequence") /\
  generate_insights_and_recommendations [] =
    Raise (ValueError "attempt to get argmax of an empty sequence") /\
  ~ (exists v, generate_insights_and_recommendations [] = Return v).
Proof.
  repeat split. intros [v E]. discriminate E.
Qed.

(** C9, amended.  For every filter whose view has no rows the insight
    generator fails: the [ValueError] raised by [idxmax] on the empty frame
    of time-of-day sums is not caught, and no value (no sentinel) is
    returned. *)
Theorem insights_empty_view_raises (df : list row)
    (selected_regions : option (list Z)) (selected_times : option (list string))
    (selected_year : option Z) :
  filtered_df df selected_regions selected_times selected_year = [] ->
  loc_idxmax snd
    (groupby_sum Time_of_Day Total_Sales
       (filtered_df df selected_regions selected_times selected_year)) =
    Raise (ValueError "attempt to get argmax of an empty sequence") /\
  generate_insights_and_recommendations
    (filtered_df df selected_regions selected_times selected_year) =
    Raise (ValueError "attempt to get argmax of an empty sequence") /\
  ~ (exists v,
       generate_insights_and_recommendations
         (filtered_df df selected_regions selected_times selected_year) = Return v).
Proof.
  intros E. rewrite E. repeat split. intros [v Hv]. discriminate Hv.
Qed.

Lemma insights_empty_view_raises_witness :
  generate_insights_and_recommendations
    (filtered_df sample_orders (Some [3]) None None) =
    Raise (ValueError "attempt to get argmax of an empty sequence").
Proof.
  apply (insights_empty_view_raises sample_orders (Some [3]) None None).
  reflexivity.
Defined.

(** ** C10: the profit margin of a row without sales *)

Lemma add_not_finite_l (x y : float64) :
  isfinite x = false -> isfinite (add x y) = false.
Proof. destruct x, y; simpl; congruence. Qed.

Lemma add_not_finite_r (x y : float64) :
  isfinite y = false -> isfinite (add x y) = false.
Proof. destruct x, y; simpl; congruence. Qed.

Lemma fold_add_not_finite (s : list float64) (acc : float64) :
  isfinite acc = false -> isfinite (fold_left add s acc) = false.
Proof.
  revert acc. induction s as [|x s IH]; intros acc Hacc; simpl.
  - assumption.
  - apply IH. now apply add_not_finite_l.
Qed.

Lemma fold_add_with_not_finite (s : list float64) (acc x : float64) :
  In x s -> isfinite x = false -> isfinite (fold_left add s acc) = false.
Proof.
  revert acc. induction s as [|y s IH]; intros acc Hin Hx; simpl.
  - contradiction.
  - destruct Hin as [->|Hin].
    + apply fold_add_not_finite. now apply add_not_finite_r.
    + now apply IH.
Qed.

(** An infinite entry makes the sum of a column infinite or NaN. *)
Lemma sum_with_inf (s : list float64) (x : float64) :
  In x s -> isinf x = true -> isfinite (sum s) = false.
Proof.
  intros Hin Hx. unfold sum. apply (fold_add_with_not_finite _ _ x).
  - apply filter_In. split; [assumption|]. now destruct x.
  - now destruct x.
Qed.

Lemma div_not_finite (x : float64) (b : Qc) :
  isfinite x = false -> isfinite (x / Fin b)%f64 = false.
Proof.
  destruct x; simpl; try discriminate; intros _; try reflexivity;
    destruct (Qc_eq_bool b (Q2Qc 0)) eqn:E; try reflexivity;
    destruct (b ?= Q2Qc 0)%Qc eqn:C; try reflexivity;
    apply Qceq_alt in C; subst b; now rewrite Qc_eq_bool_refl in E.
Qed.

Lemma mean_with_inf (s : list float64) (x : float64) :
  In x s -> isinf x = true -> isfinite (mean s) = false.
Proof.
  intros Hin Hx. unfold mean, of_nat, of_Z.
  apply div_not_finite. now apply (sum_with_inf s x).
Qed.

Section GroupMeans.

Context {R K : Type} `{OrdLaws K}.
Variables (key : R -> K) (col : R -> float64).

(** The group of a row holds the row. *)
Lemma groupby_mean_In (df : list R) (r : R) :
  In r df ->
  In (key r, mean (map col (filter (fun r' => eqb_key (key r') (key r)) df)))
     (groupby_mean key col df) /\
  In (col r) (map col (filter (fun r' => eqb_key (key r') (key r)) df)).
Proof.
  intros Hr. split.
  - unfold groupby_mean, groupby. rewrite map_map. simpl.
    apply in_map_iff. exists (key r). split; [reflexivity|].
    apply group_keys_In. now apply in_map.
  - apply in_map, filter_In. split; [assumption|apply eqb_key_refl].
Qed.

End GroupMeans.

Lemma zero_sales_margin (r : Raw.row) :
  Raw.Total_Sales r = of_Z 0 ->
  Profit_Margin (preprocess_row r) = signed_inf (sign (Raw.Profit r)).
Proof.
  intros E. simpl. now rewrite E, div_zero, signed_inf_times_100.
Qed.

(** C10.  The preprocessor divides profit by sales without a guard: every
    row whose sales amount is 0 gets a margin that is not finite (the
    infinity of the sign of the profit, NaN for a profit of 0).  When the
    profit of such a row is not 0, the infinite margin enters the mean of its
    month in the profit-margin trend, which is then not finite either.  Such
    inputs exist. *)
Theorem profit_margin_unguarded :
  (forall r, Raw.Total_Sales r = of_Z 0 ->
     Profit_Margin (preprocess_row r) =
       (Raw.Profit r / of_Z 0 * of_Z 100)%f64 /\
     isfinite (Profit_Margin (preprocess_row r)) = false) /\
  (forall csv r,
     In r csv -> Raw.Total_Sales r = of_Z 0 -> sign (Raw.Profit r) <> Eq ->
     exists v,
       In (period_str (Month_Year (preprocess_row r)), v)
          (plot_profit_margin_trend (load_and_preprocess_data csv)) /\
       isfinite v = false) /\
  (exists csv r,
     In r csv /\ Raw.Total_Sales r = of_Z 0 /\ sign (Raw.Profit r) <> Eq).
Proof.
  split; [|split].
  - intros r E. split.
    + simpl. now rewrite E.
    + rewrite zero_sales_margin by assumption. apply signed_inf_not_finite.
  - intros csv r Hr E Hsign.
    set (df := load_and_preprocess_data csv).
    set (r' := preprocess_row r).
    assert (Hr' : In r' df) by now apply in_map.
    destruct (groupby_mean_In Month_Year Profit_Margin df r' Hr') as [Hg Hcol].
    eexists. split.
    + unfold plot_profit_margin_trend.
      eapply Permutation_in; [symmetry; apply sort_values_Permutation|].
      apply in_map_iff. eexists. split; [|exact Hg]. reflexivity.
    + simpl. apply (mean_with_inf _ (Profit_Margin r')); [exact Hcol|].
      unfold r'. rewrite zero_sales_margin by assumption.
      destruct (sign (Raw.Profit r)); [congruence|reflexivity|reflexivity].
  - exists free_sample_csv, (mk_raw 2023 1 5 9 1 1 1 (of_Z 0) (of_Z (-5)) 0).
    split; [now left|]. split; [reflexivity|discriminate].
Qed.

Lemma profit_margin_unguarded_witness :
  Profit_Margin (preprocess_row (mk_raw 2023 1 5 9 1 1 1 (of_Z 0) (of_Z (-5)) 0))
    = NInf /\
  plot_profit_margin_trend (load_and_preprocess_data free_sample_csv)
    = [("2023-01", NInf)] /\
  exists v,
    In (period_str (Month_Year
          (preprocess_row (mk_raw 2023 1 5 9 1 1 1 (of_Z 0) (of_Z (-5)) 0))), v)
       (plot_profit_margin_trend (load_and_preprocess_data free_sample_csv)) /\
    isfinite v = false.
Proof.
  destruct profit_margin_unguarded as [Hrow [Hflow _]].
  split; [|split].
  - destruct (Hrow (mk_raw 2023 1 5 9 1 1 1 (of_Z 0) (of_Z (-5)) 0) eq_refl)
      as [E _].
    rewrite E. reflexivity.
  - vm_compute. reflexivity.
  - apply (Hflow free_sample_csv).
    + now left.
    + reflexivity.
    + discriminate.
Defined.

(** ** C8: a year of monthly totals *)

Lemma sorted_monthly_totals_thirteen_months :
  sorted_monthly_totals thirteen_months
    ([] ++ ("2022-01", of_Z 100) :: thirteen_months_middle ++ [("2023-01", of_Z 220)]).
Proof.
  replace ([] ++ ("2022-01", of_Z 100) :: thirteen_months_middle ++
           [("2023-01", of_Z 220)])
    with (monthly_sales thirteen_months) by (vm_compute; reflexivity).
  apply monthly_sales_sorted_totals.
Defined.

Lemma yoy_growth_spec_witness :
  exists m,
    calculate_advanced_metrics thirteen_months = Return m /\
    Metrics.YoY_Growth m = ((of_Z 220 - of_Z 100) / of_Z 100 * of_Z 100)%f64 /\
    Metrics.YoY_Growth m = of_Z 120.
Proof.
  destruct (yoy_growth_spec thirteen_months) as [m [E [_ [_ Hform]]]].
  exists m. split; [exact E|].
  assert (Hy : Metrics.YoY_Growth m =
               ((of_Z 220 - of_Z 100) / of_Z 100 * of_Z 100)%f64).
  { apply (Hform [] ("2022-01", of_Z 100) thirteen_months_middle
             ("2023-01", of_Z 220)).
    - reflexivity.
    - exact sorted_monthly_totals_thirteen_months. }
  split; [exact Hy|].
  rewrite Hy. apply float64_eqb_eq. vm_compute. reflexivity.
Defined.

(** * Further properties of the pipeline *)

(** ** Composite keys *)

Section ProductOrder.

Context {A B : Type} `{OrdLaws A} `{OrdLaws B}.

Lemma eqb_key_sym (a b : A) : eqb_key a b = eqb_key b a.
Proof. unfold eqb_key. apply andb_comm. Qed.

#[export] Instance OrdLaws_prod : OrdLaws (A * B).
Proof.
  split; simpl.
  - intros [a1 b1] [a2 b2]; simpl. rewrite (eqb_key_sym a2 a1).
    destruct (eqb_key a1 a2); [apply leb_total|apply leb_total].
  - intros [a1 b1] [a2 b2] [a3 b3]; simpl.
    destruct (eqb_key a1 a2) eqn:E12; destruct (eqb_key a2 a3) eqn:E23.
    + apply eqb_key_eq in E12, E23. subst. rewrite eqb_key_refl. apply leb_trans.
    + apply eqb_key_eq in E12. subst. rewrite E23. auto.
    + apply eqb_key_eq in E23. subst. rewrite E12. auto.
    + intros Hxy Hyz. destruct (eqb_key a1 a3) eqn:E13.
      * apply eqb_key_eq in E13. subst.
        apply eqb_key_neq in E12. exfalso. apply E12. now apply leb_antisym.
      * now apply (leb_trans a1 a2 a3).
  - intros [a1 b1] [a2 b2]; simpl. rewrite (eqb_key_sym a2 a1).
    destruct (eqb_key a1 a2) eqn:E.
    + apply eqb_key_eq in E. subst. intros Hxy Hyx. f_equal. now apply leb_antisym.
    + intros Hxy Hyx. apply eqb_key_neq in E. exfalso. apply E. now apply leb_antisym.
Qed.

End ProductOrder.

(** ** Order of float values *)

Lemma ltb_Fin (a b : Qc) : ltb (Fin a) (Fin b) = true <-> (a < b)%Qc.
Proof.
  simpl. rewrite Qclt_alt. destruct (a ?= b)%Qc; split; congruence.
Qed.

Lemma ltb_Fin_false (a b : Qc) : ltb (Fin a) (Fin b) = false <-> (b <= a)%Qc.
Proof.
  split.
  - intros E. apply Qcnot_lt_le. intros L. apply ltb_Fin in L. congruence.
  - intros L. destruct (ltb (Fin a) (Fin b)) eqn:E; [|reflexivity].
    apply ltb_Fin in E. exfalso. now apply (Qcle_not_lt _ _ L).
Qed.

Lemma fle_trans (x y z : float64) :
  isnan y = false -> fle x y -> fle y z -> fle x z.
Proof.
  unfold fle.
  destruct x as [a| | |], y as [b| | |], z as [c| | |]; simpl;
    try discriminate; try reflexivity; intros _ Hxy Hyz.
  fold (ltb (Fin c) (Fin a)). fold (ltb (Fin b) (Fin a)) in Hxy.
  fold (ltb (Fin c) (Fin b)) in Hyz.
  apply ltb_Fin_false. apply ltb_Fin_false in Hxy, Hyz.
  now apply (Qcle_trans a b c).
Qed.

Lemma fle_total (x y : float64) : fle x y \/ fle y x.
Proof.
  unfold fle.
  destruct x as [a| | |], y as [b| | |]; simpl; auto.
  fold (ltb (Fin b) (Fin a)). fold (ltb (Fin a) (Fin b)).
  destruct (ltb (Fin b) (Fin a)) eqn:E; [|now left].
  right. apply ltb_Fin in E. apply ltb_Fin_false. now apply Qclt_le_weak.
Qed.

Lemma before_desc_total (x y : float64) :
  before_desc x y = true \/ before_desc y x = true.
Proof.
  unfold before_desc.
  destruct (isnan y) eqn:Ny; [now left|].
  destruct (isnan x) eqn:Nx; [now right|].
  destruct (fle_total x y) as [L|L]; unfold fle in L; rewrite L; auto.
Qed.

Lemma before_desc_trans (x y z : float64) :
  before_desc x y = true -> before_desc y z = true -> before_desc x z = true.
Proof.
  unfold before_desc.
  destruct (isnan z) eqn:Nz; [reflexivity|].
  destruct (isnan y) eqn:Ny; [discriminate|].
  destruct (isnan x) eqn:Nx; [discriminate|].
  rewrite !negb_true_iff. intros Hxy Hyz.
  exact (fle_trans z y x Ny Hyz Hxy).
Qed.

(** Among values that are not NaN, [before_desc] is [>=]. *)
Lemma before_desc_fle (x y : float64) :
  isnan x = false -> isnan y = false ->
  before_desc x y = true -> fle y x.
Proof.
  unfold before_desc, fle. intros -> ->. now rewrite negb_true_iff.
Qed.

(** ** Sorted frames *)

Section SortedBy.

Context {R : Type} (before : R -> R -> bool).

Lemma insert_by_In (a x : R) (l : list R) :
  In x (insert_by before a l) <-> x = a \/ In x l.
Proof.
  split.
  - intros Hx. apply (Permutation_in _ (insert_by_Permutation before a l)) in Hx.
    destruct Hx; auto.
  - intros Hx.
    apply (Permutation_in _ (Permutation_sym (insert_by_Permutation before a l))).
    destruct Hx; [left|right]; auto.
Qed.

(** Sorting a sorted frame changes nothing. *)
Lemma sort_values_sorted_id (l : list R) :
  StronglySorted (fun x y => before x y = true) l -> sort_values before l = l.
Proof.
  induction 1 as [|a l Hs IH Ha]; simpl; [reflexivity|].
  fold (sort_values before l). rewrite IH.
  destruct l as [|b l]; [reflexivity|]. simpl.
  inversion Ha as [|? ? Hab _]; subst. now rewrite Hab.
Qed.

Hypothesis before_total : forall a b, before a b = true \/ before b a = true.
Hypothesis before_trans :
  forall a b c, before a b = true -> before b c = true -> before a c = true.

Lemma insert_by_sorted (a : R) (l : list R) :
  StronglySorted (fun x y => before x y = true) l ->
  StronglySorted (fun x y => before x y = true) (insert_by before a l).
Proof.
  induction 1 as [|b l Hs IH Hb]; simpl.
  - repeat constructor.
  - destruct (before a b) eqn:E.
    + constructor; [now constructor|].
      constructor; [assumption|].
      eapply Forall_impl; [|exact Hb]. intros c Hc. now apply (before_trans a b c).
    + constructor; [assumption|].
      apply Forall_forall. intros c Hc. apply insert_by_In in Hc.
      destruct Hc as [->|Hc].
      * destruct (before_total a b) as [F|F]; congruence.
      * rewrite Forall_forall in Hb. now apply Hb.
Qed.

Lemma sort_values_sorted (l : list R) :
  StronglySorted (fun x y => before x y = true) (sort_values before l).
Proof.
  induction l as [|a l IH]; simpl; [constructor|]. now apply insert_by_sorted.
Qed.

Lemma sorted_app_dominates (rel : R -> R -> Prop) (l1 l2 : list R) :
  StronglySorted rel (l1 ++ l2) ->
  forall x y, In x l1 -> In y l2 -> rel x y.
Proof.
  induction l1 as [|a l1 IH]; simpl; intros Hs x y Hx Hy; [contradiction|].
  inversion Hs as [|? ? Hs' Ha]; subst.
  destruct Hx as [->|Hx].
  - rewrite Forall_forall in Ha. apply Ha, in_or_app. now right.
  - now apply IH.
Qed.

(** The first [n] rows of a sorted frame stand before all the others. *)
Lemma sort_values_head_dominates (n : nat) (l : list R) (x y : R) :
  In x (firstn n (sort_values before l)) ->
  In y (skipn n (sort_values before l)) ->
  before x y = true.
Proof.
  intros Hx Hy.
  apply (sorted_app_dominates (fun x y => before x y = true)
           (firstn n (sort_values before l)) (skipn n (sort_values before l)));
    try assumption.
  rewrite firstn_skipn. apply sort_values_sorted.
Qed.

End SortedBy.

(** ** Counting over groups *)

Lemma zsum_app (l1 l2 : list Z) : zsum (l1 ++ l2) = zsum l1 + zsum l2.
Proof. induction l1 as [|a l1 IH]; simpl; lia. Qed.

Lemma zsum_Permutation (l1 l2 : list Z) : Permutation l1 l2 -> zsum l1 = zsum l2.
Proof. induction 1; simpl; lia. Qed.

Section GroupCounts.

Context {R K : Type} `{OrdLaws K}.
Variables (key : R -> K) (p : R -> bool).

Lemma group_counts_cons (r : R) (df : list R) (ks : list K) :
  NoDup ks ->
  zsum (map (fun k => Z.of_nat (List.length
          (filter p (filter (fun r' => eqb_key (key r') k) (r :: df))))) ks) =
  (if existsb (eqb_key (key r)) ks && p r then 1 else 0) +
  zsum (map (fun k => Z.of_nat (List.length
          (filter p (filter (fun r' => eqb_key (key r') k) df)))) ks).
Proof.
  induction 1 as [|k ks Hk Hnd IH].
  - reflexivity.
  - rewrite !map_cons. cbn [zsum fold_right]. fold (zsum (map (fun k0 => Z.of_nat (List.length
          (filter p (filter (fun r' => eqb_key (key r') k0) (r :: df))))) ks)).
    fold (zsum (map (fun k0 => Z.of_nat (List.length
          (filter p (filter (fun r' => eqb_key (key r') k0) df)))) ks)).
    rewrite IH. cbn [filter existsb].
    destruct (eqb_key (key r) k) eqn:E.
    + apply eqb_key_eq in E. subst k.
      assert (Hex : existsb (eqb_key (key r)) ks = false).
      { destruct (existsb (eqb_key (key r)) ks) eqn:Ex; [|reflexivity].
        apply existsb_eqb_key in Ex. contradiction. }
      rewrite Hex. cbn [orb andb filter]. destruct (p r); cbn [List.length]; lia.
    + cbn [orb]. lia.
Qed.

(** Every row is counted in exactly one group. *)
Lemma group_counts_all (df : list R) :
  zsum (map (fun g => Z.of_nat (List.length (filter p (snd g)))) (groupby key df)) =
  Z.of_nat (List.length (filter p df)).
Proof.
  unfold groupby. rewrite map_map. cbn [snd].
  assert (Hgen : forall ks, NoDup ks -> (forall r, In r df -> In (key r) ks) ->
    zsum (map (fun k => Z.of_nat (List.length
            (filter p (filter (fun r' => eqb_key (key r') k) df)))) ks) =
    Z.of_nat (List.length (filter p df))).
  { intros ks Hnd. induction df as [|r df' IH]; intros Hin.
    - clear. induction ks as [|k ks IH]; simpl in *; [reflexivity|]. lia.
    - rewrite group_counts_cons by assumption.
      rewrite IH by (intros r' Hr'; apply Hin; now right).
      assert (Hex : existsb (eqb_key (key r)) ks = true).
      { apply existsb_eqb_key, Hin. now left. }
      rewrite Hex. cbn [andb filter]. destruct (p r); cbn [List.length]; lia. }
  apply Hgen.
  - apply group_keys_NoDup.
  - intros r Hr. apply group_keys_In. now apply in_map.
Qed.

Lemma groupby_In (df : list R) (k : K) (g : list R) :
  In (k, g) (groupby key df) ->
  In k (map key df) /\ g = filter (fun r => eqb_key (key r) k) df.
Proof.
  unfold groupby. intros Hin. apply in_map_iff in Hin.
  destruct Hin as [k' [E Hk]]. inversion E; subst.
  split; [now apply group_keys_In|reflexivity].
Qed.

End GroupCounts.

(** ** Ranking: [create_sales_rep_performance_chart] and the top products *)

Lemma NoDup_firstn {A : Type} (n : nat) (l : list A) : NoDup l -> NoDup (firstn n l).
Proof.
  intros Hl. rewrite <- (firstn_skipn n l) in Hl.
  now apply NoDup_app_remove_r in Hl.
Qed.

Lemma In_firstn {A : Type} (n : nat) (l : list A) (x : A) :
  In x (firstn n l) -> In x l.
Proof.
  intros Hx. rewrite <- (firstn_skipn n l). apply in_or_app. now left.
Qed.

Lemma rep_data_ids (df : list row) :
  map RepData.Sales_Rep_ID (rep_data df) = group_keys (map Sales_Rep_ID df).
Proof.
  unfold rep_data. rewrite map_map. cbn [RepData.Sales_Rep_ID].
  apply (groupby_keys Sales_Rep_ID df).
Qed.

Lemma rep_data_In (df : list row) (p : RepData.row) :
  In p (rep_data df) ->
  In (RepData.Sales_Rep_ID p) (map Sales_Rep_ID df) /\
  RepData.Total_Sales p =
    sum (map Total_Sales (filter (fun r => Sales_Rep_ID r =? RepData.Sales_Rep_ID p) df)) /\
  RepData.Profit p =
    sum (map Profit (filter (fun r => Sales_Rep_ID r =? RepData.Sales_Rep_ID p) df)).
Proof.
  unfold rep_data. intros Hin. apply in_map_iff in Hin.
  destruct Hin as [[k g] [E Hg]]. subst p.
  cbn [RepData.Sales_Rep_ID RepData.Total_Sales RepData.Profit fst snd].
  apply (groupby_In Sales_Rep_ID) in Hg. destruct Hg as [Hk ->].
  split; [assumption|].
  split; do 2 f_equal; apply filter_ext; intros r; apply eqb_key_Z.
Qed.

(** X12 (rep ranking).  The chart has at most ten rows, one per sales
    representative; each row carries the summed sales and the summed profit
    of its representative in the view; the rows are in descending order of
    summed sales; and a representative left out has summed sales no larger
    than those of any representative shown (NaN totals rank last). *)
Theorem sales_rep_chart_spec (df : list row) :
  (List.length (create_sales_rep_performance_chart df) <= 10)%nat /\
  List.length (create_sales_rep_performance_chart df) =
    Nat.min 10 (List.length (nodup Z.eq_dec (map Sales_Rep_ID df))) /\
  NoDup (map RepData.Sales_Rep_ID (create_sales_rep_performance_chart df)) /\
  (forall p, In p (create_sales_rep_performance_chart df) ->
     In (RepData.Sales_Rep_ID p) (map Sales_Rep_ID df) /\
     RepData.Total_Sales p =
       sum (map Total_Sales
              (filter (fun r => Sales_Rep_ID r =? RepData.Sales_Rep_ID p) df)) /\
     RepData.Profit p =
       sum (map Profit
              (filter (fun r => Sales_Rep_ID r =? RepData.Sales_Rep_ID p) df))) /\
  StronglySorted
    (fun a b => before_desc (RepData.Total_Sales a) (RepData.Total_Sales b) = true)
    (create_sales_rep_performance_chart df) /\
  (forall p q,
     In p (create_sales_rep_performance_chart df) ->
     In q (rep_data df) ->
     In q (create_sales_rep_performance_chart df) \/
     before_desc (RepData.Total_Sales p) (RepData.Total_Sales q) = true).
Proof.
  unfold create_sales_rep_performance_chart.
  set (before := fun a b : RepData.row =>
         before_desc (RepData.Total_Sales a) (RepData.Total_Sales b)).
  set (sorted := sort_values before (rep_data df)).
  assert (Hperm : Permutation sorted (rep_data df)) by apply sort_values_Permutation.
  assert (Htot : forall a b, before a b = true \/ before b a = true)
    by (intros a b; apply before_desc_total).
  assert (Htr : forall a b c, before a b = true -> before b c = true -> before a c = true)
    by (intros a b c; apply before_desc_trans).
  assert (Hlen : List.length sorted = List.length (nodup Z.eq_dec (map Sales_Rep_ID df))).
  { unfold sorted. rewrite sort_values_length.
    rewrite <- (length_map RepData.Sales_Rep_ID), rep_data_ids.
    apply group_keys_length. }
  split; [rewrite length_firstn; lia|].
  split; [rewrite length_firstn, Hlen; reflexivity|].
  split; [|split; [|split]].
  - rewrite <- firstn_map. apply NoDup_firstn.
    apply (Permutation_NoDup (l := map RepData.Sales_Rep_ID (rep_data df))).
    + apply Permutation_map. now symmetry.
    + rewrite rep_data_ids. apply group_keys_NoDup.
  - intros p Hp. apply rep_data_In.
    apply (Permutation_in _ Hperm). now apply (In_firstn 10).
  - pose proof (sort_values_sorted before Htot Htr (rep_data df)) as Hs.
    fold sorted in Hs. rewrite <- (firstn_skipn 10 sorted) in Hs.
    clear -Hs. induction (firstn 10 sorted) as [|a l IH]; [constructor|].
    simpl in Hs. inversion Hs as [|? ? Hs' Ha]; subst.
    constructor; [now apply IH|].
    apply Forall_app in Ha. tauto.
  - intros p q Hp Hq.
    apply (Permutation_in _ (Permutation_sym Hperm)) in Hq.
    rewrite <- (firstn_skipn 10 sorted) in Hq.
    apply in_app_or in Hq. destruct Hq as [Hq|Hq]; [now left|right].
    exact (sort_values_head_dominates before Htot Htr 10 (rep_data df) p q Hp Hq).
Qed.

Lemma product_sales_ids (df : list row) :
  map fst (product_sales df) = group_keys (map Product_ID df).
Proof. apply (groupby_sum_keys Product_ID Total_Sales df). Qed.

(** X9 (product ranking).  The product-share frame has one row per shown
    product, at most five, followed by the single row [Others]; the shown
    products are distinct, each with its summed sales in the view, and a
    product that is not shown has summed sales no larger than those of any
    product shown.  For a view without rows the frame is the row [Others]
    alone, with value 0. *)
Theorem product_share_ranking (df : list row) :
  List.length (plot_product_sales_share df) =
    S (Nat.min 5 (distinct_products df)) /\
  NoDup (map fst (top_products df)) /\
  (forall p v, In (p, v) (top_products df) ->
     In p (map Product_ID df) /\
     v = sum (map Total_Sales (filter (fun r => Product_ID r =? p) df))) /\
  (forall p v q w,
     In (p, v) (top_products df) -> In (q, w) (product_sales df) ->
     In (q, w) (top_products df) \/ before_desc v w = true) /\
  plot_product_sales_share [] = [(Others, of_Z 0)].
Proof.
  unfold plot_product_sales_share, other_products, top_products.
  set (before := fun a b : Z * float64 => before_desc (snd a) (snd b)).
  set (sorted := sort_values before (product_sales df)).
  assert (Hperm : Permutation sorted (product_sales df)) by apply sort_values_Permutation.
  assert (Htot : forall a b, before a b = true \/ before b a = true)
    by (intros a b; apply before_desc_total).
  assert (Htr : forall a b c, before a b = true -> before b c = true -> before a c = true)
    by (intros a b c; apply before_desc_trans).
  split; [|split; [|split; [|split]]].
  - rewrite length_app, length_map, length_firstn. simpl.
    unfold sorted. rewrite sort_values_length, product_sales_length. lia.
  - rewrite <- firstn_map. apply NoDup_firstn.
    apply (Permutation_NoDup (l := map fst (product_sales df))).
    + apply Permutation_map. now symmetry.
    + rewrite product_sales_ids. apply group_keys_NoDup.
  - intros p v Hp. apply In_firstn in Hp.
    apply (Permutation_in _ Hperm) in Hp.
    apply (groupby_sum_In Product_ID Total_Sales) in Hp. destruct Hp as [Hk ->].
    split; [assumption|]. do 2 f_equal. apply filter_ext. intros r. apply eqb_key_Z.
  - intros p v q w Hp Hq.
    apply (Permutation_in _ (Permutation_sym Hperm)) in Hq.
    rewrite <- (firstn_skipn 5 sorted) in Hq.
    apply in_app_or in Hq. destruct Hq as [Hq|Hq]; [now left|right].
    exact (sort_values_head_dominates before Htot Htr 5 (product_sales df)
             (p, v) (q, w) Hp Hq).
  - reflexivity.
Qed.

(** ** [plot_sales_vs_returns] *)

Lemma length_filter_le {A : Type} (p : A -> bool) (l : list A) :
  (List.length (filter p l) <= List.length l)%nat.
Proof. induction l as [|a l IH]; simpl; [lia|]. destruct (p a); simpl; lia. Qed.

Lemma eqb_true_r (b : bool) : Bool.eqb b true = b.
Proof. now destruct b. Qed.

(** X10 (sales against returns).  The frame has one row per region of the
    view; a row carries the summed sales of its region and the number of its
    returned orders, which lies between 0 and the number of orders of the
    region; the rows are in descending order of summed sales; and the
    returns of all the rows add up to the number of returned orders of the
    view. *)
Theorem sales_vs_returns_spec (df : list row) :
  NoDup (map RegionData.Region_ID (plot_sales_vs_returns df)) /\
  (forall region,
     In region (map RegionData.Region_ID (plot_sales_vs_returns df)) <->
     In region (map Region_ID df)) /\
  (forall p, In p (plot_sales_vs_returns df) ->
     RegionData.Total_Sales p =
       sum (map Total_Sales
              (filter (fun r => Region_ID r =? RegionData.Region_ID p) df)) /\
     RegionData.Returns p =
       Z.of_nat (List.length
         (filter (fun r => (Region_ID r =? RegionData.Region_ID p) && Return_Flag r) df)) /\
     0 <= RegionData.Returns p <=
       Z.of_nat (List.length
         (filter (fun r => Region_ID r =? RegionData.Region_ID p) df))) /\
  StronglySorted
    (fun a b => before_desc (RegionData.Total_Sales a) (RegionData.Total_Sales b) = true)
    (plot_sales_vs_returns df) /\
  zsum (map RegionData.Returns (plot_sales_vs_returns df)) =
    Z.of_nat (List.length (filter Return_Flag df)).
Proof.
  unfold plot_sales_vs_returns.
  set (before := fun a b : RegionData.row =>
         before_desc (RegionData.Total_Sales a) (RegionData.Total_Sales b)).
  set (mk := fun g : Z * list row =>
         {| RegionData.Region_ID := fst g;
            RegionData.Total_Sales := sum (map Total_Sales (snd g));
            RegionData.Returns :=
              Z.of_nat (List.length
                (filter (fun r => Bool.eqb (Return_Flag r) true) (snd g))) |}).
  set (region_data := map mk (groupby Region_ID df)).
  assert (Hperm : Permutation (sort_values before region_data) region_data)
    by apply sort_values_Permutation.
  assert (Hids : map RegionData.Region_ID region_data = group_keys (map Region_ID df)).
  { unfold region_data. rewrite map_map. cbn [mk RegionData.Region_ID].
    apply (groupby_keys Region_ID df). }
  assert (Hret : map RegionData.Returns region_data =
                 map (fun g => Z.of_nat (List.length (filter Return_Flag (snd g))))
                     (groupby Region_ID df)).
  { unfold region_data. rewrite map_map. apply map_ext. intros g.
    cbn [mk RegionData.Returns]. do 2 f_equal.
    apply filter_ext. intros r. apply eqb_true_r. }
  split; [|split; [|split; [|split]]].
  - apply (Permutation_NoDup (l := map RegionData.Region_ID region_data)).
    + apply Permutation_map. now symmetry.
    + rewrite Hids. apply group_keys_NoDup.
  - intros region.
    rewrite <- (group_keys_In region (map Region_ID df)), <- Hids.
    split; apply Permutation_in; apply Permutation_map; [|symmetry]; exact Hperm.
  - intros p Hp. apply (Permutation_in _ Hperm) in Hp.
    unfold region_data in Hp. apply in_map_iff in Hp.
    destruct Hp as [[k g] [E Hg]]. subst p.
    cbn [mk RegionData.Region_ID RegionData.Total_Sales RegionData.Returns fst snd].
    apply (groupby_In Region_ID) in Hg. destruct Hg as [_ ->].
    rewrite (filter_ext (fun r => eqb_key (Region_ID r) k) (fun r => Region_ID r =? k))
      by (intros r; apply eqb_key_Z).
    split; [reflexivity|].
    rewrite filter_twice.
    rewrite (filter_ext (fun a => (Region_ID a =? k) && Bool.eqb (Return_Flag a) true)
               (fun r => (Region_ID r =? k) && Return_Flag r))
      by (intros r; now rewrite eqb_true_r).
    split; [reflexivity|].
    split; [lia|]. apply Nat2Z.inj_le.
    rewrite <- filter_twice. apply length_filter_le.
  - apply sort_values_sorted.
    + intros a b. apply before_desc_total.
    + intros a b c. apply before_desc_trans.
  - rewrite (zsum_Permutation _ _ (Permutation_map RegionData.Returns Hperm)).
    rewrite Hret. apply (group_counts_all Region_ID Return_Flag df).
Qed.

(** ** Year-month keys *)

Lemma digit_compare (a b : Z) :
  0 <= a <= 9 -> 0 <= b <= 9 ->
  Ascii.compare (digit a) (digit b) = (a ?= b).
Proof.
  intros Ha Hb. unfold Ascii.compare, digit, ascii_of_nat.
  rewrite !Z.mod_small by lia.
  rewrite !N_ascii_embedding by lia.
  destruct (Z.compare_spec a b);
    [apply N.compare_eq_iff|apply N.compare_lt_iff|apply N.compare_gt_iff]; lia.
Qed.

Lemma digits4 (y : Z) :
  0 <= y <= 9999 ->
  exists d3 d2 d1 d0,
    0 <= d3 <= 9 /\ 0 <= d2 <= 9 /\ 0 <= d1 <= 9 /\ 0 <= d0 <= 9 /\
    y = 1000 * d3 + 100 * d2 + 10 * d1 + d0 /\
    zfill4 y =
      String (digit d3) (String (digit d2) (String (digit d1) (String (digit d0) ""))).
Proof.
  intros Hy.
  exists (y / 1000), ((y / 100) mod 10), ((y / 10) mod 10), (y mod 10).
  repeat split; try (Z.div_mod_to_equations; lia).
  unfold zfill4, zfill2, digit. rewrite !Z.mod_mod by lia.
  replace ((y / 1000) mod 10) with (y / 1000) by (Z.div_mod_to_equations; lia).
  reflexivity.
Qed.

Lemma digits2 (m : Z) :
  0 <= m <= 99 ->
  exists e1 e0,
    0 <= e1 <= 9 /\ 0 <= e0 <= 9 /\ m = 10 * e1 + e0 /\
    zfill2 m = String (digit e1) (String (digit e0) "").
Proof.
  intros Hm. exists (m / 10), (m mod 10).
  repeat split; try (Z.div_mod_to_equations; lia).
  unfold zfill2, digit. rewrite !Z.mod_mod by lia.
  replace ((m / 10) mod 10) with (m / 10) by (Z.div_mod_to_equations; lia).
  reflexivity.
Qed.

Ltac by_digit a b :=
  rewrite (digit_compare a b) by lia;
  destruct (Z.compare_spec a b);
  [ subst
  | match goal with
    | |- context [?x ?= ?y] => destruct (Z.compare_spec x y); try lia; reflexivity
    end .. ].

(** Comparing two keys [YYYY-MM] as strings is comparing year, then month. *)
Lemma year_month_compare (y1 m1 y2 m2 : Z) :
  0 <= y1 <= 9999 -> 0 <= m1 <= 99 -> 0 <= y2 <= 9999 -> 0 <= m2 <= 99 ->
  String.compare (zfill4 y1 ++ "-" ++ zfill2 m1)%string
                 (zfill4 y2 ++ "-" ++ zfill2 m2)%string =
  match y1 ?= y2 with Eq => m1 ?= m2 | c => c end.
Proof.
  intros Hy1 Hm1 Hy2 Hm2.
  destruct (digits4 y1 Hy1) as [a3 [a2 [a1 [a0 [? [? [? [? [Ey1 ->]]]]]]]]].
  destruct (digits4 y2 Hy2) as [b3 [b2 [b1 [b0 [? [? [? [? [Ey2 ->]]]]]]]]].
  destruct (digits2 m1 Hm1) as [c1 [c0 [? [? [Em1 ->]]]]].
  destruct (digits2 m2 Hm2) as [e1 [e0 [? [? [Em2 ->]]]]].
  subst y1 y2 m1 m2.
  cbn [append String.compare].
  by_digit a3 b3. by_digit a2 b2. by_digit a1 b1. by_digit a0 b0.
  rewrite Z.compare_refl.
  change (Ascii.compare "-" "-") with Eq. cbn iota.
  by_digit c1 e1. by_digit c0 e0.
  now rewrite Z.compare_refl.
Qed.

Lemma period_str_leb (p q : period) :
  valid_period p -> valid_period q ->
  String.leb (period_str p) (period_str q) = leb p q.
Proof.
  intros [Hpy Hpm] [Hqy Hqm]. unfold String.leb, period_str.
  rewrite year_month_compare by lia. simpl.
  destruct (Z.compare_spec (p_year p) (p_year q)) as [E|L|L];
    destruct (Z.compare_spec (p_month p) (p_month q));
    destruct (Z.ltb_spec (p_year p) (p_year q));
    destruct (Z.eqb_spec (p_year p) (p_year q));
    destruct (Z.leb_spec (p_month p) (p_month q)); simpl; try reflexivity; lia.
Qed.

Lemma preprocess_row_dated (r : Raw.row) :
  valid_date (Raw.Order_Date r) -> dated (preprocess_row r).
Proof. intros Hv. split; [exact Hv|]. split; reflexivity. Qed.

Lemma dated_period (r : row) : dated r -> valid_period (Month_Year r).
Proof. intros [[Hy Hm] [-> _]]. split; assumption. Qed.

Lemma dated_Year_Month (r : row) : dated r -> Year_Month r = period_str (Month_Year r).
Proof. intros [_ [-> ->]]. reflexivity. Qed.

(** X1 (month keys).  For rows with a valid date the string key
    [Year_Month] orders the rows as the calendar does: a key is smaller than
    another exactly when its month is earlier, two keys are equal exactly
    when year and month are; hence the string key and the period key
    [Month_Year] order and group the rows alike. *)
Theorem year_month_key_chronological (r1 r2 : row) :
  dated r1 -> dated r2 ->
  (String.ltb (Year_Month r1) (Year_Month r2) = true <->
   year (Order_Date r1) < year (Order_Date r2) \/
   (year (Order_Date r1) = year (Order_Date r2) /\
    month (Order_Date r1) < month (Order_Date r2))) /\
  (Year_Month r1 = Year_Month r2 <->
   year (Order_Date r1) = year (Order_Date r2) /\
   month (Order_Date r1) = month (Order_Date r2)) /\
  String.leb (Year_Month r1) (Year_Month r2) = leb (Month_Year r1) (Month_Year r2).
Proof.
  intros D1 D2.
  pose proof (dated_period r1 D1) as V1. pose proof (dated_period r2 D2) as V2.
  rewrite (dated_Year_Month r1 D1), (dated_Year_Month r2 D2).
  destruct D1 as [[Hy1 Hm1] [E1 _]], D2 as [[Hy2 Hm2] [E2 _]].
  rewrite E1, E2 in *.
  assert (Hc : String.compare
                 (period_str {| p_year := year (Order_Date r1);
                                p_month := month (Order_Date r1) |})
                 (period_str {| p_year := year (Order_Date r2);
                                p_month := month (Order_Date r2) |}) =
               match year (Order_Date r1) ?= year (Order_Date r2) with
               | Eq => month (Order_Date r1) ?= month (Order_Date r2)
               | c => c
               end).
  { unfold period_str. cbn [p_year p_month]. apply year_month_compare; lia. }
  split; [|split].
  - unfold String.ltb. rewrite Hc.
    destruct (Z.compare_spec (year (Order_Date r1)) (year (Order_Date r2)));
      destruct (Z.compare_spec (month (Order_Date r1)) (month (Order_Date r2)));
      split; intros; try discriminate; try lia; reflexivity.
  - split.
    + intros E. rewrite E in Hc.
      assert (Hr : forall s, String.compare s s = Eq).
      { intros s. destruct (String.compare s s) eqn:C; [reflexivity| |];
          pose proof (String.compare_antisym s s) as A; rewrite C in A; discriminate. }
      rewrite Hr in Hc.
      destruct (Z.compare_spec (year (Order_Date r1)) (year (Order_Date r2)));
        destruct (Z.compare_spec (month (Order_Date r1)) (month (Order_Date r2)));
        try discriminate; lia.
    + intros [-> ->]. reflexivity.
  - now apply period_str_leb.
Qed.

Lemma year_month_key_chronological_witness :
  String.ltb "2022-12" "2023-01" = true <->
  2022 < 2023 \/ (2022 = 2023 /\ 12 < 1).
Proof.
  pose (r1 := preprocess_row (mk_raw 2022 12 5 9 1 1 1 (of_Z 1) (of_Z 1) 0)).
  pose (r2 := preprocess_row (mk_raw 2023 1 5 9 1 1 1 (of_Z 1) (of_Z 1) 0)).
  apply (year_month_key_chronological r1 r2).
  - unfold r1. apply preprocess_row_dated. unfold valid_date. simpl. lia.
  - unfold r2. apply preprocess_row_dated. unfold valid_date. simpl. lia.
Defined.

(** ** Keys mapped by an order embedding *)

Section KeyEmbedding.

Context {A B : Type} `{OrdLaws A} `{OrdLaws B} (f : A -> B).

Lemma insert_key_map (a : A) (ks : list A) :
  (forall x, In x ks -> leb (f a) (f x) = leb a x /\ leb (f x) (f a) = leb x a) ->
  insert_key (f a) (map f ks) = map f (insert_key a ks).
Proof.
  induction ks as [|x ks IH]; intros Hf; simpl; [reflexivity|].
  destruct (Hf x (or_introl eq_refl)) as [E1 E2].
  unfold eqb_key. rewrite E1, E2.
  destruct (leb a x && leb x a); [reflexivity|].
  destruct (leb a x); [reflexivity|].
  simpl. f_equal. apply IH. intros y Hy. apply Hf. now right.
Qed.

Lemma group_keys_map (l : list A) :
  (forall x y, In x l -> In y l -> leb (f x) (f y) = leb x y) ->
  group_keys (map f l) = map f (group_keys l).
Proof.
  induction l as [|a l IH]; intros Hf; simpl; [reflexivity|].
  rewrite IH by (intros x y Hx Hy; apply Hf; now right).
  apply insert_key_map. intros x Hx. apply -> (group_keys_In x l) in Hx.
  split; apply Hf; solve [now left | now right].
Qed.

End KeyEmbedding.

Lemma StronglySorted_map_In {A B : Type} (ra : A -> A -> Prop) (rb : B -> B -> Prop)
    (g : A -> B) (l : list A) :
  (forall x y, In x l -> In y l -> ra x y -> rb (g x) (g y)) ->
  StronglySorted ra l -> StronglySorted rb (map g l).
Proof.
  intros Hg Hs. induction Hs as [|a l Hs IH Ha]; simpl; constructor.
  - apply IH. intros x y Hx Hy. apply Hg; now right.
  - rewrite Forall_map. rewrite Forall_forall in *. intros x Hx.
    apply Hg; [now left|now right|now apply Ha].
Qed.

Lemma period_str_inj (p q : period) :
  valid_period p -> valid_period q -> period_str p = period_str q -> p = q.
Proof.
  intros Vp Vq E. apply leb_antisym.
  - rewrite <- (period_str_leb p q Vp Vq), E.
    destruct (String.leb_total (period_str q) (period_str q)); assumption.
  - rewrite <- (period_str_leb q p Vq Vp), E.
    destruct (String.leb_total (period_str q) (period_str q)); assumption.
Qed.

(** ** [plot_profit_margin_trend] *)

(** X11 (margin trend).  For rows with valid dates the profit-margin trend
    has exactly the months of the monthly sales frame of the metrics
    calculator, in the same ascending order, each with the mean of the
    margins of its rows; the final [sort_values] on the month strings leaves
    the order of the groups unchanged. *)
Theorem profit_margin_trend_months (df : list row) :
  Forall dated df ->
  plot_profit_margin_trend df =
    map (fun k => (k, mean (map Profit_Margin
                              (filter (fun r => (Year_Month r =? k)%string) df))))
        (map fst (monthly_sales df)) /\
  plot_profit_margin_trend df =
    map (fun g => (period_str (fst g), snd g))
        (groupby_mean Month_Year Profit_Margin df).
Proof.
  intros Hd. rewrite Forall_forall in Hd.
  set (pkeys := group_keys (map Month_Year df)).
  assert (Hvalid : forall p, In p pkeys -> valid_period p).
  { intros p Hp. apply group_keys_In, in_map_iff in Hp.
    destruct Hp as [r [<- Hr]]. apply dated_period. now apply Hd. }
  assert (Hmean : groupby_mean Month_Year Profit_Margin df =
                  map (fun k => (k, mean (map Profit_Margin
                         (filter (fun r => eqb_key (Month_Year r) k) df)))) pkeys).
  { unfold groupby_mean, groupby. rewrite map_map. reflexivity. }
  assert (Hkeys : map fst (monthly_sales df) = map period_str pkeys).
  { unfold monthly_sales. rewrite groupby_sum_keys.
    rewrite (map_ext_in Year_Month (fun r => period_str (Month_Year r)))
      by (intros r Hr; apply dated_Year_Month; now apply Hd).
    rewrite <- (map_map Month_Year period_str).
    apply group_keys_map. intros p q Hp Hq.
    apply in_map_iff in Hp, Hq.
    destruct Hp as [r1 [<- Hr1]], Hq as [r2 [<- Hr2]].
    apply period_str_leb; apply dated_period; now apply Hd. }
  assert (Hsorted : plot_profit_margin_trend df =
                    map (fun g => (period_str (fst g), snd g))
                        (groupby_mean Month_Year Profit_Margin df)).
  { unfold plot_profit_margin_trend. apply sort_values_sorted_id.
    rewrite Hmean, map_map. cbn [fst snd].
    apply (StronglySorted_map_In ltk); [|apply group_keys_sorted].
    intros p q Hp Hq Hlt. cbn [fst].
    rewrite (period_str_leb p q) by now apply Hvalid.
    unfold ltk in Hlt. destruct (leb_total p q) as [L|L]; [exact L|congruence]. }
  split; [|exact Hsorted].
  rewrite Hsorted, Hmean, Hkeys, !map_map. cbn [fst snd].
  apply map_ext_in. intros p Hp. do 3 f_equal.
  apply filter_ext_in. intros r Hr.
  rewrite (dated_Year_Month r (Hd r Hr)).
  destruct (String.eqb_spec (period_str (Month_Year r)) (period_str p)) as [E|E].
  - apply eqb_key_eq. apply period_str_inj; [|now apply Hvalid|exact E].
    apply dated_period. now apply Hd.
  - apply eqb_key_neq. intros Ep. apply E. now rewrite Ep.
Qed.

Lemma sample_orders_dated : Forall dated sample_orders.
Proof.
  unfold sample_orders, load_and_preprocess_data.
  rewrite Forall_map. repeat constructor; apply preprocess_row_dated;
    unfold valid_date; simpl; lia.
Defined.

Lemma profit_margin_trend_months_witness :
  plot_profit_margin_trend sample_orders =
    map (fun k => (k, mean (map Profit_Margin
                              (filter (fun r => (Year_Month r =? k)%string)
                                      sample_orders))))
        (map fst (monthly_sales sample_orders)).
Proof.
  apply (profit_margin_trend_months sample_orders). exact sample_orders_dated.
Defined.

(** ** [plot_sales_by_time_of_day] *)

Lemma StronglySorted_filter {A : Type} (rel : A -> A -> Prop) (p : A -> bool)
    (l : list A) :
  StronglySorted rel l -> StronglySorted rel (filter p l).
Proof.
  induction 1 as [|a l Hs IH Ha]; simpl; [constructor|].
  destruct (p a); [|assumption].
  constructor; [assumption|].
  rewrite Forall_forall in *. intros x Hx. apply filter_In in Hx. now apply Ha.
Qed.

Lemma categorize_time_of_day_in_order (hour : Z) :
  In (categorize_time_of_day hour) time_order.
Proof.
  rewrite categorize_time_of_day_cases. unfold time_order.
  destruct ((5 <=? hour) && (hour <=? 11)); [simpl; auto|].
  destruct ((12 <=? hour) && (hour <=? 16)); [simpl; auto|].
  destruct ((17 <=? hour) && (hour <=? 20)); simpl; auto.
Qed.

(** X8 (time of day).  When every row carries one of the four categories
    (as every preprocessed row does), the time-of-day frame lists the
    categories that occur in the view in the fixed order Morning, Afternoon,
    Evening, Night, whatever the order of the groups, each once with the sum
    of its sales; a category without rows is absent, not zero-filled. *)
Theorem sales_by_time_of_day_order (df : list row) :
  Forall (fun r => In (Time_of_Day r) time_order) df ->
  plot_sales_by_time_of_day df =
    map (fun c => (Some c,
                   sum (map Total_Sales
                          (filter (fun r => (Time_of_Day r =? c)%string) df))))
        (filter (fun c => existsb (fun r => (Time_of_Day r =? c)%string) df)
                time_order).
Proof.
  intros Hcat. rewrite Forall_forall in Hcat.
  set (present := fun c => existsb (fun r => (Time_of_Day r =? c)%string) df).
  assert (Hpresent : forall c, present c = true <-> In c (map Time_of_Day df)).
  { intros c. unfold present. rewrite existsb_exists, in_map_iff.
    split; intros [r [H1 H2]]; exists r.
    - apply String.eqb_eq in H2. now split.
    - split; [assumption|]. now apply String.eqb_eq. }
  assert (Hkeys : group_keys (map Time_of_Day df) =
                  filter present ["Afternoon"; "Evening"; "Morning"; "Night"]).
  { apply sorted_unique.
    - apply group_keys_sorted.
    - apply StronglySorted_filter. repeat constructor.
    - intros c. rewrite group_keys_In, filter_In, Hpresent.
      split; [|tauto]. intros Hc. split; [|assumption].
      apply in_map_iff in Hc. destruct Hc as [r [<- Hr]].
      specialize (Hcat r Hr). unfold time_order in Hcat. simpl in *. tauto. }
  unfold plot_sales_by_time_of_day, groupby_sum, groupby.
  rewrite !map_map. cbn [fst snd]. rewrite Hkeys.
  rewrite (map_ext
             (fun k => (Categorical time_order k,
                        sum (map Total_Sales
                               (filter (fun r => eqb_key (Time_of_Day r) k) df))))
             (fun k => (Categorical time_order k,
                        sum (map Total_Sales
                               (filter (fun r => (Time_of_Day r =? k)%string) df)))))
    by (intros k; do 3 f_equal; apply filter_ext; intros r; apply eqb_key_string).
  unfold time_order. cbn [filter].
  destruct (present "Afternoon"), (present "Evening"),
    (present "Morning"), (present "Night"); reflexivity.
Qed.

Lemma sales_by_time_of_day_order_witness :
  map fst (plot_sales_by_time_of_day sample_orders) =
    [Some "Morning"; Some "Afternoon"; Some "Night"].
Proof.
  rewrite (sales_by_time_of_day_order sample_orders).
  - reflexivity.
  - unfold sample_orders, load_and_preprocess_data. rewrite Forall_map.
    repeat constructor; apply categorize_time_of_day_in_order.
Defined.

(** ** [plot_hourly_sales_heatmap] *)

Section PivotFacts.

Context {I C : Type} `{OrdLaws I} `{OrdLaws C}.

Lemma same_cell_true (i : I) (c : C) (e : (I * C) * float64) :
  same_cell i c e = true <-> fst e = (i, c).
Proof.
  unfold same_cell. rewrite andb_true_iff, !eqb_key_eq.
  destruct e as [[i' c'] v]; simpl. split.
  - intros [-> ->]. reflexivity.
  - intros E. inversion E. now split.
Qed.

(** Distinct pairs never make [pivot] raise. *)
Lemma duplicated_false (rows : list ((I * C) * float64)) :
  NoDup (map fst rows) -> duplicated rows = false.
Proof.
  induction rows as [|e rows IH]; simpl; intros Hnd; [reflexivity|].
  inversion Hnd as [|? ? Hnotin Hnd']; subst.
  rewrite (IH Hnd'), orb_false_r.
  destruct (existsb (same_cell (fst (fst e)) (snd (fst e))) rows) eqn:Ex;
    [|reflexivity].
  apply existsb_exists in Ex. destruct Ex as [e' [He' Hc]].
  apply same_cell_true in Hc. exfalso. apply Hnotin.
  rewrite (surjective_pairing (fst e)), <- Hc. now apply in_map.
Qed.

Lemma pivot_cell_keys (F : I * C -> float64) (keys : list (I * C)) (i : I) (c : C) :
  pivot_cell (map (fun k => (k, F k)) keys) i c =
  if existsb (fun k => eqb_key (fst k) i && eqb_key (snd k) c) keys
  then F (i, c) else NaN.
Proof.
  unfold pivot_cell.
  induction keys as [|k keys IH]; simpl; [reflexivity|].
  unfold same_cell at 1. cbn [fst snd].
  destruct (eqb_key (fst k) i && eqb_key (snd k) c) eqn:E; [|exact IH].
  simpl. apply andb_true_iff in E. destruct E as [E1 E2].
  apply eqb_key_eq in E1, E2. destruct k; simpl in *. now subst.
Qed.

End PivotFacts.

Lemma bool_eq_iff (a b : bool) : (a = true <-> b = true) -> a = b.
Proof.
  destruct a, b; intros [H1 H2]; try reflexivity.
  - symmetry. now apply H1.
  - now apply H2.
Qed.

Lemma eqb_key_day_hour (r : row) (d : string) (h : Z) :
  eqb_key (Day_of_Week r, Hour r) (d, h) = (Day_of_Week r =? d)%string && (Hour r =? h).
Proof.
  apply bool_eq_iff. rewrite eqb_key_eq, andb_true_iff, String.eqb_eq, Z.eqb_eq.
  split; [intros E; inversion E; now split|intros [-> ->]; reflexivity].
Qed.

(** X7 (heatmap).  The pivot never raises: after the grouping every pair of
    day and hour occurs once.  Its rows are the days of the view and its
    columns the hours of the view, each ascending and without repetition;
    every line has one cell per column; the cell of a day and an hour holds
    the summed sales of the orders of that day and hour, and NaN - not 0 -
    when the view has no such order. *)
Theorem hourly_heatmap_spec (df : list row) :
  exists t,
    plot_hourly_sales_heatmap df = Return t /\
    StronglySorted ltk (pivot_index t) /\
    (forall d, In d (pivot_index t) <-> In d (map Day_of_Week df)) /\
    StronglySorted ltk (pivot_columns t) /\
    (forall h, In h (pivot_columns t) <-> In h (map Hour df)) /\
    List.length (pivot_values t) = List.length (pivot_index t) /\
    (forall i j d h,
       nth_error (pivot_index t) i = Some d ->
       nth_error (pivot_columns t) j = Some h ->
       exists line,
         nth_error (pivot_values t) i = Some line /\
         List.length line = List.length (pivot_columns t) /\
         nth_error line j =
           Some (if existsb (fun r => (Day_of_Week r =? d)%string && (Hour r =? h)) df
                 then sum (map Total_Sales
                             (filter (fun r => (Day_of_Week r =? d)%string && (Hour r =? h))
                                     df))
                 else NaN)).
Proof.
  unfold plot_hourly_sales_heatmap.
  set (key := fun r : row => (Day_of_Week r, Hour r)).
  set (keys := group_keys (map key df)).
  set (F := fun k : string * Z =>
              sum (map Total_Sales (filter (fun r => eqb_key (key r) k) df))).
  assert (Hrows : groupby_sum key Total_Sales df = map (fun k => (k, F k)) keys).
  { unfold groupby_sum, groupby. rewrite map_map. reflexivity. }
  assert (Hin : forall k, In k keys <-> In k (map key df))
    by (intros k; apply group_keys_In).
  rewrite Hrows. unfold pivot.
  rewrite duplicated_false
    by (rewrite map_map; cbn [fst]; rewrite map_id; apply group_keys_NoDup).
  eexists. split; [reflexivity|]. cbn [pivot_index pivot_columns pivot_values].
  rewrite !map_map. cbn [fst snd].
  split; [apply group_keys_sorted|].
  split.
  { intros d. rewrite group_keys_In, !in_map_iff. split.
    - intros [k [<- Hk]]. apply Hin, in_map_iff in Hk.
      destruct Hk as [r [<- Hr]]. now exists r.
    - intros [r [<- Hr]]. exists (key r). split; [reflexivity|].
      apply Hin. now apply in_map. }
  split; [apply group_keys_sorted|].
  split.
  { intros h. rewrite group_keys_In, !in_map_iff. split.
    - intros [k [<- Hk]]. apply Hin, in_map_iff in Hk.
      destruct Hk as [r [<- Hr]]. now exists r.
    - intros [r [<- Hr]]. exists (key r). split; [reflexivity|].
      apply Hin. now apply in_map. }
  split; [apply length_map|].
  intros i j d h Hd Hh.
  eexists. split; [apply (map_nth_error _ _ _ Hd)|].
  split; [apply length_map|].
  rewrite (map_nth_error _ _ _ Hh). f_equal.
  rewrite pivot_cell_keys.
  assert (Hex : existsb (fun k : string * Z => eqb_key (fst k) d && eqb_key (snd k) h) keys =
                existsb (fun r => (Day_of_Week r =? d)%string && (Hour r =? h)) df).
  { apply bool_eq_iff. rewrite !existsb_exists. split.
    - intros [k [Hk E]]. apply Hin, in_map_iff in Hk.
      destruct Hk as [r [<- Hr]]. exists r. split; [assumption|].
      unfold key in E. cbn [fst snd] in E.
      now rewrite eqb_key_string, eqb_key_Z in E.
    - intros [r [Hr E]]. exists (key r). split; [apply Hin; now apply in_map|].
      unfold key. cbn [fst snd]. now rewrite eqb_key_string, eqb_key_Z. }
  rewrite Hex. unfold F.
  rewrite (filter_ext (fun r => eqb_key (key r) (d, h))
             (fun r => (Day_of_Week r =? d)%string && (Hour r =? h)))
    by (intros r; apply eqb_key_day_hour).
  reflexivity.
Qed.

Lemma hourly_heatmap_spec_witness :
  exists t line,
    plot_hourly_sales_heatmap sample_orders = Return t /\
    nth_error (pivot_values t) 0 = Some line /\
    nth_error line 1 =
      Some (if existsb (fun r => (Day_of_Week r =? "Monday")%string && (Hour r =? 13))
                       sample_orders
            then sum (map Total_Sales
                        (filter (fun r => (Day_of_Week r =? "Monday")%string && (Hour r =? 13))
                                sample_orders))
            else NaN).
Proof.
  destruct (hourly_heatmap_spec sample_orders) as [t [E [_ [_ [_ [_ [_ Hcell]]]]]]].
  assert (Hc : exists t', plot_hourly_sales_heatmap sample_orders = Return t' /\
                          nth_error (pivot_index t') 0 = Some "Monday" /\
                          nth_error (pivot_columns t') 1 = Some 13)
    by (eexists; repeat split; vm_compute; reflexivity).
  destruct Hc as [t' [E1 [Hi Hj]]].
  rewrite E in E1. injection E1 as <-.
  destruct (Hcell 0%nat 1%nat "Monday" 13 Hi Hj) as [line [Hl [_ Hv]]].
  exists t, line. repeat split; assumption.
Defined.

(** ** [plot_monthly_sales_trend] *)

Lemma before_year_month_total (a b : Trend.row) :
  before_year_month a b = true \/ before_year_month b a = true.
Proof.
  unfold before_year_month.
  destruct (Z.ltb_spec (Trend.Year a) (Trend.Year b)),
    (Z.ltb_spec (Trend.Year b) (Trend.Year a)),
    (Z.eqb_spec (Trend.Year a) (Trend.Year b)),
    (Z.eqb_spec (Trend.Year b) (Trend.Year a)),
    (Z.leb_spec (Trend.Month_Num a) (Trend.Month_Num b)),
    (Z.leb_spec (Trend.Month_Num b) (Trend.Month_Num a)); simpl; auto; lia.
Qed.

Lemma before_year_month_trans (a b c : Trend.row) :
  before_year_month a b = true -> before_year_month b c = true ->
  before_year_month a c = true.
Proof.
  unfold before_year_month.
  destruct (Z.ltb_spec (Trend.Year a) (Trend.Year b)),
    (Z.ltb_spec (Trend.Year b) (Trend.Year c)),
    (Z.ltb_spec (Trend.Year a) (Trend.Year c)),
    (Z.eqb_spec (Trend.Year a) (Trend.Year b)),
    (Z.eqb_spec (Trend.Year b) (Trend.Year c)),
    (Z.eqb_spec (Trend.Year a) (Trend.Year c)),
    (Z.leb_spec (Trend.Month_Num a) (Trend.Month_Num b)),
    (Z.leb_spec (Trend.Month_Num b) (Trend.Month_Num c)),
    (Z.leb_spec (Trend.Month_Num a) (Trend.Month_Num c)); simpl; auto; lia.
Qed.

Lemma before_year_month_spec (a b : Trend.row) :
  before_year_month a b = true <->
  Trend.Year a < Trend.Year b \/
  (Trend.Year a = Trend.Year b /\ Trend.Month_Num a <= Trend.Month_Num b).
Proof.
  unfold before_year_month.
  destruct (Z.ltb_spec (Trend.Year a) (Trend.Year b)),
    (Z.eqb_spec (Trend.Year a) (Trend.Year b)),
    (Z.leb_spec (Trend.Month_Num a) (Trend.Month_Num b)); simpl;
    split; intros; try discriminate; try reflexivity; lia.
Qed.

Lemma eqb_key_trend (r : row) (y : Z) (n : string) (m : Z) :
  eqb_key (Year r, (Month_Name r, Month r)) (y, (n, m)) =
  (Year r =? y) && (Month_Name r =? n)%string && (Month r =? m).
Proof.
  apply bool_eq_iff.
  rewrite eqb_key_eq, !andb_true_iff, String.eqb_eq, !Z.eqb_eq.
  split; [intros E; inversion E; auto|intros [[-> ->] ->]; reflexivity].
Qed.

(** X6 (monthly trend).  The trend has one point per distinct combination
    of the columns Year, Month_Name and Month of the view; the points are in
    ascending order of year and month number; each point carries the summed
    sales of the rows of its combination, and its label is the month name
    followed by a blank and the year. *)
Theorem monthly_sales_trend_spec (df : list row) :
  StronglySorted
    (fun a b => Trend.Year a < Trend.Year b \/
                (Trend.Year a = Trend.Year b /\ Trend.Month_Num a <= Trend.Month_Num b))
    (plot_monthly_sales_trend df) /\
  NoDup (map (fun p => (Trend.Year p, (Trend.Month_Name p, Trend.Month p)))
             (plot_monthly_sales_trend df)) /\
  (forall k,
     In k (map (fun p => (Trend.Year p, (Trend.Month_Name p, Trend.Month p)))
               (plot_monthly_sales_trend df)) <->
     In k (map (fun r => (Year r, (Month_Name r, Month r))) df)) /\
  (forall p, In p (plot_monthly_sales_trend df) ->
     Trend.Total_Sales p =
       sum (map Total_Sales
              (filter (fun r => (Year r =? Trend.Year p) &&
                                (Month_Name r =? Trend.Month_Name p)%string &&
                                (Month r =? Trend.Month p)) df)) /\
     Trend.Month_Num p = Trend.Month p /\
     Trend.Date_Label p =
       (Trend.Month_Name p ++ " " ++ Z_to_str (Trend.Year p))%string).
Proof.
  unfold plot_monthly_sales_trend.
  set (key := fun r : row => (Year r, (Month_Name r, Month r))).
  set (mk := fun g : (Z * (string * Z)) * float64 =>
               {| Trend.Year := fst (fst g);
                  Trend.Month_Name := fst (snd (fst g));
                  Trend.Month := snd (snd (fst g));
                  Trend.Total_Sales := snd g;
                  Trend.Month_Num := snd (snd (fst g));
                  Trend.Date_Label := "" |}).
  set (relabel := fun p : Trend.row =>
               {| Trend.Year := Trend.Year p;
                  Trend.Month_Name := Trend.Month_Name p;
                  Trend.Month := Trend.Month p;
                  Trend.Total_Sales := Trend.Total_Sales p;
                  Trend.Month_Num := Trend.Month_Num p;
                  Trend.Date_Label :=
                    (Trend.Month_Name p ++ " " ++ Z_to_str (Trend.Year p))%string |}).
  set (triple := fun p => (Trend.Year p, (Trend.Month_Name p, Trend.Month p))).
  set (rows := map mk (groupby_sum key Total_Sales df)).
  assert (Hperm : Permutation (sort_values before_year_month rows) rows)
    by apply sort_values_Permutation.
  assert (Htriples : map triple (map relabel (sort_values before_year_month rows)) =
                     map triple (sort_values before_year_month rows))
    by (rewrite map_map; reflexivity).
  assert (Hkeys : map triple rows = group_keys (map key df)).
  { unfold rows. rewrite map_map.
    rewrite (map_ext (fun x => triple (mk x)) fst)
      by (intros [[y [n m]] v]; reflexivity).
    apply groupby_sum_keys. }
  split; [|split; [|split]].
  - apply (StronglySorted_map_In (fun a b => before_year_month a b = true)).
    + intros a b _ _ Hab. apply before_year_month_spec in Hab. exact Hab.
    + apply sort_values_sorted;
        [apply before_year_month_total|apply before_year_month_trans].
  - rewrite Htriples.
    apply (Permutation_NoDup (l := map triple rows)).
    + apply Permutation_map. now symmetry.
    + rewrite Hkeys. apply group_keys_NoDup.
  - intros k. rewrite Htriples.
    rewrite <- (group_keys_In k (map key df)), <- Hkeys.
    split; apply Permutation_in; apply Permutation_map; [|symmetry]; exact Hperm.
  - intros p Hp. apply in_map_iff in Hp. destruct Hp as [q [<- Hq]].
    apply (Permutation_in _ Hperm) in Hq.
    unfold rows in Hq. apply in_map_iff in Hq.
    destruct Hq as [[[y [n m]] v] [<- Hg]].
    apply (groupby_sum_In key Total_Sales) in Hg. destruct Hg as [_ ->].
    cbn. split; [|split; reflexivity].
    fold (sum (map Total_Sales (filter (fun r => eqb_key (key r) (y, (n, m))) df))).
    do 2 f_equal. apply filter_ext. intros r. apply eqb_key_trend.
Qed.

(** ** The filters, for every selection *)

Lemma filtered_df_filter (df : list row)
    (selected_regions : option (list Z)) (selected_times : option (list string))
    (selected_year : option Z) :
  filtered_df df selected_regions selected_times selected_year =
  filter (fun r =>
            in_set Z.eqb (Region_ID r) selected_regions &&
            in_set String.eqb (Time_of_Day r) selected_times &&
            (if truthy_int selected_year
             then Year r =? default_int selected_year else true)) df.
Proof.
  unfold filtered_df.
  rewrite (filter_truthy_list Z.eqb Region_ID selected_regions df).
  rewrite (filter_truthy_list String.eqb Time_of_Day selected_times).
  destruct (truthy_int selected_year).
  - rewrite !filter_twice. apply filter_ext. intros r. now rewrite andb_assoc.
  - rewrite filter_twice. apply filter_ext. intros r. now rewrite andb_true_r.
Qed.

(** X14 (view of a selection).  For every selection the filtered view is
    the frame restricted, in its order, to the rows within the selected
    regions and times of day (an absent or empty selection admitting all)
    and of the selected year, where a selected year of 0 restricts nothing.
    Applying the same selection to the view again changes nothing, and the
    view is never longer than the frame. *)
Theorem filtered_df_subframe (df : list row)
    (selected_regions : option (list Z)) (selected_times : option (list string))
    (selected_year : option Z) :
  filtered_df df selected_regions selected_times selected_year =
    filter (fun r =>
              in_set Z.eqb (Region_ID r) selected_regions &&
              in_set String.eqb (Time_of_Day r) selected_times &&
              match selected_year with
              | Some y => (y =? 0) || (Year r =? y)
              | None => true
              end) df /\
  (forall r,
     In r (filtered_df df selected_regions selected_times selected_year) <->
     In r df /\
     in_set Z.eqb (Region_ID r) selected_regions = true /\
     in_set String.eqb (Time_of_Day r) selected_times = true /\
     (truthy_int selected_year = true -> Some (Year r) = selected_year)) /\
  filtered_df (filtered_df df selected_regions selected_times selected_year)
    selected_regions selected_times selected_year =
  filtered_df df selected_regions selected_times selected_year /\
  (List.length (filtered_df df selected_regions selected_times selected_year)
   <= List.length df)%nat.
Proof.
  split; [|split; [|split]].
  - rewrite filtered_df_filter. apply filter_ext. intros r. f_equal.
    destruct selected_year as [y|]; [|reflexivity]. simpl.
    now destruct (y =? 0).
  - intros r. rewrite filtered_df_filter, filter_In, !andb_true_iff.
    split.
    + intros [Hin [[Hreg Htime] Hyear]]. repeat split; try assumption.
      intros Ht. rewrite Ht in Hyear. apply Z.eqb_eq in Hyear.
      destruct selected_year as [y|]; [|discriminate]. simpl in Hyear. now subst.
    + intros [Hin [Hreg [Htime Hyear]]]. repeat split; try assumption.
      destruct (truthy_int selected_year) eqn:Ht; [|reflexivity].
      specialize (Hyear eq_refl). subst selected_year. simpl. apply Z.eqb_refl.
  - rewrite (filtered_df_filter (filtered_df _ _ _ _)), (filtered_df_filter df).
    rewrite filter_twice. apply filter_ext. intros r. apply andb_diag.
  - rewrite filtered_df_filter. apply length_filter_le.
Qed.

Lemma filtered_df_subframe_witness :
  In (preprocess_row (mk_raw 2023 1 5 9 1 1 2 (of_Z 100) (of_Z 10) 0))
     (filtered_df sample_orders (Some [1]) None (Some 2023)).
Proof.
  destruct (filtered_df_subframe sample_orders (Some [1]) None (Some 2023))
    as [_ [Hsub _]].
  apply (proj2 (Hsub (preprocess_row (mk_raw 2023 1 5 9 1 1 2 (of_Z 100) (of_Z 10) 0)))).
  split; [now left|]. split; [reflexivity|]. split; [reflexivity|].
  intros _. reflexivity.
Defined.

(** ** The preprocessor: edge cases of the derived columns *)

(** X3 (night).  The categorisation accepts every integer: an hour is Night
    exactly when it is below 5 or above 20, so an hour outside 0 to 23
    (negative, or 24 and more) is silently Night as well. *)
Theorem night_is_the_default (hour : Z) :
  categorize_time_of_day hour = "Night" <-> hour < 5 \/ 20 < hour.
Proof.
  rewrite categorize_time_of_day_cases.
  destruct (Z.leb_spec 5 hour), (Z.leb_spec hour 11),
    (Z.leb_spec 12 hour), (Z.leb_spec hour 16),
    (Z.leb_spec 17 hour), (Z.leb_spec hour 20); simpl;
    split; intros; try discriminate; try reflexivity; lia.
Qed.

(** X2 (order size).  The order size of a row is the unguarded quotient of
    its sales by its quantity: for a quantity of 0 it is not finite (the
    infinity of the sign of the sales, NaN for sales of 0), and no error is
    raised; for any other quantity and finite sales it is the exact
    quotient. *)
Theorem order_size_spec (r : Raw.row) :
  (Raw.Quantity_Sold r = 0 ->
     Order_Size (preprocess_row r) = signed_inf (sign (Raw.Total_Sales r)) /\
     isfinite (Order_Size (preprocess_row r)) = false) /\
  (Raw.Quantity_Sold r <> 0 ->
     forall s, Raw.Total_Sales r = Fin s ->
       Order_Size (preprocess_row r) =
         Fin (s / Q2Qc (inject_Z (Raw.Quantity_Sold r)))%Qc).
Proof.
  split.
  - intros Hq. simpl. rewrite Hq, div_zero. split; [reflexivity|].
    apply signed_inf_not_finite.
  - intros Hq s Hs. simpl. rewrite Hs. now apply div_finite.
Qed.

Lemma order_size_spec_witness :
  Order_Size (preprocess_row (mk_raw 2023 1 5 9 1 1 0 (of_Z 30) (of_Z 3) 0)) =
    signed_inf (sign (of_Z 30)) /\
  Order_Size (preprocess_row (mk_raw 2023 1 5 9 1 1 4 (of_Z 30) (of_Z 3) 0)) =
    Fin (Q2Qc (inject_Z 30) / Q2Qc (inject_Z 4))%Qc.
Proof.
  split.
  - apply (order_size_spec (mk_raw 2023 1 5 9 1 1 0 (of_Z 30) (of_Z 3) 0)).
    reflexivity.
  - apply (order_size_spec (mk_raw 2023 1 5 9 1 1 4 (of_Z 30) (of_Z 3) 0)).
    + discriminate.
    + reflexivity.
Defined.

(** ** Return rate *)

Lemma Qc_of_Z_le (a b : Z) :
  a <= b -> (Q2Qc (inject_Z a) <= Q2Qc (inject_Z b))%Qc.
Proof.
  intros Hab. unfold Qcle. cbn [this Q2Qc]. rewrite !Qred_correct.
  now rewrite <- Zle_Qle.
Qed.

Lemma Qc_of_Z_neq0 (a : Z) : a <> 0 -> Q2Qc (inject_Z a) <> Q2Qc 0.
Proof.
  intros Ha E. apply Q2Qc_eq_iff in E. unfold Qeq in E. simpl in E. lia.
Qed.

Lemma Qcinv_nonneg (x : Qc) : (Q2Qc 0 <= x)%Qc -> (Q2Qc 0 <= / x)%Qc.
Proof.
  unfold Qcle, Qcinv. cbn [this Q2Qc]. rewrite !Qred_correct.
  apply Qinv_le_0_compat.
Qed.

Lemma Qc_ratio_bounds (k n : Z) :
  0 <= k <= n -> 0 < n ->
  (Q2Qc 0 <= Q2Qc (inject_Z k) / Q2Qc (inject_Z n) * Q2Qc (inject_Z 100))%Qc /\
  (Q2Qc (inject_Z k) / Q2Qc (inject_Z n) * Q2Qc (inject_Z 100) <= Q2Qc (inject_Z 100))%Qc.
Proof.
  intros Hk Hn.
  set (K := Q2Qc (inject_Z k)). set (N := Q2Qc (inject_Z n)).
  set (C := Q2Qc (inject_Z 100)).
  assert (HK : (Q2Qc 0 <= K)%Qc) by (apply (Qc_of_Z_le 0 k); lia).
  assert (HN : (Q2Qc 0 <= N)%Qc) by (apply (Qc_of_Z_le 0 n); lia).
  assert (HKN : (K <= N)%Qc) by (apply Qc_of_Z_le; lia).
  assert (HC : (Q2Qc 0 <= C)%Qc) by (apply (Qc_of_Z_le 0 100); lia).
  assert (HN0 : N <> Q2Qc 0) by (apply Qc_of_Z_neq0; lia).
  assert (Hinv : (Q2Qc 0 <= / N)%Qc) by now apply Qcinv_nonneg.
  assert (H0 : (Q2Qc 0 <= K / N)%Qc).
  { unfold Qcdiv. rewrite <- (Qcmult_0_l (/ N)). now apply Qcmult_le_compat_r. }
  assert (H1 : (K / N <= Q2Qc 1)%Qc).
  { unfold Qcdiv. rewrite <- (Qcmult_inv_r N HN0). now apply Qcmult_le_compat_r. }
  split.
  - rewrite <- (Qcmult_0_l C). now apply Qcmult_le_compat_r.
  - rewrite <- (Qcmult_1_l C) at 2. now apply Qcmult_le_compat_r.
Qed.

(** X4 (return rate).  For a view with at least one row the return rate is
    finite: it is 100 times the number of returned orders over the number of
    orders, a value between 0 and 100. *)
Theorem return_rate_bounds (df : list row) :
  df <> [] ->
  exists m q,
    calculate_advanced_metrics df = Return m /\
    Metrics.Return_Rate m = Fin q /\
    q = (Q2Qc (inject_Z (Z.of_nat (List.length (filter Return_Flag df)))) /
         Q2Qc (inject_Z (Z.of_nat (List.length df))) * Q2Qc (inject_Z 100))%Qc /\
    (Q2Qc 0 <= q)%Qc /\ (q <= Q2Qc (inject_Z 100))%Qc.
Proof.
  intros Hne.
  destruct (calculate_advanced_metrics_inv df) as [mom [yoy [E _]]].
  assert (Hlen : 0 < Z.of_nat (List.length df)).
  { destruct df; [congruence|]. simpl. lia. }
  eexists. eexists. split; [exact E|]. cbn [Metrics.Return_Rate].
  assert (Hk : List.length (filter (fun b : bool => b) (map Return_Flag df)) =
               List.length (filter Return_Flag df)).
  { clear. induction df as [|r df IH]; simpl; [reflexivity|].
    destruct (Return_Flag r); simpl; congruence. }
  unfold mean_bool. rewrite Hk, length_map. unfold of_nat.
  change (of_Z (Z.of_nat (List.length (filter Return_Flag df))))
    with (Fin (Q2Qc (inject_Z (Z.of_nat (List.length (filter Return_Flag df)))))).
  rewrite div_finite by lia.
  split; [reflexivity|]. split; [reflexivity|].
  apply Qc_ratio_bounds; [|assumption].
  split; [lia|]. apply Nat2Z.inj_le, length_filter_le.
Qed.

Lemma return_rate_bounds_witness :
  exists m q,
    calculate_advanced_metrics sample_orders = Return m /\
    Metrics.Return_Rate m = Fin q /\
    (Q2Qc 0 <= q)%Qc /\ (q <= Q2Qc (inject_Z 100))%Qc.
Proof.
  destruct (return_rate_bounds sample_orders) as [m [q [E [Hq [_ [H0 H1]]]]]].
  - discriminate.
  - exists m, q. repeat split; assumption.
Defined.

(** ** Month-over-month growth of finite totals *)

(** X5 (finite growth).  For a view of whole sales amounts whose magnitudes
    add up to at most 2^53 (so that no monthly sum is rounded or overflows)
    and whose sorted monthly totals end with [prev] and [last], both totals
    are finite, and the MoM growth is finite exactly when [prev] is not 0;
    it is then [(last - prev) / prev * 100], rounding aside. *)
Theorem mom_growth_finite (df : list row)
    (init : list (string * float64)) (k_prev k_last : string) (prev last : float64) :
  whole_amounts (map Total_Sales df) ->
  sorted_monthly_totals df (init ++ [(k_prev, prev); (k_last, last)]) ->
  exists m p l,
    calculate_advanced_metrics df = Return m /\
    prev = Fin p /\ last = Fin l /\
    (isfinite (Metrics.MoM_Growth m) = true <-> p <> Q2Qc 0) /\
    (p <> Q2Qc 0 ->
     Metrics.MoM_Growth m = Fin ((l - p) / p * Q2Qc (inject_Z 100))%Qc).
Proof.
  intros Hwhole Hms. pose proof (whole_amounts_no_inf _ Hwhole) as Hs.
  apply sorted_monthly_totals_unique in Hms.
  destruct (calculate_advanced_metrics_inv df) as [mom [yoy [E [_ [Hmom _]]]]].
  pose proof (groupby_sum_all_finite Year_Month Total_Sales df Hs) as Hfin.
  fold (monthly_sales df) in Hfin. rewrite <- Hms in Hfin.
  rewrite map_app, Forall_app in Hfin. destruct Hfin as [_ Hfin].
  inversion Hfin as [|? ? Hp Hfin']; subst. inversion Hfin' as [|? ? Hl _]; subst.
  simpl in Hp, Hl.
  destruct prev as [p| | |]; try discriminate.
  destruct last as [l| | |]; try discriminate.
  exists {| Metrics.Total_Sales := sum (map Total_Sales df);
            Metrics.Total_Quantity := sum_int64 (map Quantity_Sold df);
            Metrics.Total_Profit := sum (map Profit df);
            Metrics.Avg_Order_Size :=
              (sum (map Total_Sales df) / of_Z (sum_int64 (map Quantity_Sold df)))%f64;
            Metrics.Return_Rate := (mean_bool (map Return_Flag df) * of_Z 100)%f64;
            Metrics.MoM_Growth := mom;
            Metrics.YoY_Growth := yoy |}, p, l.
  split; [exact E|]. split; [reflexivity|]. split; [reflexivity|].
  cbn [Metrics.MoM_Growth].
  rewrite (Hmom _ _ _ (eq_sym Hms)). cbn [snd].
  unfold sub. cbn [neg add div].
  destruct (Qc_eq_dec p (Q2Qc 0)) as [->|Hp0].
  - rewrite Qc_eq_bool_refl. split; [|congruence].
    split; [|congruence].
    destruct (l + - Q2Qc 0 ?= Q2Qc 0)%Qc; discriminate.
  - rewrite (Qc_eq_bool_false _ _ Hp0). cbn [mul of_Z].
    split; [split; [intros _; exact Hp0|reflexivity]|].
    intros _. reflexivity.
Qed.

Lemma mom_growth_finite_witness :
  exists m p l,
    calculate_advanced_metrics two_months = Return m /\
    of_Z 1000 = Fin p /\ of_Z 1200 = Fin l /\
    (isfinite (Metrics.MoM_Growth m) = true <-> p <> Q2Qc 0).
Proof.
  destruct (mom_growth_finite two_months [] "2023-01" "2023-02" (of_Z 1000) (of_Z 1200))
    as [m [p [l [E [Hp [Hl [Hiff _]]]]]]].
  - exists [400; 1200; 600]. split; [reflexivity|]. vm_compute. discriminate.
  - exact sorted_monthly_totals_two_months.
  - exists m, p, l. repeat split; try assumption; apply Hiff.
Defined.

(** ** The insight generator on a view with rows *)

Lemma ltb_asym (x y : float64) : ltb x y = true -> ltb y x = false.
Proof.
  destruct x as [a| | |], y as [b| | |]; simpl; try discriminate; try reflexivity.
  intros Hab. fold (ltb (Fin a) (Fin b)) in Hab. fold (ltb (Fin b) (Fin a)).
  apply ltb_Fin in Hab. apply ltb_Fin_false. now apply Qclt_le_weak.
Qed.

Section Argmax.

Context {A : Type} (col : A -> float64).

Lemma first_max_spec (l : list A) (best : A) :
  isnan (col best) = false ->
  Forall (fun r => isnan (col r) = false) l ->
  In (first_max col best l) (best :: l) /\
  fle (col best) (col (first_max col best l)) /\
  (forall x, In x l -> fle (col x) (col (first_max col best l))).
Proof.
  revert best. induction l as [|r l IH]; intros best Hb Hl; simpl.
  - split; [now left|]. split; [|contradiction].
    unfold fle. destruct (col best) as [q| | |]; simpl; try reflexivity.
    fold (ltb (Fin q) (Fin q)). apply ltb_Fin_false, Qcle_refl.
  - inversion Hl as [|? ? Hr Hl']; subst.
    destruct (ltb (col best) (col r)) eqn:E.
    + destruct (IH r Hr Hl') as [Hin [Hbest Hall]].
      split; [right; exact Hin|]. split.
      * apply (fle_trans _ (col r)); [assumption| |assumption].
        unfold fle. now apply ltb_asym.
      * intros x [<-|Hx]; [assumption|now apply Hall].
    + destruct (IH best Hb Hl') as [Hin [Hbest Hall]].
      split; [destruct Hin as [<-|Hin]; [now left|right; now right]|].
      split; [assumption|].
      intros x [<-|Hx]; [|now apply Hall].
      apply (fle_trans _ (col best)); assumption.
Qed.

(** On a frame with rows and without NaN, [idxmax] returns a row of the
    frame whose value no other row exceeds. *)
Lemma loc_idxmax_spec (df : list A) :
  df <> [] -> Forall (fun r => isnan (col r) = false) df ->
  exists r,
    loc_idxmax col df = Return r /\ In r df /\
    (forall x, In x df -> fle (col x) (col r)).
Proof.
  intros Hne Hall.
  assert (Hf : filter (fun r => negb (isnan (col r))) df = df).
  { clear Hne. induction Hall as [|r l Hr Hl IH]; simpl; [reflexivity|].
    rewrite Hr. simpl. now rewrite IH. }
  unfold loc_idxmax. destruct df as [|r0 l]; [congruence|].
  rewrite Hf. inversion Hall as [|? ? Hr0 Hl]; subst.
  destruct (first_max_spec l r0 Hr0 Hl) as [Hin [Hbest Hrest]].
  eexists. split; [reflexivity|]. split; [exact Hin|].
  intros x [<-|Hx]; [assumption|now apply Hrest].
Qed.

End Argmax.

Section GroupArgmax.

Context {K : Type} `{OrdLaws K}.
Variables (key : row -> K) (col : row -> float64).

(** The best group of a view with rows and without infinite values. *)
Lemma groupby_sum_idxmax (df : list row) :
  df <> [] -> no_inf (map col df) ->
  exists k v,
    loc_idxmax snd (groupby_sum key col df) = Return (k, v) /\
    In (k, v) (groupby_sum key col df) /\
    In k (map key df) /\
    v = sum (map col (filter (fun r => eqb_key (key r) k) df)) /\
    (forall k' v', In (k', v') (groupby_sum key col df) -> fle v' v).
Proof.
  intros Hne Hs.
  assert (Hgne : groupby_sum key col df <> []).
  { destruct df as [|r df]; [congruence|].
    intros E. assert (Hin : In (key r) (map fst (groupby_sum key col (r :: df)))).
    { rewrite groupby_sum_keys. apply group_keys_In. now left. }
    rewrite E in Hin. contradiction. }
  assert (Hnan : Forall (fun g : K * float64 => isnan (snd g) = false)
                        (groupby_sum key col df)).
  { pose proof (groupby_sum_all_finite key col df Hs) as Hfin.
    rewrite Forall_map in Hfin. eapply Forall_impl; [|exact Hfin].
    intros g Hg. simpl in Hg. now destruct (snd g). }
  destruct (loc_idxmax_spec snd (groupby_sum key col df) Hgne Hnan)
    as [[k v] [E [Hin Hmax]]].
  exists k, v. split; [exact E|]. split; [exact Hin|].
  destruct (groupby_sum_In key col df k v Hin) as [Hk Hv].
  split; [exact Hk|]. split; [exact Hv|].
  intros k' v' Hin'. exact (Hmax (k', v') Hin').
Qed.

End GroupArgmax.

Lemma values_0_of_key (gs : list (string * float64)) (k : string) (v : float64) :
  In (k, v) gs ->
  (forall v', In (k, v') gs -> v' = v) ->
  values_0 (map snd (filter (fun g => (fst g =? k)%string) gs)) = Return v.
Proof.
  induction gs as [|[k0 v0] gs IH]; intros Hin Huniq; [contradiction|].
  simpl. destruct (String.eqb_spec k0 k) as [->|Hne].
  - simpl. f_equal. apply Huniq. now left.
  - apply IH.
    + destruct Hin as [E|Hin]; [inversion E; congruence|assumption].
    + intros v' Hv'. apply Huniq. now right.
Qed.

Lemma percentage_of_zero (x : float64) :
  isfinite (x / of_Z 0 * of_Z 100)%f64 = false.
Proof. rewrite div_zero, signed_inf_times_100. apply signed_inf_not_finite. Qed.

(** X13 (insights).  For a view with at least one row and without infinite
    sales or profit amounts the insight generator raises nothing and returns
    three insights and two recommendations in a fixed order.  The peak time
    of day, the best product and the best region are groups of the view
    whose summed sales no other group exceeds, the recommended product is
    one whose summed profit no other product exceeds, and the first
    recommendation names the peak time of the first insight.  Each share is
    the group total over the total sales of the view times 100, unguarded:
    when the sales of the view add up to 0 the three shares are not
    finite. *)
Theorem insights_spec (df : list row) :
  df <> [] -> no_inf (map Total_Sales df) -> no_inf (map Profit df) ->
  exists peak_time peak_sales product product_total region region_total
         best best_profit,
    generate_insights_and_recommendations df =
      Return
        ([PeakSalesTime peak_time
            (peak_sales / sum (map Total_Sales df) * of_Z 100)%f64;
          BestProduct product product_total
            (product_total / sum (map Total_Sales df) * of_Z 100)%f64;
          BestRegion region region_total
            (region_total / sum (map Total_Sales df) * of_Z 100)%f64],
         [IncreaseEfforts peak_time; FocusOnProduct best best_profit]) /\
    (In (peak_time, peak_sales) (groupby_sum Time_of_Day Total_Sales df) /\
     forall k v, In (k, v) (groupby_sum Time_of_Day Total_Sales df) -> fle v peak_sales) /\
    (In (product, product_total) (product_sales df) /\
     forall k v, In (k, v) (product_sales df) -> fle v product_total) /\
    (In (region, region_total) (groupby_sum Region_ID Total_Sales df) /\
     forall k v, In (k, v) (groupby_sum Region_ID Total_Sales df) -> fle v region_total) /\
    (In (best, best_profit) (groupby_sum Product_ID Profit df) /\
     forall k v, In (k, v) (groupby_sum Product_ID Profit df) -> fle v best_profit) /\
    (sum (map Total_Sales df) = of_Z 0 ->
     isfinite (peak_sales / sum (map Total_Sales df) * of_Z 100)%f64 = false /\
     isfinite (product_total / sum (map Total_Sales df) * of_Z 100)%f64 = false /\
     isfinite (region_total / sum (map Total_Sales df) * of_Z 100)%f64 = false).
Proof.
  intros Hne Hs Hp.
  destruct (groupby_sum_idxmax Time_of_Day Total_Sales df Hne Hs)
    as [t [ts [Et [Htin [_ [Htv Htmax]]]]]].
  destruct (groupby_sum_idxmax Product_ID Total_Sales df Hne Hs)
    as [p [ps [Ep [Hpin [_ [_ Hpmax]]]]]].
  destruct (groupby_sum_idxmax Region_ID Total_Sales df Hne Hs)
    as [r [rs [Er [Hrin [_ [_ Hrmax]]]]]].
  destruct (groupby_sum_idxmax Product_ID Profit df Hne Hp)
    as [b [bp [Eb [Hbin [_ [_ Hbmax]]]]]].
  exists t, ts, p, ps, r, rs, b, bp.
  split; [|repeat split; try assumption].
  - unfold generate_insights_and_recommendations.
    rewrite Et. cbn [bind fst snd].
    rewrite (values_0_of_key _ t ts Htin).
    + cbn [bind]. rewrite Ep. cbn [bind]. rewrite Er. cbn [bind].
      rewrite Eb. cbn [bind fst snd app]. reflexivity.
    + intros v' Hv'.
      destruct (groupby_sum_In Time_of_Day Total_Sales df t v' Hv') as [_ ->].
      now symmetry.
  - rewrite H. apply percentage_of_zero.
  - rewrite H. apply percentage_of_zero.
  - rewrite H. apply percentage_of_zero.
Qed.

Lemma insights_spec_witness :
  exists peak_time peak_sales,
    In (peak_time, peak_sales) (groupby_sum Time_of_Day Total_Sales sample_orders) /\
    forall k v,
      In (k, v) (groupby_sum Time_of_Day Total_Sales sample_orders) -> fle v peak_sales.
Proof.
  destruct (insights_spec sample_orders)
    as [t [ts [p [ps [r [rs [b [bp [_ [Ht _]]]]]]]]]].
  - discriminate.
  - unfold sample_orders, load_and_preprocess_data. rewrite map_map.
    repeat constructor.
  - unfold sample_orders, load_and_preprocess_data. rewrite map_map.
    repeat constructor.
  - exists t, ts. exact Ht.
Defined.

(** ** The further properties at sample data *)

Lemma night_is_the_default_witness :
  categorize_time_of_day 24 = "Night" /\ categorize_time_of_day (-1) = "Night".
Proof.
  split.
  - apply (night_is_the_default 24). lia.
  - apply (night_is_the_default (-1)). lia.
Defined.

Lemma monthly_sales_trend_spec_witness :
  exists p,
    In p (plot_monthly_sales_trend sample_orders) /\
    Trend.Month_Num p = Trend.Month p /\
    Trend.Date_Label p =
      (Trend.Month_Name p ++ " " ++ Z_to_str (Trend.Year p))%string.
Proof.
  destruct (monthly_sales_trend_spec sample_orders) as [_ [_ [_ Hrows]]].
  remember (plot_monthly_sales_trend sample_orders) as points eqn:E.
  destruct points as [|p points]; [vm_compute in E; discriminate E|].
  exists p. split; [now left|].
  destruct (Hrows p (or_introl eq_refl)) as [_ Hlabel]. exact Hlabel.
Defined.

Lemma product_share_ranking_witness :
  In (6, of_Z (-100)) (top_products six_products) \/
  before_desc (of_Z 10) (of_Z (-100)) = true.
Proof.
  destruct (product_share_ranking six_products) as [_ [_ [_ [Hdom _]]]].
  apply (Hdom 5 (of_Z 10) 6 (of_Z (-100))).
  - vm_compute. do 4 right. left. reflexivity.
  - vm_compute. do 5 right. left. reflexivity.
Defined.

Lemma sales_vs_returns_spec_witness :
  zsum (map RegionData.Returns (plot_sales_vs_returns sample_orders)) = 1 /\
  forall p, In p (plot_sales_vs_returns sample_orders) ->
    0 <= RegionData.Returns p <=
      Z.of_nat (List.length
        (filter (fun r => Region_ID r =? RegionData.Region_ID p) sample_orders)).
Proof.
  destruct (sales_vs_returns_spec sample_orders) as [_ [_ [Hrows [_ Hsum]]]].
  split; [rewrite Hsum; reflexivity|].
  intros p Hp. destruct (Hrows p Hp) as [_ [_ Hb]]. exact Hb.
Defined.

Lemma sales_rep_chart_spec_witness :
  List.length (create_sales_rep_performance_chart twelve_reps) = 10%nat /\
  forall p q,
    In p (create_sales_rep_performance_chart twelve_reps) ->
    In q (rep_data twelve_reps) ->
    In q (create_sales_rep_performance_chart twelve_reps) \/
    before_desc (RepData.Total_Sales p) (RepData.Total_Sales q) = true.
Proof.
  destruct (sales_rep_chart_spec twelve_reps) as [_ [Hlen [_ [_ [_ Hdom]]]]].
  split; [rewrite Hlen; reflexivity|exact Hdom].
Defined.

(** ** Total quantity *)

Lemma wrap64_small (z : Z) : - 2 ^ 63 <= z < 2 ^ 63 -> wrap64 z = z.
Proof.
  intros Hz. unfold wrap64. rewrite Z.mod_small by lia. lia.
Qed.

Lemma zsum_nonneg (l : list Z) : Forall (fun q => 0 <= q) l -> 0 <= zsum l.
Proof. induction 1; simpl; lia. Qed.

Lemma sum_int64_exact (l : list Z) (acc : Z) :
  Forall (fun q => 0 <= q) l -> 0 <= acc -> acc + zsum l < 2 ^ 63 ->
  fold_left (fun a x => wrap64 (a + x)) l acc = acc + zsum l.
Proof.
  revert acc. induction l as [|q l IH]; intros acc Hl Hacc Hb; simpl in *.
  - lia.
  - inversion Hl as [|? ? Hq Hl']; subst.
    pose proof (zsum_nonneg l Hl') as Hz.
    rewrite wrap64_small by lia. rewrite IH by (try assumption; lia). lia.
Qed.

(** X15 (total quantity).  When no quantity is negative and the quantities
    add up to less than 2^63, the total quantity of the snapshot is their
    exact sum: the 64-bit sum does not wrap around. *)
Theorem total_quantity_exact (df : list row) :
  Forall (fun r => 0 <= Quantity_Sold r) df ->
  zsum (map Quantity_Sold df) < 2 ^ 63 ->
  exists m,
    calculate_advanced_metrics df = Return m /\
    Metrics.Total_Quantity m = zsum (map Quantity_Sold df).
Proof.
  intros Hq Hb.
  destruct (calculate_advanced_metrics_inv df) as [mom [yoy [E _]]].
  eexists. split; [exact E|]. cbn [Metrics.Total_Quantity].
  unfold sum_int64. rewrite sum_int64_exact; [reflexivity| |lia|lia].
  now rewrite Forall_map.
Qed.

Lemma total_quantity_exact_witness :
  exists m,
    calculate_advanced_metrics sample_orders = Return m /\
    Metrics.Total_Quantity m = zsum (map Quantity_Sold sample_orders).
Proof.
  apply (total_quantity_exact sample_orders).
  - unfold sample_orders, load_and_preprocess_data. rewrite Forall_map.
    repeat constructor; simpl; lia.
  - vm_compute. reflexivity.
Defined.
